(** * Code-Empathizer: the analysis core, embedded and verified

    A shallow embedding of
      - [src/duplication_analyzer.py]            (module [DuplicationAnalyzer]),
      - [src/language_analyzers/base.py]         (module [LanguageAnalyzer]),
      - [src/language_analyzers/typescript_analyzer.py] (module [TypeScriptAnalyzer]),
      - [src/language_analyzers/factory.py]      (module [AnalyzerFactory]),
      - the file limits of [src/github_utils.py] (module [GitHubUtils]),
    together with the pieces of the Python runtime they call (module [Py]) and
    the MD5 digest of [hashlib] (module [MD5]). The notions the
    specification uses and the sample inputs follow the model; then come the
    lemmas about each component, the properties the specification claims
    (module [Claims]), each under the identifier of its claim, and last the
    further properties of the code (the modules named [...Properties]), each
    under an identifier of its own.

    Conventions of the embedding.
      - A Python [str] is a [string] whose characters are code points below
        256; [str.encode()] is UTF-8 on that range.
      - A Python [int] is a [Z]; a Python [float] is a rational [Q]. The
        scores of the analyzers are computed exactly (the rounding error of
        IEEE doubles is not modelled there); the percentages of the
        duplication detector, which are rounded to two decimals, are
        computed as Python computes them on doubles ([Py.double]).
      - A Python [dict] is an insertion-ordered association list ([Py.dict]),
        updated the way [d[k] = v] updates it.
      - A call that may raise returns an [Py.outcome]. *)

From Stdlib Require Import ZArith QArith Qround Lqa Lia List Bool.
From Stdlib Require Import Ascii String DecimalString.
Import ListNotations.

Local Open Scope Z_scope.

(* ================================================================== *)
(** * The Python runtime, as far as the sources use it *)
(* ================================================================== *)

Module Py.

(** ** Exceptions *)

(** An instance of [Exception]: the class name and [str(e)]. *)
Record exception : Type := Exception { exc_class : string; exc_str : string }.

Inductive outcome (A : Type) : Type :=
| Returns (a : A)
| Raises (e : exception).
Arguments Returns {A} a.
Arguments Raises {A} e.

Definition bind {A B} (m : outcome A) (k : A -> outcome B) : outcome B :=
  match m with
  | Returns a => k a
  | Raises e => Raises e
  end.

(** ** Characters and strings *)

Definition chr (n : nat) : string := String (ascii_of_nat n) EmptyString.

Definition newline : ascii := ascii_of_nat 10.

(** [str.isspace] on one character (code points below 256); the class [\s]
    of [re] on a [str] pattern is the same set. *)
Definition isspace (c : ascii) : bool :=
  let n := nat_of_ascii c in
  ((9 <=? n) && (n <=? 13) || (28 <=? n) && (n <=? 32)
   || (n =? 133) || (n =? 160))%nat.

Fixpoint lstrip (s : string) : string :=
  match s with
  | String c rest => if isspace c then lstrip rest else s
  | EmptyString => EmptyString
  end.

(** [s.rstrip()]: a character is kept when it is not a space or when
    something is kept after it. *)
Fixpoint rstrip (s : string) : string :=
  match s with
  | EmptyString => EmptyString
  | String c rest =>
      match rstrip rest with
      | EmptyString => if isspace c then EmptyString else String c EmptyString
      | kept => String c kept
      end
  end.

Definition strip (s : string) : string := rstrip (lstrip s).

(** Truth value of a [str]: it is not empty. *)
Definition truthy (s : string) : bool :=
  match s with EmptyString => false | String _ _ => true end.

(** [s.split(sep)] for a separator of one character: always at least one
    piece. [cur] is the piece being read. *)
Fixpoint split_aux (sep : ascii) (cur : string) (s : string) : list string :=
  match s with
  | EmptyString => [cur]
  | String c rest =>
      if Ascii.eqb c sep then cur :: split_aux sep EmptyString rest
      else split_aux sep (cur ++ String c EmptyString) rest
  end.

Definition split (sep : ascii) (s : string) : list string :=
  split_aux sep EmptyString s.

(** [s.split('\n')]. *)
Definition split_lines (s : string) : list string := split newline s.

(** [c in s] for one character. *)
Fixpoint has_char (c : ascii) (s : string) : bool :=
  match s with
  | EmptyString => false
  | String a rest => Ascii.eqb a c || has_char c rest
  end.

(** [s.count('\n')]. *)
Fixpoint count_newlines (s : string) : Z :=
  match s with
  | EmptyString => 0
  | String c rest =>
      (if Ascii.eqb c newline then 1 else 0) + count_newlines rest
  end.

(** ['\n'.join(parts)]. *)
Fixpoint join_lines (parts : list string) : string :=
  match parts with
  | [] => EmptyString
  | [p] => p
  | p :: rest => p ++ String newline (join_lines rest)
  end.

Fixpoint startswith (p s : string) : bool :=
  match p, s with
  | EmptyString, _ => true
  | String a p', String b s' => Ascii.eqb a b && startswith p' s'
  | String _ _, EmptyString => false
  end.

(** [s.endswith(suffix)]. *)
Definition endswith (s suffix : string) : bool :=
  let n := String.length s in
  let k := String.length suffix in
  (k <=? n)%nat && String.eqb (substring (n - k) k s) suffix.

Fixpoint drop (n : nat) (s : string) : string :=
  match n, s with
  | O, _ => s
  | S k, String _ rest => drop k rest
  | S _, EmptyString => EmptyString
  end.

(** [len(s)]. *)
Definition len (s : string) : Z := Z.of_nat (String.length s).

(** [c.lower()] on one character: A-Z, and the upper-case letters of
    Latin-1 (0xC0-0xDE but the multiplication sign 0xD7). *)
Definition lower_char (c : ascii) : ascii :=
  let n := nat_of_ascii c in
  if ((65 <=? n) && (n <=? 90)
      || (192 <=? n) && (n <=? 222) && negb (n =? 215))%nat
  then ascii_of_nat (n + 32) else c.

Fixpoint lower (s : string) : string :=
  match s with
  | EmptyString => EmptyString
  | String c rest => String (lower_char c) (lower rest)
  end.

(** [str(n)] for an [int]. *)
Definition str_of_int (n : Z) : string :=
  NilZero.string_of_int (Z.to_int n).

(** [s.encode()]: UTF-8, one byte below 128 and two bytes from 128 to 255. *)
Fixpoint encode (s : string) : list Z :=
  match s with
  | EmptyString => []
  | String c rest =>
      let n := Z.of_nat (nat_of_ascii c) in
      if n <? 128 then n :: encode rest
      else Z.lor 192 (Z.shiftr n 6) :: Z.lor 128 (Z.land n 63) :: encode rest
  end.

(** ** [dict]: insertion-ordered, keyed by [str] *)

Definition dict (V : Type) : Type := list (string * V).

Section Dict.
Context {V : Type}.

(** [d.get(k)]: [None] when the key is absent. *)
Fixpoint get (k : string) (d : dict V) : option V :=
  match d with
  | [] => None
  | (k', v) :: rest => if String.eqb k k' then Some v else get k rest
  end.

(** [d.get(k, default)]. *)
Definition get_default (k : string) (default : V) (d : dict V) : V :=
  match get k d with Some v => v | None => default end.

(** [d[k] = v]: an existing key keeps its place, a new one goes last. *)
Fixpoint set (k : string) (v : V) (d : dict V) : dict V :=
  match d with
  | [] => [(k, v)]
  | (k', v') :: rest =>
      if String.eqb k k' then (k', v) :: rest else (k', v') :: set k v rest
  end.

Definition keys (d : dict V) : list string := map fst d.
Definition values (d : dict V) : list V := map snd d.

End Dict.

(** ** Numbers *)

(** [sum(xs)] over ints and over floats. *)
Definition sumZ (xs : list Z) : Z := fold_left Z.add xs 0.
Definition sumQ (xs : list Q) : Q := fold_left Qplus xs 0%Q.

(** [len(xs)]. *)
Definition llen {A} (xs : list A) : Z := Z.of_nat (List.length xs).

(** [min(1.0, x)]. *)
Definition min1 (x : Q) : Q :=
  match (x ?= 1)%Q with Lt => x | _ => 1%Q end.

(** Round half to even, to an integer. *)
Definition round_half_even (x : Q) : Z :=
  let f := Qfloor x in
  match (x - inject_Z f ?= 1 # 2)%Q with
  | Lt => f
  | Gt => f + 1
  | Eq => if Z.even f then f else f + 1
  end.

(** *** [float]: the doubles of the duplication percentages

    The percentages of [duplication_analyzer.py] are rounded to two
    decimals, where a rounding error of the quotient can show. There a
    [float] is the exact value of an IEEE 754 double, and every operation
    rounds to the nearest double, ties to the even significand. The
    range of the exponent is not modelled: the values are quotients of
    counts of lines, times 100, far from overflow and underflow. *)

(** [2 ** k] for an integer [k] of either sign. *)
Definition pow2 (k : Z) : Q :=
  if 0 <=? k then inject_Z (2 ^ k) else 1 # Z.to_pos (2 ^ (- k)).

(** The [e] with [2 ** e <= n / d < 2 ** (e + 1)]. *)
Definition binade (n d : positive) : Z :=
  let e0 := Z.log2 (Zpos n) - Z.log2 (Zpos d) in
  match (pow2 e0 ?= Zpos n # d)%Q with
  | Gt => e0 - 1
  | _ => e0
  end.

(** The double nearest to [n / d]: a significand of 53 bits. *)
Definition double_pos (n d : positive) : Q :=
  let e := binade n d - 52 in
  (inject_Z (round_half_even ((Zpos n # d) * pow2 (- e))) * pow2 e)%Q.

(** The double nearest to a rational. *)
Definition double (x : Q) : Q :=
  match Qnum x with
  | 0 => 0%Q
  | Zpos n => double_pos n (Qden x)
  | Zneg n => (- double_pos n (Qden x))%Q
  end.

(** [a / b] on two [int]: the quotient, correctly rounded. The divisors
    of the sources are [max(..., 1)]. *)
Definition truediv (a b : Z) : Q := double (inject_Z a / inject_Z b)%Q.

(** [x * y] on a [float] and a number. *)
Definition fmul (x y : Q) : Q := double (x * y)%Q.

(** [round(x, 2)] on a [float]: the exact value of the double is rounded
    half to even at the second decimal, and the result is the double
    nearest to that decimal. *)
Definition round2 (x : Q) : Q :=
  double (inject_Z (round_half_even (x * 100)) / 100)%Q.

(** [max(pairs, key=lambda x: x[1])]: the first pair whose second component
    is the largest; [None] stands for the [ValueError] on an empty
    sequence. *)
Fixpoint max_by_snd {A} (best : A * Z) (rest : list (A * Z)) : A * Z :=
  match rest with
  | [] => best
  | p :: rest' => max_by_snd (if snd best <? snd p then p else best) rest'
  end.

Definition max_item {A} (items : list (A * Z)) : option (A * Z) :=
  match items with
  | [] => None
  | p :: rest => Some (max_by_snd p rest)
  end.

End Py.

(* ================================================================== *)
(** * [hashlib.md5(data).hexdigest()] (RFC 1321) *)
(* ================================================================== *)

Module MD5.

Definition mask32 : Z := 4294967295.

Definition add32 (a b : Z) : Z := Z.land (a + b) mask32.

Definition not32 (a : Z) : Z := Z.lxor a mask32.

Definition rotl32 (x c : Z) : Z :=
  Z.lor (Z.land (Z.shiftl x c) mask32) (Z.shiftr x (32 - c)).

(** floor(2^32 * abs(sin(i + 1))) for i = 0..63. *)
Definition K : list Z :=
  [ 3614090360; 3905402710; 606105819; 3250441966;
    4118548399; 1200080426; 2821735955; 4249261313;
    1770035416; 2336552879; 4294925233; 2304563134;
    1804603682; 4254626195; 2792965006; 1236535329;
    4129170786; 3225465664; 643717713; 3921069994;
    3593408605; 38016083; 3634488961; 3889429448;
    568446438; 3275163606; 4107603335; 1163531501;
    2850285829; 4243563512; 1735328473; 2368359562;
    4294588738; 2272392833; 1839030562; 4259657740;
    2763975236; 1272893353; 4139469664; 3200236656;
    681279174; 3936430074; 3572445317; 76029189;
    3654602809; 3873151461; 530742520; 3299628645;
    4096336452; 1126891415; 2878612391; 4237533241;
    1700485571; 2399980690; 4293915773; 2240044497;
    1873313359; 4264355552; 2734768916; 1309151649;
    4149444226; 3174756917; 718787259; 3951481745 ].

(** Per-round left rotations. *)
Definition shifts : list Z :=
  [ 7; 12; 17; 22; 7; 12; 17; 22; 7; 12; 17; 22; 7; 12; 17; 22;
    5; 9; 14; 20; 5; 9; 14; 20; 5; 9; 14; 20; 5; 9; 14; 20;
    4; 11; 16; 23; 4; 11; 16; 23; 4; 11; 16; 23; 4; 11; 16; 23;
    6; 10; 15; 21; 6; 10; 15; 21; 6; 10; 15; 21; 6; 10; 15; 21 ].

(** The message, a 1 bit, zeros up to 56 modulo 64, and the bit length on
    64 bits, least significant byte first. *)
Definition le_bytes (n : nat) (x : Z) : list Z :=
  map (fun i => Z.land (Z.shiftr x (8 * Z.of_nat i)) 255) (seq 0 n).

Definition pad (msg : list Z) : list Z :=
  let n := Z.of_nat (List.length msg) in
  let zeros := Z.to_nat ((55 - n) mod 64) in
  msg ++ 128 :: repeat 0 zeros ++ le_bytes 8 (Z.land (8 * n) (2 ^ 64 - 1)).

Definition word_of_bytes (bs : list Z) : Z :=
  fold_right (fun b acc => b + 256 * acc) 0 bs.

Fixpoint words (n : nat) (bs : list Z) : list Z :=
  match n with
  | O => []
  | S k => word_of_bytes (firstn 4 bs) :: words k (skipn 4 bs)
  end.

Record state : Type := State { sa : Z; sb : Z; sc : Z; sd : Z }.

Definition init : state := State 1732584193 4023233417 2562383102 271733878.

Definition round (m : list Z) (st : state) (i : nat) : state :=
  let '(State a b c d) := st in
  let iz := Z.of_nat i in
  let '(f, g) :=
    if iz <? 16 then (Z.lor (Z.land b c) (Z.land (not32 b) d), iz)
    else if iz <? 32 then
      (Z.lor (Z.land d b) (Z.land (not32 d) c), (5 * iz + 1) mod 16)
    else if iz <? 48 then (Z.lxor b (Z.lxor c d), (3 * iz + 5) mod 16)
    else (Z.lxor c (Z.lor b (not32 d)), (7 * iz) mod 16) in
  let f' := add32 (add32 (add32 f a) (nth i K 0)) (nth (Z.to_nat g) m 0) in
  State d (add32 b (rotl32 f' (nth i shifts 0))) b c.

Definition block (st : state) (chunk : list Z) : state :=
  let m := words 16 chunk in
  let '(State a b c d) := fold_left (round m) (seq 0 64) st in
  State (add32 (sa st) a) (add32 (sb st) b) (add32 (sc st) c)
        (add32 (sd st) d).

Fixpoint blocks (n : nat) (st : state) (bs : list Z) : state :=
  match n with
  | O => st
  | S k => blocks k (block st (firstn 64 bs)) (skipn 64 bs)
  end.

Definition digest (msg : list Z) : list Z :=
  let p := pad msg in
  let '(State a b c d) := blocks (List.length p / 64) init p in
  le_bytes 4 a ++ le_bytes 4 b ++ le_bytes 4 c ++ le_bytes 4 d.

Definition hex_digit (n : Z) : ascii :=
  ascii_of_nat (Z.to_nat (if n <? 10 then 48 + n else 87 + n)).

Fixpoint hex (bs : list Z) : string :=
  match bs with
  | [] => EmptyString
  | b :: rest =>
      String (hex_digit (Z.shiftr b 4)) (String (hex_digit (Z.land b 15)) (hex rest))
  end.

(** [hashlib.md5(s.encode()).hexdigest()]. *)
Definition hexdigest (s : string) : string := hex (digest (Py.encode s)).

End MD5.

(* ================================================================== *)
(** * [duplication_analyzer.py] *)
(* ================================================================== *)

Module DuplicationAnalyzer.

Import Py.
Local Open Scope string_scope.
Local Open Scope list_scope.
Local Open Scope Z_scope.

(** The attributes set by [__init__]. *)
Record t : Type := Make { min_block_size : Z; ignore_whitespace : bool }.

(** [DuplicationAnalyzer()]: the default arguments. *)
Definition default : t := Make 5 true.

(** ** [normalize_line] *)

(** What [.*] consumes: the characters before the next newline. *)
Fixpoint dot_star (s : string) : nat :=
  match s with
  | EmptyString => O
  | String c rest => if Ascii.eqb c newline then O else S (dot_star rest)
  end.

(** What [.*?-->] consumes after an opening [<!--], when it matches: as few
    characters as possible, none of them a newline. *)
Fixpoint lazy_close (s : string) : option nat :=
  if startswith "-->" s then Some 3%nat
  else match s with
       | EmptyString => None
       | String c rest =>
           if Ascii.eqb c newline then None else option_map S (lazy_close rest)
       end.

(** Length of the match of [//.*|#.*|<!--.*?-->] that starts at the head of
    [s], if there is one; the alternatives are tried in this order. *)
Definition comment_match (s : string) : option nat :=
  if startswith "//" s then Some (2 + dot_star (drop 2 s))%nat
  else if startswith "#" s then Some (1 + dot_star (drop 1 s))%nat
  else if startswith "<!--" s then
    option_map (fun k => (4 + k)%nat) (lazy_close (drop 4 s))
  else None.

(** [re.sub(r'//.*|#.*|<!--.*?-->', '', s)]: [skip] characters of a match
    remain to be dropped. *)
Fixpoint sub_comments (skip : nat) (s : string) : string :=
  match s with
  | EmptyString => EmptyString
  | String c rest =>
      match skip with
      | S k => sub_comments k rest
      | O =>
          match comment_match s with
          | Some (S k) => sub_comments k rest
          | _ => String c (sub_comments O rest)
          end
      end
  end.

(** [re.sub(r'\s+', ' ', s)]: every run of spaces becomes one blank. *)
Fixpoint sub_spaces (in_run : bool) (s : string) : string :=
  match s with
  | EmptyString => EmptyString
  | String c rest =>
      if isspace c then
        if in_run then sub_spaces true rest
        else String " " (sub_spaces true rest)
      else String c (sub_spaces false rest)
  end.

Definition normalize_line (self : t) (line : string) : string :=
  let line := sub_comments O line in
  if ignore_whitespace self then sub_spaces false (strip line) else line.

(** ** [extract_blocks] *)

Record block : Type := Block {
  b_hash : string;
  b_content : string;
  b_original_content : string;
  b_file_path : string;
  b_start_line : Z;
  b_end_line : Z;
  b_size : Z
}.

(** The inner loop over [j]: the lines of the window that are not blank
    once normalized, as (normalized, original) pairs. *)
Definition window_lines (self : t) (window : list string)
  : list (string * string) :=
  filter (fun p => truthy (strip (fst p)))
         (map (fun line => (normalize_line self line, line)) window).

(** The body of the loop over [i]. In [range(len(lines) - min_block_size + 1)]
    the index [i + j] never leaves [lines]. *)
Definition block_at (self : t) (lines : list string) (file_path : string)
  (i : nat) : list block :=
  let window := firstn (Z.to_nat (min_block_size self)) (skipn i lines) in
  let kept := window_lines self window in
  let block_lines := map fst kept in
  let original_lines := map snd kept in
  if min_block_size self <=? llen block_lines then
    let block_content := join_lines block_lines in
    [ Block (MD5.hexdigest block_content)
            block_content
            (join_lines original_lines)
            file_path
            (Z.of_nat i + 1)
            (Z.of_nat i + min_block_size self)
            (llen block_lines) ]
  else [].

Definition extract_blocks (self : t) (content file_path : string)
  : list block :=
  let lines := split_lines content in
  flat_map (block_at self lines file_path)
           (seq 0 (Z.to_nat (llen lines - min_block_size self + 1))).

(** ** [find_duplicates] *)

(** One entry of [duplicates]. *)
Record duplicate : Type := Duplicate {
  occurrences : Z;
  blocks : list block;
  size : Z;
  content_preview : string
}.

(** [{'archivo': ..., 'porcentaje': ...}]. *)
Record mayor : Type := Mayor { archivo : string; porcentaje : Q }.

Record report : Type := Report {
  porcentaje_global : Q;
  bloques_encontrados : Z;
  total_ocurrencias : Z;
  lineas_duplicadas : Z;
  archivos_afectados : list string;
  total_archivos : Z;
  mayor_duplicacion : option mayor;
  duplicates_details : dict duplicate;
  summary : string;
  error : option string
}.

(** [blocks_by_hash[block['hash']].append(block)] on a [defaultdict(list)]. *)
Definition group_block (by_hash : dict (list block)) (b : block)
  : dict (list block) :=
  set (b_hash b) (get_default (b_hash b) [] by_hash ++ [b]) by_hash.

(** The first loop: files whose content is blank are skipped. *)
Definition group_file (self : t) (by_hash : dict (list block))
  (item : string * string) : dict (list block) :=
  let '(file_path, content) := item in
  if truthy (strip content)
  then fold_left group_block (extract_blocks self content file_path) by_hash
  else by_hash.

Definition blocks_by_hash (self : t) (files_content : dict string)
  : dict (list block) :=
  fold_left (group_file self) files_content [].

(** [s.add(x)] on a [set], kept in order of first insertion (the order in
    which Python lists a set is not specified). *)
Definition set_add (x : string) (s : list string) : list string :=
  if existsb (String.eqb x) s then s else s ++ [x].

(** The variables of the second loop. *)
Record found : Type := Found {
  duplicates : dict duplicate;
  total_duplicated_lines : Z;
  files_with_duplicates : list string
}.

Definition preview (content : string) : string :=
  if 200 <? len content then (substring 0 200 content ++ "...")%string
  else content.

(** The second loop: [len(blocks) > 1] is the pattern [b0 :: _ :: _]. *)
Definition find_step (acc : found) (item : string * list block) : found :=
  let '(block_hash, bs) := item in
  match bs with
  | b0 :: _ :: _ =>
      Found
        (set block_hash
             (Duplicate (llen bs) bs (b_size b0) (preview (b_content b0)))
             (duplicates acc))
        (total_duplicated_lines acc + b_size b0 * (llen bs - 1))
        (fold_left (fun s b => set_add (b_file_path b) s) bs
                   (files_with_duplicates acc))
  | _ => acc
  end.

Definition find_clusters (by_hash : dict (list block)) : found :=
  fold_left find_step by_hash (Found [] 0 []).

(** [file_duplication_stats[block['file_path']] += duplicate_info['size']]
    on a [defaultdict(int)]. *)
Definition stat_block (sz : Z) (stats : dict Z) (b : block) : dict Z :=
  set (b_file_path b) (get_default (b_file_path b) 0 stats + sz) stats.

Definition stat_duplicate (stats : dict Z) (d : duplicate) : dict Z :=
  fold_left (stat_block (size d)) (blocks d) stats.

Definition file_duplication_stats (dups : dict duplicate) : dict Z :=
  fold_left stat_duplicate (values dups) [].

(** [_generate_summary]. *)
Definition generate_summary (dups : dict duplicate) (percentage : Q)
  (affected_files : Z) : string :=
  let o := chr 243 in
  let '(level, description) :=
   (match (percentage ?= 5)%Q with
    | Lt => ("Excelente", "Muy poca duplicaci" ++ o ++ "n detectada")
    | _ =>
      match (percentage ?= 15)%Q with
      | Lt => ("Bueno", "Duplicaci" ++ o ++ "n dentro de l" ++ chr 237
                        ++ "mites aceptables")
      | _ =>
        match (percentage ?= 25)%Q with
        | Lt => ("Moderado", "Duplicaci" ++ o
                             ++ "n moderada, considere refactorizaci" ++ o ++ "n")
        | _ => ("Alto", "Alta duplicaci" ++ o ++ "n, refactorizaci" ++ o
                        ++ "n recomendada")
        end
      end
    end)%string in
  (level ++ ": " ++ description ++ ". " ++ str_of_int (llen dups)
         ++ " bloques duplicados en " ++ str_of_int affected_files
         ++ " archivos.")%string.

(** [sum(len(content.split('\n')) for content in files_content.values())]. *)
Definition total_lines (files_content : dict string) : Z :=
  sumZ (map (fun content => llen (split_lines content)) (values files_content)).

(** [files_content[path]] raises [KeyError] on a missing key. *)
Definition getitem (files_content : dict string) (path : string)
  : outcome string :=
  match get path files_content with
  | Some content => Returns content
  | None => Raises (Exception "KeyError" ("'" ++ path ++ "'")%string)
  end.

(** The most duplicated file and its percentage, unrounded. *)
Definition most_duplicated (files_content : dict string) (stats : dict Z)
  : outcome (option (string * Z * Q)) :=
  match max_item stats with
  | None => Returns None
  | Some (path, n) =>
      bind (getitem files_content path) (fun content =>
        Returns (Some (path, n,
          fmul (truediv n (Z.max (llen (split_lines content)) 1)) 100)))
  end.

Definition find_duplicates (self : t) (files_content : dict string)
  : outcome report :=
  let acc := find_clusters (blocks_by_hash self files_content) in
  let dups := duplicates acc in
  let duplication_percentage :=
    fmul (truediv (total_duplicated_lines acc)
                  (Z.max (total_lines files_content) 1)) 100 in
  bind (most_duplicated files_content (file_duplication_stats dups))
    (fun most =>
       Returns
         (Report
            (round2 duplication_percentage)
            (llen dups)
            (sumZ (map occurrences (values dups)))
            (total_duplicated_lines acc)
            (files_with_duplicates acc)
            (llen files_content)
            (match most with
             | Some (path, _, max_duplication) =>
                 Some (Mayor path (round2 max_duplication))
             | None => None
             end)
            dups
            (generate_summary dups duplication_percentage
                              (llen (files_with_duplicates acc)))
            None)).

(** ** [analyze_repository_files] *)

(** The report of the [except Exception as e] branch. *)
Definition error_report (files_content : dict string) (e : exception)
  : report :=
  Report 0 0 0 0 [] (llen files_content) None []
         ("Error en el an" ++ chr 225 ++ "lisis de duplicaci" ++ chr 243
          ++ "n")%string
         (Some (exc_str e)).

(** The [try]/[except] around [self.find_duplicates(files_content)], for
    whatever that call does. *)
Definition try_find_duplicates
  (find : dict string -> outcome report) (files_content : dict string)
  : report :=
  match find files_content with
  | Returns r => r
  | Raises e => error_report files_content e
  end.

Definition analyze_repository_files (self : t) (files_content : dict string)
  : report :=
  try_find_duplicates (find_duplicates self) files_content.

End DuplicationAnalyzer.

(* ================================================================== *)
(** * [language_analyzers/base.py] *)
(* ================================================================== *)

Module LanguageAnalyzer.

Import Py.
Local Open Scope string_scope.
Local Open Scope list_scope.
Local Open Scope Z_scope.

(** One category: leaf metric name to value. *)
Definition leaves : Type := dict Q.

(** Category name to its leaves: the shape of [self.metrics] and of what
    [analyze_file] returns. *)
Definition metrics_t : Type := dict leaves.

(** The abstract methods, which a subclass supplies. *)
Record class : Type := Class {
  get_file_extensions : list string;
  get_language_name : string;
  analyze_file : string -> string -> outcome metrics_t
}.

(** The attributes of an instance. *)
Record t : Type := Self {
  metrics : metrics_t;
  total_files : Z;
  total_lines : Z
}.

Definition categories : list string :=
  [ "nombres"; "documentacion"; "modularidad"; "complejidad";
    "manejo_errores"; "pruebas"; "seguridad"; "consistencia_estilo" ].

(** [__init__]. *)
Definition init : t :=
  Self [ ("nombres", []); ("documentacion", []); ("modularidad", []);
         ("complejidad", []); ("manejo_errores", []); ("pruebas", []);
         ("seguridad", []); ("consistencia_estilo", []) ]
       0 0.

Definition should_analyze_file (cls : class) (file_path : string) : bool :=
  existsb (endswith file_path) (get_file_extensions cls).

(** ** [aggregate_metrics] *)

(** Truth value of [m.get(category)]: present and not empty. *)
Definition reports (category : string) (m : metrics_t) : bool :=
  match get category m with
  | Some (_ :: _) => true
  | _ => false
  end.

(** [m.get(category, {})]. *)
Definition get_category (category : string) (m : metrics_t) : leaves :=
  @get_default leaves category [] m.

(** [[m.get(category, {}).get(leaf, 0) for m in file_metrics
      if m.get(category)]]. *)
Definition scores_of (category leaf : string) (file_metrics : list metrics_t)
  : list Q :=
  map (fun m => get_default leaf 0%Q (get_category category m))
      (filter (reports category) file_metrics).

(** [ms[category][leaf] = v]; [KeyError] when [category] is not a key. *)
Definition setitem2 (category leaf : string) (v : Q) (ms : metrics_t)
  : outcome metrics_t :=
  match get category ms with
  | Some d => Returns (set category (set leaf v d) ms)
  | None => Raises (Exception "KeyError" ("'" ++ category ++ "'")%string)
  end.

(** One stanza: the category, the leaf read from the files and the leaf
    written to [self.metrics]. *)
Definition aggregate_one (file_metrics : list metrics_t)
  (ms : outcome metrics_t) (stanza : string * string * string)
  : outcome metrics_t :=
  let '(category, leaf, target) := stanza in
  bind ms (fun ms =>
    let scores := scores_of category leaf file_metrics in
    match scores with
    | [] => Returns ms
    | _ :: _ => setitem2 category target (sumQ scores / inject_Z (llen scores))%Q ms
    end).

(** The eight stanzas, in the order of the source. *)
Definition stanzas : list (string * string * string) :=
  [ ("nombres", "descriptividad", "descriptividad");
    ("documentacion", "cobertura", "cobertura_docstrings");
    ("complejidad", "ciclomatica", "complejidad_ciclomatica");
    ("modularidad", "funciones", "funciones_por_archivo");
    ("manejo_errores", "cobertura", "cobertura_manejo_errores");
    ("pruebas", "cobertura", "cobertura_pruebas");
    ("seguridad", "validacion", "validacion_entradas");
    ("consistencia_estilo", "consistencia", "consistencia_nombres") ].

Definition aggregate_metrics (self : t) (file_metrics : list metrics_t)
  : outcome t :=
  match file_metrics with
  | [] => Returns self
  | _ :: _ =>
      bind (fold_left (aggregate_one file_metrics) stanzas
                      (Returns (metrics self)))
           (fun ms => Returns (Self ms (total_files self) (total_lines self)))
  end.

(** ** [analyze_files] *)

(** The variables of the loop: [file_metrics] and the two counters. *)
Record progress : Type := Progress {
  file_metrics : list metrics_t;
  files_done : Z;
  lines_done : Z
}.

(** The body of the loop; a file whose analysis raises is reported and
    skipped. *)
Definition analyze_step (cls : class) (acc : progress)
  (item : string * string) : progress :=
  let '(file_path, content) := item in
  if should_analyze_file cls file_path then
    match analyze_file cls file_path content with
    | Returns m =>
        Progress (file_metrics acc ++ [m]) (files_done acc + 1)
                 (lines_done acc + count_newlines content)
    | Raises _ => acc
    end
  else acc.

(** Returns [self.metrics] and the instance as the call leaves it. *)
Definition analyze_files (cls : class) (self : t) (files : dict string)
  : outcome (metrics_t * t) :=
  let acc :=
    fold_left (analyze_step cls) files
              (Progress [] (total_files self) (total_lines self)) in
  let self := Self (metrics self) (files_done acc) (lines_done acc) in
  bind (match file_metrics acc with
        | [] => Returns self
        | _ :: _ => aggregate_metrics self (file_metrics acc)
        end)
       (fun self => Returns (metrics self, self)).

(** ** [calculate_empathy_score] *)

Definition weights : dict Q :=
  [ ("nombres", 15 # 100); ("documentacion", 15 # 100);
    ("modularidad", 15 # 100); ("complejidad", 15 # 100);
    ("manejo_errores", 10 # 100); ("pruebas", 10 # 100);
    ("seguridad", 10 # 100); ("consistencia_estilo", 10 # 100) ]%Q.

(** The body of the loop: what one category appends to [scores]. Every leaf
    of the embedding is a number, so the [isinstance] filter keeps all. *)
Definition category_score (ms : metrics_t) (item : string * Q) : list Q :=
  let '(category, weight) := item in
  match values (get_category category ms) with
  | [] => []
  | vs => [ (sumQ vs / inject_Z (llen vs) * weight)%Q ]
  end.

Definition calculate_empathy_score (self : t) : Q :=
  match flat_map (category_score (metrics self)) weights with
  | [] => 0%Q
  | scores => sumQ scores
  end.

(** ** [get_summary] *)

Record summary_t : Type := Summary {
  s_language : string;
  s_total_files : Z;
  s_total_lines : Z;
  s_metrics : metrics_t;
  s_empathy_score : Q
}.

Definition get_summary (cls : class) (self : t) : summary_t :=
  Summary (get_language_name cls) (total_files self) (total_lines self)
          (metrics self) (calculate_empathy_score self).

(** ** [analyze_duplication] *)

Definition analyze_duplication (files_content : dict string)
  : DuplicationAnalyzer.report :=
  DuplicationAnalyzer.analyze_repository_files
    (DuplicationAnalyzer.Make 5 true) files_content.

End LanguageAnalyzer.

(* ================================================================== *)
(** * [language_analyzers/typescript_analyzer.py] *)
(* ================================================================== *)

Module TypeScriptAnalyzer.

Import Py.
Import LanguageAnalyzer.
Local Open Scope string_scope.
Local Open Scope list_scope.
Local Open Scope Z_scope.

(** A match object of [re]: [m.start()] and [m.group(1)] (empty for a
    pattern without a group). *)
Record re_match : Type := Match { m_start : Z; m_group1 : string }.

(** An entry of the list [_extract_functions] returns. *)
Record function_info : Type :=
  FunctionInfo { f_name : string; f_type : string; f_start : Z }.

Section Inherited.

(** The matches [re.finditer(pattern, content)] yields, in order;
    [re.findall] returns as many items. *)
Variable finditer : string -> string -> list re_match.

(** [JavaScriptAnalyzer], the parent class, is not among the sources:
    what [super().analyze_file] and [super()._extract_functions] do on
    this instance. *)
Variable super_analyze_file : string -> string -> outcome metrics_t.
Variable super_extract_functions : string -> list function_info.

Definition findall_count (pattern content : string) : Z :=
  llen (finditer pattern content).

Definition param_pattern : string :=
  "(?:function\s+\w+|(?:const|let|var)\s+\w+\s*=\s*(?:async\s*)?)\s*\(([^)]*)\)".
Definition var_pattern : string :=
  "(?:const|let|var)\s+(\w+)\s*:\s*[A-Z]\w*".
Definition return_type_pattern : string :=
  "(?:function\s+\w+|(?:const|let|var)\s+\w+\s*=\s*(?:async\s*)?)[^)]*\)\s*:\s*[A-Z]\w*".
Definition interface_pattern : string :=
  "interface\s+\w+\s*(?:<[^>]+>)?\s*\{".
Definition type_pattern : string := "type\s+\w+\s*(?:<[^>]+>)?\s*=".
Definition enum_pattern : string := "enum\s+\w+\s*\{".
Definition variable_pattern : string := "(?:const|let|var)\s+\w+".
Definition generic_func_pattern : string :=
  "function\s+(\w+)\s*<[^>]+>\s*\([^)]*\)".
Definition decorator_pattern : string :=
  "@\w+\s*(?:\([^)]*\))?\s*(?:async\s+)?(\w+)\s*\([^)]*\)".

Definition count_interfaces (content : string) : Z :=
  findall_count interface_pattern content.
Definition count_type_aliases (content : string) : Z :=
  findall_count type_pattern content.
Definition count_enums (content : string) : Z :=
  findall_count enum_pattern content.
Definition count_variables (content : string) : Z :=
  findall_count variable_pattern content.

(** [_extract_functions]: the parent's functions, then the generic
    functions, then the decorated methods. *)
Definition extract_functions (content : string) : list function_info :=
  super_extract_functions content
  ++ map (fun m => FunctionInfo (m_group1 m) "generic_function" (m_start m))
         (finditer generic_func_pattern content)
  ++ map (fun m => FunctionInfo (m_group1 m) "decorated_method" (m_start m))
         (finditer decorator_pattern content).

(** The first loop of [_calculate_type_coverage]:
    ([params_with_types], [total_params]). *)
Definition count_params (acc : Z * Z) (m : re_match) : Z * Z :=
  let params := m_group1 m in
  if truthy (strip params) then
    fold_left (fun acc param =>
                 (fst acc + (if has_char ":" param then 1 else 0),
                  snd acc + 1))
              (split "," params) acc
  else acc.

Definition calculate_type_coverage (content : string) : Q :=
  let '(params_with_types, total_params) :=
    fold_left count_params (finditer param_pattern content) (0, 0) in
  let typed_vars := findall_count var_pattern content in
  let typed_returns := findall_count return_type_pattern content in
  let total_items :=
    total_params + count_variables content
    + llen (extract_functions content) in
  let typed_items := params_with_types + typed_vars + typed_returns in
  if 0 <? total_items
  then (inject_Z typed_items / inject_Z total_items)%Q
  else 0%Q.

(** [m.get(category, {}).get(leaf, 0)]. *)
Definition current (category leaf : string) (m : metrics_t) : Q :=
  get_default leaf 0%Q (get_category category m).

(** The result of the parent is updated in place; its categories are taken
    to be distinct [dict] objects. An assignment into a category that is
    not there raises [KeyError]. *)
Definition analyze_file (file_path content : string) : outcome metrics_t :=
  bind (super_analyze_file file_path content) (fun m =>
    let type_coverage := calculate_type_coverage content in
    let m :=
      set "typescript"
          [ ("type_coverage", type_coverage);
            ("interfaces", inject_Z (count_interfaces content));
            ("type_aliases", inject_Z (count_type_aliases content));
            ("enums", inject_Z (count_enums content)) ]
          m in
    bind (match (type_coverage ?= 7 # 10)%Q with
          | Gt =>
              setitem2 "documentacion" "cobertura"
                (min1 (current "documentacion" "cobertura" m + (2 # 10)))%Q m
          | _ => Returns m
          end) (fun m =>
      setitem2 "seguridad" "validacion"
        (min1 (current "seguridad" "validacion" m
               + type_coverage * (2 # 10)))%Q m)).

(** The class, as the factory registers it. *)
Definition TypeScriptAnalyzer : class :=
  Class [".ts"; ".tsx"] "TypeScript" analyze_file.

End Inherited.

(** ** [_calculate_style_consistency] *)

Section StyleConsistency.

Variable finditer : string -> string -> list re_match.

(** [super()._calculate_style_consistency] of the parent class, which is
    not among the sources. *)
Variable super_calculate_style_consistency : string -> outcome Q.









End StyleConsistency.

End TypeScriptAnalyzer.

(* ================================================================== *)
(** * [language_analyzers/factory.py] *)
(* ================================================================== *)

Module AnalyzerFactory.

Import Py.
Local Open Scope string_scope.
Local Open Scope list_scope.
Local Open Scope Z_scope.

(** ** [os.path.splitext] (POSIX) *)

(** [s.rfind(c)], counting from [i]; [last] is the answer so far. *)
Fixpoint rfind_from (c : ascii) (i last : Z) (s : string) : Z :=
  match s with
  | EmptyString => last
  | String a rest =>
      rfind_from c (i + 1) (if Ascii.eqb a c then i else last) rest
  end.

Definition rfind (c : ascii) (s : string) : Z := rfind_from c 0 (-1) s.

(** The extension starts at the last dot of the last path component,
    unless only dots precede it there. *)
Definition splitext (p : string) : string * string :=
  let sepIndex := rfind "/" p in
  let dotIndex := rfind "." p in
  if sepIndex <? dotIndex then
    let stem :=
      substring (Z.to_nat (sepIndex + 1)) (Z.to_nat (dotIndex - sepIndex - 1))
                p in
    if existsb (fun a => negb (Ascii.eqb a "."))
               (list_ascii_of_string stem)
    then (substring 0 (Z.to_nat dotIndex) p, drop (Z.to_nat dotIndex) p)
    else (p, "")
  else (p, "").

(** ** The registry *)

Section Registry.

(** The analyzer classes. An instance carries no constructor argument,
    so [analyzer_class()] is told by its class. *)
Variable Cls : Type.

(** The class attributes [_analyzers] and [_extension_map]. *)
Record registry : Type := Registry {
  analyzers : dict Cls;
  extension_map : dict string
}.

Definition register_analyzer (reg : registry) (language : string)
  (analyzer_class : Cls) : registry :=
  Registry (set (lower language) analyzer_class (analyzers reg))
           (extension_map reg).

Definition get_analyzer (reg : registry) (language : string) : option Cls :=
  get (lower language) (analyzers reg).

Definition get_analyzer_for_file (reg : registry) (file_path : string)
  : option Cls :=
  let '(_, ext) := splitext file_path in
  match get (lower ext) (extension_map reg) with
  | Some language =>
      if truthy language then get_analyzer reg language else None
  | None => None
  end.

Definition get_supported_extensions (reg : registry) : list string :=
  keys (extension_map reg).

Definition get_supported_languages (reg : registry) : list string :=
  keys (analyzers reg).

(** The classes the module imports. *)
Variables PythonAnalyzer JavaScriptAnalyzer TypeScriptAnalyzer JavaAnalyzer
          GoAnalyzer CSharpAnalyzer CppAnalyzer PHPAnalyzer RubyAnalyzer
          SwiftAnalyzer HTMLAnalyzer CSSAnalyzer : Cls.

(** The class attributes as the class body sets them. *)
Definition initial : registry :=
  Registry
    [ ("python", PythonAnalyzer); ("javascript", JavaScriptAnalyzer);
      ("typescript", TypeScriptAnalyzer); ("java", JavaAnalyzer);
      ("go", GoAnalyzer); ("c#", CSharpAnalyzer);
      ("csharp", CSharpAnalyzer); ("c++", CppAnalyzer);
      ("cpp", CppAnalyzer); ("php", PHPAnalyzer); ("ruby", RubyAnalyzer);
      ("swift", SwiftAnalyzer); ("html", HTMLAnalyzer);
      ("css", CSSAnalyzer) ]
    [ (".py", "python"); (".js", "javascript"); (".jsx", "javascript");
      (".mjs", "javascript"); (".ts", "typescript");
      (".tsx", "typescript"); (".java", "java"); (".go", "go");
      (".cs", "csharp"); (".cpp", "cpp"); (".cc", "cpp"); (".cxx", "cpp");
      (".hpp", "cpp"); (".h", "cpp"); (".hh", "cpp"); (".php", "php");
      (".php3", "php"); (".php4", "php"); (".php5", "php");
      (".phtml", "php"); (".rb", "ruby"); (".rake", "ruby");
      (".gemspec", "ruby"); (".swift", "swift"); (".html", "html");
      (".htm", "html"); (".xhtml", "html"); (".css", "css");
      (".scss", "css"); (".sass", "css"); (".less", "css") ].

End Registry.

Arguments Registry {Cls} _ _.
Arguments analyzers {Cls} _.
Arguments extension_map {Cls} _.
Arguments register_analyzer {Cls} _ _ _.
Arguments get_analyzer {Cls} _ _.
Arguments get_analyzer_for_file {Cls} _ _.
Arguments get_supported_extensions {Cls} _.
Arguments get_supported_languages {Cls} _.
Arguments initial {Cls} _ _ _ _ _ _ _ _ _ _ _ _.

(** [detect_primary_language]: [max(language_counts, key=language_counts.get)]
    is the first language with the largest count. *)
Definition count_language {Cls} (reg : registry Cls) (counts : dict Z)
  (file_path : string) : dict Z :=
  match get (lower (snd (splitext file_path))) (extension_map reg) with
  | Some language =>
      if truthy language
      then set language (get_default language 0 counts + 1) counts
      else counts
  | None => counts
  end.

Definition detect_primary_language {Cls} (reg : registry Cls)
  (files : dict string) : option string :=
  option_map fst (max_item (fold_left (count_language reg) (keys files) [])).

(** ** [analyze_multi_language_project] *)

Section Project.

Import LanguageAnalyzer.

(** Modelled from the spec: [dependency_analyzer.py], [pattern_analyzer.py],
    [performance_analyzer.py] and [comment_analyzer.py] are not among the
    sources. Each detector maps the files of one language to its report
    and does not raise (a failure is caught at the detector boundary). *)
Variable aux_report : Type.
Variables analyze_dependencies analyze_patterns analyze_performance
          analyze_comments : dict string -> aux_report.

(** An entry of [results['languages']]. *)
Record language_result : Type := LanguageResult {
  r_metrics : metrics_t;
  r_summary : summary_t;
  r_duplication : DuplicationAnalyzer.report;
  r_dependencies : aux_report;
  r_patterns : aux_report;
  r_performance : aux_report;
  r_comments : aux_report;
  file_count : Z
}.

Record total_metrics_t : Type := TotalMetrics {
  tm_total_files : Z;
  tm_total_lines : Z;
  languages_analyzed : list string;
  overall_empathy_score : Q
}.

(** [results]; the empty mapping that [_calculate_aggregate_metrics]
    returns for no language is [None]. *)
Record project : Type := Project {
  languages : dict language_result;
  total_metrics : option total_metrics_t;
  primary_language : option string
}.

(** The first loop: [language_files[language][file_path] = content], with
    [language_files[language] = {}] first when the language is new. *)
Definition group_by_language (reg : registry class)
  (language_files : dict (dict string)) (item : string * string)
  : dict (dict string) :=
  let '(file_path, content) := item in
  match get_analyzer_for_file reg file_path with
  | Some analyzer =>
      let language := get_language_name analyzer in
      set language
          (set file_path content (get_default language [] language_files))
          language_files
  | None => language_files
  end.

(** The second loop: a fresh instance per language. *)
Definition analyze_language (reg : registry class)
  (results : outcome (dict language_result))
  (item : string * dict string) : outcome (dict language_result) :=
  let '(language, lang_files) := item in
  bind results (fun results =>
    match get_analyzer reg (lower language) with
    | Some analyzer =>
        bind (analyze_files analyzer init lang_files) (fun '(ms, self) =>
          Returns
            (set language
                 (LanguageResult ms
                    (get_summary analyzer self)
                    (analyze_duplication lang_files)
                    (analyze_dependencies lang_files)
                    (analyze_patterns lang_files)
                    (analyze_performance lang_files)
                    (analyze_comments lang_files)
                    (llen lang_files))
                 results))
    | None => Returns results
    end).

(** [_calculate_aggregate_metrics]; [file_count / total_files] raises
    [ZeroDivisionError] when the counts add up to zero. *)
Definition calculate_aggregate_metrics
  (language_results : dict language_result)
  : outcome (option total_metrics_t) :=
  match language_results with
  | [] => Returns None
  | _ :: _ =>
      let total_files := sumZ (map file_count (values language_results)) in
      let total_lines :=
        sumZ (map (fun lang => s_total_lines (r_summary lang))
                  (values language_results)) in
      if total_files =? 0
      then Raises (Exception "ZeroDivisionError" "division by zero")
      else
        let weighted_empathy :=
          fold_left
            (fun acc lang_data =>
               let weight :=
                 (inject_Z (file_count lang_data) / inject_Z total_files)%Q in
               (acc + s_empathy_score (r_summary lang_data) * weight)%Q)
            (values language_results) 0%Q in
        Returns (Some (TotalMetrics total_files total_lines
                                    (keys language_results)
                                    weighted_empathy))
  end.

Definition analyze_multi_language_project (reg : registry class)
  (files : dict string) : outcome project :=
  let language_files := fold_left (group_by_language reg) files [] in
  bind (fold_left (analyze_language reg) language_files (Returns []))
    (fun langs =>
       let primary :=
         option_map fst
           (max_item (map (fun item => (fst item, llen (snd item)))
                          language_files)) in
       bind (calculate_aggregate_metrics langs) (fun total =>
         Returns (Project langs total primary))).

End Project.

Arguments LanguageResult {aux_report} _ _ _ _ _ _ _ _.
Arguments r_metrics {aux_report} _.
Arguments r_summary {aux_report} _.
Arguments r_duplication {aux_report} _.
Arguments r_dependencies {aux_report} _.
Arguments r_patterns {aux_report} _.
Arguments r_performance {aux_report} _.
Arguments r_comments {aux_report} _.
Arguments file_count {aux_report} _.
Arguments Project {aux_report} _ _ _.
Arguments languages {aux_report} _.
Arguments total_metrics {aux_report} _.
Arguments primary_language {aux_report} _.
Arguments calculate_aggregate_metrics {aux_report} _.
Arguments analyze_language {aux_report} _ _ _ _ _ _ _.
Arguments analyze_multi_language_project {aux_report} _ _ _ _ _ _.

End AnalyzerFactory.

(* ================================================================== *)
(** * [github_utils.py]: the file limits *)
(* ================================================================== *)

Module GitHubUtils.

Import Py.
Local Open Scope string_scope.
Local Open Scope list_scope.
Local Open Scope Z_scope.

(** The part of the configuration that [_get_max_files_limit] reads, for a
    configuration of the shape of the fallback of [_cargar_config]: a tier
    of [file_limits] maps [max_files] and [threshold_kb] to integers,
    [file_limits] maps the names of the tiers to tiers, and the sections of
    the configuration are mappings. *)
Definition tier : Type := dict Z.
Definition file_limits_t : Type := dict tier.
Definition section_t : Type := dict file_limits_t.
Definition config_t : Type := dict section_t.

(** The mapping that [_cargar_config] returns when [config.yaml] cannot be
    read. *)
Definition default_config : config_t :=
  [ ("github",
     [ ("file_limits",
        [ ("small_repos", [("max_files", 150); ("threshold_kb", 0)]);
          ("medium_repos", [("max_files", 80); ("threshold_kb", 10000)]);
          ("large_repos", [("max_files", 40); ("threshold_kb", 50000)]);
          ("very_large_repos",
           [("max_files", 20); ("threshold_kb", 100000)]) ]) ]) ].

(** [self.config.get('github', {}).get('file_limits', {})]. *)
Definition file_limits (config : config_t) : file_limits_t :=
  @get_default file_limits_t "file_limits" []
    (@get_default section_t "github" [] config).

(** [limits.get(name, {}).get(key, default)]. *)
Definition tier_value (limits : file_limits_t) (name key : string)
  (default : Z) : Z :=
  get_default key default (@get_default tier name [] limits).

Definition get_max_files_limit (config : config_t) (repo_size_kb : Z) : Z :=
  let limits := file_limits config in
  if tier_value limits "very_large_repos" "threshold_kb" 100000
     <? repo_size_kb
  then tier_value limits "very_large_repos" "max_files" 20
  else if tier_value limits "large_repos" "threshold_kb" 50000
          <? repo_size_kb
  then tier_value limits "large_repos" "max_files" 40
  else if tier_value limits "medium_repos" "threshold_kb" 10000
          <? repo_size_kb
  then tier_value limits "medium_repos" "max_files" 80
  else tier_value limits "small_repos" "max_files" 150.

End GitHubUtils.

(* ================================================================== *)
(** * Notions of the specification *)
(* ================================================================== *)

(** ** The base analyzer *)

Module BaseSpec.

Import Py LanguageAnalyzer.
Local Open Scope string_scope.
Local Open Scope list_scope.
Local Open Scope Z_scope.

(** Whether a call returned. *)
Definition returned {A} (o : outcome A) : bool :=
  match o with Returns _ => true | Raises _ => false end.

(** The files of a map that [analyze_files] counts: the path ends with one
    of the extensions of the class and [analyze_file] returns. *)
Definition analyzed (cls : class) (files : dict string) : dict string :=
  filter (fun item =>
            should_analyze_file cls (fst item)
            && returned (analyze_file cls (fst item) (snd item)))
         files.

(** The newlines of those files. *)
Definition analyzed_lines (cls : class) (files : dict string) : Z :=
  sumZ (map count_newlines (values (analyzed cls files))).

(** The per-file results [analyze_files] collects, in order. *)
Definition collected (cls : class) (files : dict string) : list metrics_t :=
  flat_map (fun item =>
              if should_analyze_file cls (fst item) then
                match analyze_file cls (fst item) (snd item) with
                | Returns m => [m]
                | Raises _ => []
                end
              else [])
           files.

(** The instance after a sequence of calls of [analyze_files]. *)
Fixpoint after_calls (cls : class) (self : t) (calls : list (dict string))
  : outcome t :=
  match calls with
  | [] => Returns self
  | files :: rest =>
      bind (analyze_files cls self files)
           (fun r => after_calls cls (snd r) rest)
  end.

(** A value in the unit interval. *)
Definition unit_value (q : Q) : Prop := (0 <= q <= 1)%Q.

(** Every leaf of a category, and every leaf of every category, is in the
    unit interval. *)
Definition unit_leaves (d : leaves) : Prop :=
  Forall (fun kv => unit_value (snd kv)) d.

Definition unit_metrics (m : metrics_t) : Prop :=
  Forall (fun cd => unit_leaves (snd cd)) m.

(** What [aggregate_metrics] reads from the result of one file is in the
    unit interval: for every stanza whose category the result reports, the
    leaf of the stanza (0 when it is missing). *)
Definition unit_reads (m : metrics_t) : Prop :=
  forall category leaf target,
    In (category, leaf, target) stanzas ->
    reports category m = true ->
    unit_value (get_default leaf 0%Q (get_category category m)).

(** That holds of every result [analyze_file] returns for a file of the
    map that the class analyzes. *)
Definition unit_results (cls : class) (files : dict string) : Prop :=
  forall file_path content m,
    In (file_path, content) files ->
    should_analyze_file cls file_path = true ->
    analyze_file cls file_path content = Returns m ->
    unit_reads m.

End BaseSpec.

(** ** The duplication detector *)

Module DuplicationSpec.

Import Py DuplicationAnalyzer.
Local Open Scope string_scope.
Local Open Scope list_scope.
Local Open Scope Z_scope.

(** The duplicate clusters of a grouping: the groups of two blocks or
    more, in the order of the grouping. *)
Definition cluster_of (item : string * list block)
  : list (string * duplicate) :=
  match snd item with
  | b0 :: _ :: _ =>
      [ (fst item,
         Duplicate (llen (snd item)) (snd item) (b_size b0)
                   (preview (b_content b0))) ]
  | _ => []
  end.

Definition clusters_of (by_hash : dict (list block)) : dict duplicate :=
  flat_map cluster_of by_hash.

(** The duplicated lines of a cluster: its size for every occurrence but
    the first. *)
Definition cluster_lines (d : duplicate) : Z := size d * (occurrences d - 1).

(** The blocks of a cluster that lie in a file, and the sizes of the
    duplicated blocks of a file summed over the clusters. *)
Definition blocks_in (f : string) (bs : list block) : Z :=
  llen (filter (fun b => String.eqb (b_file_path b) f) bs).

Definition duplicated_size (dups : dict duplicate) (f : string) : Z :=
  sumZ (map (fun d => size d * blocks_in f (blocks d)) (values dups)).

(** A file occurs in a cluster. *)
Definition occurs_in (dups : dict duplicate) (f : string) : Prop :=
  exists d b, In d (values dups) /\ In b (blocks d) /\ b_file_path b = f.

(** [len(files_content[f].split('\n'))], 0 for a file that is not there. *)
Definition line_count (files_content : dict string) (f : string) : Z :=
  match get f files_content with
  | Some content => llen (split_lines content)
  | None => 0
  end.

(** Every block of every group satisfies [P]. *)
Definition groups_all (P : block -> Prop) (by_hash : dict (list block))
  : Prop :=
  forall h bs, In (h, bs) by_hash -> Forall P bs.

(** The sizes of the duplicated blocks of a file over its line count. *)
Definition duplication_ratio (r : report) (files_content : dict string)
  (f : string) : Q :=
  (inject_Z (duplicated_size (duplicates_details r) f)
   / inject_Z (line_count files_content f))%Q.

End DuplicationSpec.

(** ** The factory *)

Module FactorySpec.

Import Py LanguageAnalyzer AnalyzerFactory.
Local Open Scope string_scope.
Local Open Scope list_scope.
Local Open Scope Z_scope.

(** The files of the languages analyzed, and the empathy scores of the
    languages weighted by their share of those files. *)
Definition project_file_count {aux} (langs : dict (language_result aux))
  : Z :=
  sumZ (map file_count (values langs)).

Definition weighted_empathy {aux} (langs : dict (language_result aux))
  : Q :=
  sumQ (map (fun lang =>
               s_empathy_score (r_summary lang)
               * inject_Z (file_count lang)
               / inject_Z (project_file_count langs))%Q
            (values langs)).

End FactorySpec.

(** ** Sample inputs *)

Module Samples.

Import Py LanguageAnalyzer TypeScriptAnalyzer.
Local Open Scope string_scope.
Local Open Scope list_scope.
Local Open Scope Z_scope.

(** A subclass in the manner of the docstring of [base.py]: its
    [analyze_file] reports ten functions in every file. *)
Definition MyLanguageAnalyzer : class :=
  Class [".mylang"] "MyLanguage"
        (fun _ _ => Returns [("modularidad", [("funciones", 10%Q)])]).

(** A subclass whose leaves are ratios. *)
Definition RatioAnalyzer : class :=
  Class [".mylang"] "MyLanguage"
        (fun _ _ => Returns [ ("nombres", [("descriptividad", 8 # 10)]);
                              ("documentacion", [("cobertura", 1 # 2)]) ]%Q).

(** Seven lines [x] and three blank lines; six lines [x]. *)
Definition a_py : string :=
  join_lines ["x"; "x"; "x"; "x"; "x"; "x"; "x"; ""; ""; ""].
Definition b_py : string := join_lines ["x"; "x"; "x"; "x"; "x"; "x"].

(** A file with one annotated variable out of two. *)
Definition app_ts : string := "const x: Foo = 1; const y = 2;".

(** The matches of the patterns of the analyzer in [app_ts], as [re]
    finds them: two declarations, one of them annotated. *)
Definition app_ts_finditer (pattern content : string) : list re_match :=
  if String.eqb content app_ts then
    if String.eqb pattern variable_pattern then [Match 0 ""; Match 18 ""]
    else if String.eqb pattern var_pattern then [Match 0 "x"]
    else []
  else [].

(** A result of the base JavaScript analysis, with no function found. *)
Definition app_ts_base : metrics_t :=
  [ ("nombres", [("descriptividad", 1 # 2)]);
    ("documentacion", [("cobertura", 1 # 2)]);
    ("seguridad", [("validacion", 1 # 2)]) ]%Q.

(** A file in which every declaration is annotated. *)
Definition typed_ts : string := "const x: Foo = 1;".

Definition typed_ts_finditer (pattern content : string) : list re_match :=
  if String.eqb content typed_ts then
    if String.eqb pattern variable_pattern then [Match 0 ""]
    else if String.eqb pattern var_pattern then [Match 0 "x"]
    else []
  else [].

(** The registry of the class body, with the classes told by name. *)
Definition named_registry : AnalyzerFactory.registry string :=
  AnalyzerFactory.initial
    "PythonAnalyzer" "JavaScriptAnalyzer" "TypeScriptAnalyzer" "JavaAnalyzer"
    "GoAnalyzer" "CSharpAnalyzer" "CppAnalyzer" "PHPAnalyzer" "RubyAnalyzer"
    "SwiftAnalyzer" "HTMLAnalyzer" "CSSAnalyzer".

End Samples.

(** ** Further notions: the duplication detector *)

Module DuplicationNotions.

Import Py DuplicationAnalyzer DuplicationSpec.
Local Open Scope string_scope.
Local Open Scope list_scope.
Local Open Scope Z_scope.

(** The blocks of all the files that are not blank, in the order in which
    the first loop of [find_duplicates] meets them. *)
Definition all_blocks (self : t) (files_content : dict string) : list block :=
  flat_map (fun item =>
              if truthy (strip (snd item))
              then extract_blocks self (snd item) (fst item)
              else [])
           files_content.

(** The blocks that carry a hash, in order. *)
Definition with_hash (h : string) (bs : list block) : list block :=
  filter (fun b => String.eqb (b_hash b) h) bs.

(** The shape of a block of a file of [line_count] lines. *)
Definition well_shaped (self : t) (file_path : string) (line_count : Z)
  (b : block) : Prop :=
  b_size b = min_block_size self
  /\ b_end_line b = b_start_line b + min_block_size self - 1
  /\ 1 <= b_start_line b
  /\ b_end_line b <= line_count
  /\ b_file_path b = file_path
  /\ b_hash b = MD5.hexdigest (b_content b).

(** A grouping holds the blocks of a list by hash: the hashes are distinct
    and the group of a hash is the blocks of the list that carry it. *)
Definition grouped (by_hash : dict (list block)) (bs : list block) : Prop :=
  NoDup (keys by_hash)
  /\ forall h, get h by_hash
               = match with_hash h bs with [] => None | g => Some g end.

(** A string of spaces ([str.isspace] holds of every character). *)
Definition all_spaces (s : string) : Prop :=
  Forall (fun c => isspace c = true) (list_ascii_of_string s).

(** A string without a newline. *)
Definition one_line (s : string) : Prop :=
  Forall (fun c => Ascii.eqb c newline = false) (list_ascii_of_string s).

(** A character that starts none of the three comment patterns. *)
Definition plain_char (c : ascii) : bool :=
  negb (Ascii.eqb c "/" || Ascii.eqb c "#" || Ascii.eqb c "<").

(** A string without any of those characters. *)
Definition plain (s : string) : Prop :=
  Forall (fun c => plain_char c = true) (list_ascii_of_string s).

(** A line that counts in a block: not blank once normalized. *)
Definition significant (self : t) (line : string) : bool :=
  truthy (strip (normalize_line self line)).

(** The [min_block_size] lines from index [i] on (fewer at the end of the
    file). *)
Definition window (self : t) (lines : list string) (i : nat) : list string :=
  firstn (Z.to_nat (min_block_size self)) (skipn i lines).

(** The block of the window at index [i] when every line of it counts. *)
Definition block_of (self : t) (lines : list string) (file_path : string)
  (i : nat) : block :=
  let content := join_lines (map (normalize_line self) (window self lines i)) in
  Block (MD5.hexdigest content) content (join_lines (window self lines i))
        file_path (Z.of_nat i + 1) (Z.of_nat i + min_block_size self)
        (min_block_size self).

(** A file of 800 lines: [n] lines [x], then blank lines. *)
Definition lines_then_blanks (n : nat) : string :=
  join_lines (repeat "x" n ++ repeat "" (800 - n)).

(** The block of every window when [min_block_size] is 0 or less: no
    line, and the digest of the empty string. *)
Definition empty_block (self : t) (file_path : string) (i : nat) : block :=
  Block (MD5.hexdigest "") "" "" file_path (Z.of_nat i + 1)
        (Z.of_nat i + min_block_size self) 0.

End DuplicationNotions.

(** ** Further notions: the base analyzer *)

Module BaseNotions.

Import Py LanguageAnalyzer.
Local Open Scope string_scope.
Local Open Scope list_scope.
Local Open Scope Z_scope.

(** The mean of a leaf over the files that report its category; [None]
    when no file reports the category. *)
Definition category_mean (category leaf : string)
  (file_metrics : list metrics_t) : option Q :=
  match scores_of category leaf file_metrics with
  | [] => None
  | scores => Some (sumQ scores / inject_Z (llen scores))%Q
  end.

(** What a stanza adds to the empathy score of a fresh instance: the mean
    times the weight of the category. *)
Definition stanza_score (file_metrics : list metrics_t)
  (stanza : string * string * string) : Q :=
  let '(category, leaf, _) := stanza in
  match category_mean category leaf file_metrics with
  | Some v => (v * get_default category 0 weights)%Q
  | None => 0%Q
  end.

(** A class whose [analyze_file] always raises. *)
Definition FailingAnalyzer : class :=
  Class [".mylang"] "MyLanguage"
        (fun _ _ => Raises (Exception "ValueError" "cannot parse")).

End BaseNotions.

(** ** Further notions: the TypeScript analyzer *)

Module TypeScriptNotions.

Import Py LanguageAnalyzer TypeScriptAnalyzer.
Local Open Scope string_scope.
Local Open Scope list_scope.
Local Open Scope Z_scope.

(** The [KeyError] of an assignment into a category that is missing. *)
Definition key_error (category : string) : exception :=
  Exception "KeyError" ("'" ++ category ++ "'")%string.

(** The category [typescript] that [analyze_file] records. *)
Definition typescript_leaves (finditer : string -> string -> list re_match)
  (super_extract_functions : string -> list function_info)
  (content : string) : leaves :=
  [ ("type_coverage",
     calculate_type_coverage finditer super_extract_functions content);
    ("interfaces", inject_Z (count_interfaces finditer content));
    ("type_aliases", inject_Z (count_type_aliases finditer content));
    ("enums", inject_Z (count_enums finditer content)) ].

(** A result of the base analysis without the category [seguridad]. *)
Definition names_only : metrics_t :=
  [ ("nombres", [("descriptividad", 1 # 2)]) ]%Q.



(** What [analyze_file] returns for [typed_ts] after the base result
    [app_ts_base]. *)
Definition typed_ts_result : metrics_t :=
  Eval vm_compute in
    match analyze_file Samples.typed_ts_finditer
                       (fun _ _ => Returns Samples.app_ts_base)
                       (fun _ => []) "typed.ts" Samples.typed_ts with
    | Returns m => m
    | Raises _ => []
    end.

End TypeScriptNotions.

(** ** Further notions: the factory *)

Module FactoryNotions.

Import Py LanguageAnalyzer AnalyzerFactory.
Local Open Scope string_scope.
Local Open Scope list_scope.
Local Open Scope Z_scope.

(** The language that the extension map gives a path: the entry of the
    extension in lower case, when it is there and not empty. *)
Definition language_of_path {Cls} (reg : registry Cls) (file_path : string)
  : option string :=
  match get (lower (snd (splitext file_path))) (extension_map reg) with
  | Some language => if truthy language then Some language else None
  | None => None
  end.

(** The paths of a list that the extension map gives a language. *)
Definition count_of {Cls} (reg : registry Cls) (language : string)
  (paths : list string) : Z :=
  llen (filter (fun p => match language_of_path reg p with
                         | Some l => String.eqb l language
                         | None => false
                         end) paths).

(** Whether the factory finds an analyzer for a file of a map. *)
Definition supported {Cls} (reg : registry Cls) (item : string * string)
  : bool :=
  match get_analyzer_for_file reg (fst item) with
  | Some _ => true
  | None => false
  end.

(** Whether every language of the extension map is registered. *)
Definition consistent {Cls} (reg : registry Cls) : bool :=
  forallb (fun l => truthy l
                    && match get_analyzer reg l with
                       | Some _ => true
                       | None => false
                       end)
          (values (extension_map reg)).

(** The counts of a language analyzed: it has a file or more, and the
    files its analyzer has counted are among them. *)
Definition counts_fit {aux} (lang : language_result aux) : Prop :=
  1 <= file_count lang
  /\ 0 <= s_total_files (r_summary lang) <= file_count lang.

(** The files grouped, over the languages. *)
Definition grouped_files (language_files : dict (dict string)) : Z :=
  sumZ (map (fun d : dict string => llen d) (values language_files)).

(** The registry of the class body with the TypeScript analyzer of this
    development, and a sample class for the other languages. *)
Definition sample_registry
  (finditer : string -> string -> list TypeScriptAnalyzer.re_match)
  (super_analyze_file : string -> string -> outcome metrics_t)
  (super_extract_functions : string -> list TypeScriptAnalyzer.function_info)
  : registry class :=
  let other := Samples.RatioAnalyzer in
  initial other other
          (TypeScriptAnalyzer.TypeScriptAnalyzer finditer super_analyze_file
             super_extract_functions)
          other other other other other other other other other.

(** A detector that reports nothing. *)
Definition no_report (files_content : dict string) : unit := tt.

End FactoryNotions.

(** ** Further notions: the file limits *)

Module LimitNotions.

Import Py GitHubUtils.
Local Open Scope string_scope.
Local Open Scope Z_scope.

(** The larger the tier, the fewer the files. *)
Definition fewer_files_for_larger_tiers (config : config_t) : Prop :=
  let limits := file_limits config in
  tier_value limits "very_large_repos" "max_files" 20
  <= tier_value limits "large_repos" "max_files" 40
  /\ tier_value limits "large_repos" "max_files" 40
     <= tier_value limits "medium_repos" "max_files" 80
  /\ tier_value limits "medium_repos" "max_files" 80
     <= tier_value limits "small_repos" "max_files" 150.

End LimitNotions.

(* ================================================================== *)
(** * Properties *)
(* ================================================================== *)

(** ** MD5: the test suite of RFC 1321, and a padding boundary *)

Module MD5Facts.

Local Open Scope string_scope.

Example md5_empty : MD5.hexdigest "" = "d41d8cd98f00b204e9800998ecf8427e".
Proof. vm_compute. reflexivity. Qed.

Example md5_a : MD5.hexdigest "a" = "0cc175b9c0f1b6a831c399e269772661".
Proof. vm_compute. reflexivity. Qed.

Example md5_abc : MD5.hexdigest "abc" = "900150983cd24fb0d6963f7d28e17f72".
Proof. vm_compute. reflexivity. Qed.

Example md5_message_digest :
  MD5.hexdigest "message digest" = "f96b697d7cb7938d525a2f31aaf161d0".
Proof. vm_compute. reflexivity. Qed.

Example md5_alphabet :
  MD5.hexdigest "abcdefghijklmnopqrstuvwxyz"
  = "c3fcd3d76192e4007dfb496cca67e13b".
Proof. vm_compute. reflexivity. Qed.

Example md5_alphanumeric :
  MD5.hexdigest
    "ABCDEFGHIJKLMNOPQRSTUVWXYZabcdefghijklmnopqrstuvwxyz0123456789"
  = "d174ab98d277d9f5a5611c2c9f419d9f".
Proof. vm_compute. reflexivity. Qed.

Example md5_digits :
  MD5.hexdigest
    "12345678901234567890123456789012345678901234567890123456789012345678901234567890"
  = "57edf4a22be3c955ac49da2e2107b67a".
Proof. vm_compute. reflexivity. Qed.

(** 56 bytes: the padding takes a second block. *)
Example md5_two_blocks :
  MD5.hexdigest "aaaaaaaaaaaaaaaaaaaaaaaaaaaaaaaaaaaaaaaaaaaaaaaaaaaaaaaa"
  = "3b0c8ac703f828b04c6c197006d17218".
Proof. vm_compute. reflexivity. Qed.

(** A character above 127 is encoded on two bytes. *)
Example md5_latin1 :
  MD5.hexdigest ("caf" ++ Py.chr 233) = "07117fe4a1ebd544965dc19573183da2".
Proof. vm_compute. reflexivity. Qed.

End MD5Facts.

(** ** The model on concrete inputs *)

Module ModelExamples.

Import Py DuplicationAnalyzer AnalyzerFactory Samples.
Local Open Scope string_scope.
Local Open Scope list_scope.
Local Open Scope Z_scope.

(** [normalize_line]: line comments go, HTML comments go when they are
    closed on the line, runs of spaces become one blank. *)
Example normalize_line_comments :
  map (normalize_line default)
      [ "a // b # c"; "x <!-- c --> y"; "x <!-- c"; "x <!-- a # b --> y";
        "url = 'http://x'"; "<!---->x"; "<!-- a --> b <!-- c";
        "a<!-->b-->c"; "a /b/ c" ]
  = [ "a"; "x y"; "x <!-- c"; "x y"; "url = 'http:"; "x"; "b <!-- c"; "ac";
      "a /b/ c" ].
Proof. vm_compute. reflexivity. Qed.

Example normalize_line_spaces :
  map (normalize_line default)
      [ ("a" ++ chr 9 ++ "b  " ++ chr 12 ++ " c")%string;
        (chr 160 ++ "x" ++ chr 133)%string;
        ("  " ++ chr 31 ++ "  ")%string ]
  = [ "a b c"; "x"; "" ].
Proof. vm_compute. reflexivity. Qed.

(** Without [ignore_whitespace] only the comments go. *)
Example normalize_line_keep_spaces :
  normalize_line (Make 5 false) "  a   b  # c" = "  a   b  ".
Proof. vm_compute. reflexivity. Qed.

(** A file of six lines has two windows of five; a blank line in a window
    drops it. *)
Example extract_blocks_windows :
  map (fun b => (b_start_line b, b_end_line b, b_size b))
      (extract_blocks default (join_lines ["a"; "b"; "c"; "d"; "e"; "f"; ""; "g"])
                      "f.py")
  = [ (1, 5, 5); (2, 6, 5) ].
Proof. vm_compute. reflexivity. Qed.

Example splitext_paths :
  map splitext
      [ "foo.xyz"; "a/b.c/.bashrc"; "a/b.c/..x.tar.GZ"; "a/b.c/x"; "...";
        "x."; "a.b/c"; "/.a.b"; "a..b" ]
  = [ ("foo", ".xyz"); ("a/b.c/.bashrc", ""); ("a/b.c/..x.tar", ".GZ");
      ("a/b.c/x", ""); ("...", ""); ("x", "."); ("a.b/c", "");
      ("/.a", ".b"); ("a.", ".b") ].
Proof. vm_compute. reflexivity. Qed.

Example get_analyzer_for_file_builtin :
  map (get_analyzer_for_file named_registry)
      [ "main.py"; "src/App.TSX"; "lib/x.hpp"; "README.md"; ".gitignore";
        "Makefile" ]
  = [ Some "PythonAnalyzer"; Some "TypeScriptAnalyzer"; Some "CppAnalyzer";
      None; None; None ].
Proof. vm_compute. reflexivity. Qed.

Example get_analyzer_by_name :
  map (get_analyzer named_registry) [ "Python"; "C#"; "c++"; "cobol" ]
  = [ Some "PythonAnalyzer"; Some "CSharpAnalyzer"; Some "CppAnalyzer";
      None ].
Proof. vm_compute. reflexivity. Qed.

Example detect_primary_language_first_of_ties :
  detect_primary_language named_registry
    [ ("a.js", ""); ("b.py", ""); ("c.py", ""); ("d.js", ""); ("e.md", "") ]
  = Some "javascript".
Proof. vm_compute. reflexivity. Qed.

(** [round(x, 2)] rounds halves to the even neighbour. *)
Example round2_halves :
  map (fun x => round2 (double x))
      [ 125 # 1000; 14375 # 1000; 2675 # 1000; 1005 # 1000; 150 # 1 ]%Q
  = map double [ 12 # 100; 1438 # 100; 267 # 100; 100 # 100; 150 # 1 ]%Q.
Proof. vm_compute. reflexivity. Qed.

(** The doubles of Python: [1 / 3], [115 / 800], [(115 / 800) * 100],
    which is below 14.375, and [round((115 / 800) * 100, 2)], which is
    the double 14.37; [(50 / 1001) * 100], below 5, is rounded to 5.0. *)
Example doubles_of_python :
  (truediv 1 3 == 6004799503160661 # 18014398509481984
   /\ truediv 115 800 == 2589569785738035 # 18014398509481984
   /\ fmul (truediv 115 800) 100 == 8092405580431359 # 562949953421312
   /\ fmul (truediv 115 800) 100 < 14375 # 1000
   /\ round2 (fmul (truediv 115 800) 100)
      == 8089590830664253 # 562949953421312
   /\ round2 (fmul (truediv 115 800) 100) = double (1437 # 100)
   /\ fmul (truediv 50 1001) 100 == 2811937829277283 # 562949953421312
   /\ round2 (fmul (truediv 50 1001) 100) == 5
   /\ fmul (truediv 1 10) 100 == 10
   /\ round2 (fmul (truediv 2 3) 100)
      == 4691484174324859 # 70368744177664)%Q.
Proof. repeat split; vm_compute; reflexivity. Qed.

(** A file of 28 lines [x] and 772 blank lines has 115 duplicated lines
    in 800: the quotient times 100 is a double below 14.375, and the
    percentage reported is 14.37. In a file of 27 lines [x] and 773 blank
    lines the blocks of the clusters add up to 115 lines, and the
    percentage of the most duplicated file is 14.37 as well. *)
Example percentages_of_python :
  exists r r' m,
    DuplicationAnalyzer.find_duplicates DuplicationAnalyzer.default
      [("big.py", DuplicationNotions.lines_then_blanks 28)] = Returns r
    /\ DuplicationAnalyzer.lineas_duplicadas r = 115
    /\ DuplicationAnalyzer.porcentaje_global r = double (1437 # 100)
    /\ DuplicationAnalyzer.find_duplicates DuplicationAnalyzer.default
         [("f.py", DuplicationNotions.lines_then_blanks 27)] = Returns r'
    /\ DuplicationAnalyzer.mayor_duplicacion r' = Some m
    /\ DuplicationAnalyzer.porcentaje m = double (1437 # 100).
Proof.
  eexists. eexists. eexists.
  split; [vm_compute; reflexivity|]. split; [reflexivity|].
  split; [reflexivity|]. split; [vm_compute; reflexivity|].
  split; reflexivity.
Qed.

End ModelExamples.

(** ** Dictionaries *)

Module DictFacts.

Import Py.

Section Facts.
Context {V : Type}.
Implicit Types (d : dict V) (k : string) (v : V).

Lemma get_in_keys k d : In k (keys d) -> exists v, get k d = Some v.
Proof.
  induction d as [|[k' v'] d IH]; simpl; [tauto|].
  intros [->|Hin].
  - rewrite String.eqb_refl. eauto.
  - destruct (String.eqb k k'); eauto.
Qed.

Lemma get_some_in k d v : get k d = Some v -> In (k, v) d.
Proof.
  induction d as [|[k' v'] d IH]; simpl; [discriminate|].
  destruct (String.eqb_spec k k') as [->|]; auto.
  intros [= ->]. auto.
Qed.

(** Assigning to a key that is present keeps the keys and their order. *)
Lemma keys_set_present k v d : In k (keys d) -> keys (set k v d) = keys d.
Proof.
  induction d as [|[k' v'] d IH]; simpl; [tauto|].
  destruct (String.eqb_spec k k') as [->|Hne]; [reflexivity|].
  intros [Heq|Hin]; [congruence|].
  simpl. f_equal. apply IH, Hin.
Qed.

Lemma get_set_same k v d : get k (set k v d) = Some v.
Proof.
  induction d as [|[k' v'] d IH]; simpl.
  - now rewrite String.eqb_refl.
  - destruct (String.eqb_spec k k') as [->|Hne]; simpl.
    + now rewrite String.eqb_refl.
    + destruct (String.eqb_spec k k'); [contradiction|exact IH].
Qed.

Lemma get_set_other k k' v d : k <> k' -> get k (set k' v d) = get k d.
Proof.
  intros Hne.
  induction d as [|[k0 v0] d IH]; simpl.
  - destruct (String.eqb_spec k k'); [contradiction|reflexivity].
  - destruct (String.eqb_spec k' k0) as [->|]; simpl.
    + destruct (String.eqb_spec k k0); [contradiction|reflexivity].
    + now rewrite IH.
Qed.

(** What [set] leaves in the dictionary: the old entries, or the new one. *)
Lemma in_set k v d k0 v0 :
  In (k0, v0) (set k v d) -> In (k0, v0) d \/ (k0 = k /\ v0 = v).
Proof.
  induction d as [|[k' v'] d IH]; simpl.
  - intros [[= <- <-]|[]]. auto.
  - destruct (String.eqb_spec k k') as [->|Hne]; simpl.
    + intros [[= <- <-]|Hin]; auto.
    + intros [Heq|Hin]; auto.
      destruct (IH Hin); auto.
Qed.
Lemma set_absent k v d : ~ In k (keys d) -> set k v d = d ++ [(k, v)].
Proof.
  induction d as [|[k' v'] d IH]; simpl; [reflexivity|].
  intros Hnot.
  destruct (String.eqb_spec k k') as [->|Hne]; [tauto|].
  f_equal. apply IH. tauto.
Qed.

Lemma in_keys_set k v d k0 :
  In k0 (keys (set k v d)) -> k0 = k \/ In k0 (keys d).
Proof.
  induction d as [|[k' v'] d IH]; simpl.
  - intros [<-|[]]. auto.
  - destruct (String.eqb_spec k k') as [->|Hne]; simpl.
    + intros [<-|Hin]; auto.
    + intros [<-|Hin]; auto.
      destruct (IH Hin); auto.
Qed.

Lemma NoDup_keys_set k v d : NoDup (keys d) -> NoDup (keys (set k v d)).
Proof.
  induction d as [|[k' v'] d IH]; simpl; intros Hnd.
  - repeat constructor. simpl. tauto.
  - inversion Hnd as [|? ? Hnot Hrest]; subst.
    destruct (String.eqb_spec k k') as [->|Hne]; simpl.
    + constructor; assumption.
    + constructor; [|apply IH, Hrest].
      intros Hin. apply in_keys_set in Hin. destruct Hin; [congruence|tauto].
Qed.

Lemma keys_set_in k v d k0 :
  k0 = k \/ In k0 (keys d) -> In k0 (keys (set k v d)).
Proof.
  induction d as [|[k' v'] d IH]; simpl.
  - intros [->|[]]. now left.
  - destruct (String.eqb_spec k k') as [->|Hne]; simpl.
    + intros [->|[<-|Hin]]; auto.
    + intros [->|[<-|Hin]]; auto.
Qed.

(** With distinct keys, an entry of the list is what [get] finds. *)
Lemma get_in_nodup k v d : NoDup (keys d) -> In (k, v) d -> get k d = Some v.
Proof.
  induction d as [|[k' v'] d IH]; simpl; intros Hnd; [tauto|].
  inversion Hnd as [|? ? Hnot Hrest]; subst.
  intros [[= -> ->]|Hin].
  - now rewrite String.eqb_refl.
  - destruct (String.eqb_spec k k') as [->|Hne]; [|apply IH; assumption].
    exfalso. apply Hnot. change k' with (fst (k', v)).
    apply in_map, Hin.
Qed.
End Facts.

(** [max(items, key=lambda x: x[1])] is an item, and no item has a larger
    second component. *)
Lemma max_by_snd_in {A} (rest : list (A * Z)) : forall best,
  In (max_by_snd best rest) (best :: rest).
Proof.
  induction rest as [|p rest IH]; intros best; cbn [max_by_snd].
  - now left.
  - destruct (IH (if snd best <? snd p then p else best)) as [Heq|Hin].
    + rewrite <- Heq. destruct (snd best <? snd p); simpl; auto.
    + right. now right.
Qed.

Lemma max_by_snd_ge {A} (rest : list (A * Z)) : forall best,
  snd best <= snd (max_by_snd best rest)
  /\ forall p, In p rest -> snd p <= snd (max_by_snd best rest).
Proof.
  induction rest as [|p rest IH]; intros best; cbn [max_by_snd].
  - split; [lia|intros p []].
  - destruct (IH (if snd best <? snd p then p else best)) as [Hb Hr].
    destruct (Z.ltb_spec (snd best) (snd p)); split; try lia.
    + intros q [<-|Hq]; [lia|auto].
    + intros q [<-|Hq]; [lia|auto].
Qed.

Lemma max_item_spec {A} (items : list (A * Z)) (best : A * Z) :
  max_item items = Some best ->
  In best items /\ forall p, In p items -> snd p <= snd best.
Proof.
  destruct items as [|p0 rest]; [discriminate|].
  cbn [max_item]. intros [= <-]. split.
  - apply max_by_snd_in.
  - destruct (max_by_snd_ge rest p0) as [H0 Hr].
    intros p [<-|Hp]; auto.
Qed.

Lemma sumZ_from (xs : list Z) (a : Z) : fold_left Z.add xs a = a + sumZ xs.
Proof.
  unfold sumZ. revert a.
  induction xs as [|x xs IH]; intros a; cbn [fold_left]; [lia|].
  rewrite (IH (a + x)), (IH (0 + x)). lia.
Qed.

Lemma sumZ_cons (x : Z) (xs : list Z) : sumZ (x :: xs) = x + sumZ xs.
Proof. unfold sumZ at 1. simpl. now rewrite sumZ_from. Qed.

Lemma sumZ_app (xs ys : list Z) : sumZ (xs ++ ys) = sumZ xs + sumZ ys.
Proof.
  induction xs as [|x xs IH]; simpl; [reflexivity|].
  rewrite !sumZ_cons, IH. lia.
Qed.

Lemma llen_cons {A} (x : A) (xs : list A) : llen (x :: xs) = 1 + llen xs.
Proof. unfold llen. cbn [List.length]. lia. Qed.

Lemma length_map_llen {A B} (f : A -> B) (xs : list A) :
  llen (map f xs) = llen xs.
Proof. unfold llen. now rewrite length_map. Qed.

Lemma llen_nonneg {A} (xs : list A) : 0 <= llen xs.
Proof. unfold llen. lia. Qed.

End DictFacts.

(** ** The base analyzer: keys and counters *)

Module LanguageAnalyzerFacts.

Import Py LanguageAnalyzer BaseSpec DictFacts.
Local Open Scope string_scope.
Local Open Scope list_scope.
Local Open Scope Z_scope.

Lemma analyze_loop cls files acc :
  fold_left (analyze_step cls) files acc
  = Progress (file_metrics acc ++ collected cls files)
             (files_done acc + llen (analyzed cls files))
             (lines_done acc + analyzed_lines cls files).
Proof.
  revert acc.
  induction files as [|[p c] files IH]; intros [fm n l]; simpl.
  - unfold analyzed_lines. simpl.
    rewrite app_nil_r. f_equal; unfold llen, sumZ; simpl; lia.
  - rewrite IH. unfold analyze_step, analyzed_lines, analyzed. simpl.
    destruct (should_analyze_file cls p); simpl; [|reflexivity].
    destruct (analyze_file cls p c) as [m|e]; simpl; [|reflexivity].
    rewrite <- app_assoc, sumZ_cons. simpl.
    f_equal; [rewrite llen_cons|]; lia.
Qed.

Lemma setitem2_keys category leaf v (ms : metrics_t) :
  In category (keys ms) ->
  exists ms', setitem2 category leaf v ms = Returns ms'
              /\ keys ms' = keys ms.
Proof.
  intros Hin. unfold setitem2.
  destruct (get_in_keys _ _ Hin) as [d ->].
  eexists. split; [reflexivity|].
  now apply keys_set_present.
Qed.

Lemma aggregate_one_keys fm (ms : metrics_t) stanza :
  In (fst (fst stanza)) (keys ms) ->
  exists ms', aggregate_one fm (Returns ms) stanza = Returns ms'
              /\ keys ms' = keys ms.
Proof.
  destruct stanza as [[category leaf] target]. simpl. intros Hin.
  destruct (scores_of category leaf fm); [exists ms; auto|].
  now apply setitem2_keys.
Qed.

Lemma aggregate_fold_keys fm (sts : list (string * string * string))
  (ms : metrics_t) :
  Forall (fun st => In (fst (fst st)) (keys ms)) sts ->
  exists ms', fold_left (aggregate_one fm) sts (Returns ms) = Returns ms'
              /\ keys ms' = keys ms.
Proof.
  revert ms.
  induction sts as [|st sts IH]; intros ms Hall; cbn [fold_left];
    [exists ms; auto|].
  inversion Hall as [|? ? Hst Hrest]; subst.
  destruct (aggregate_one_keys fm ms st Hst) as (ms1 & -> & Hk1).
  destruct (IH ms1) as (ms2 & Hfold & Hk2); [now rewrite Hk1|].
  exists ms2. split; [exact Hfold|now rewrite Hk2].
Qed.

Lemma stanzas_in_categories :
  Forall (fun st => In (fst (fst st)) categories) stanzas.
Proof.
  unfold stanzas.
  repeat (apply Forall_cons; [cbn [fst]; unfold categories; auto 10 using in_eq, in_cons|]).
  apply Forall_nil.
Qed.

(** [aggregate_metrics] returns, and keeps the keys and the counters. *)
Lemma aggregate_metrics_keys self fm :
  keys (metrics self) = categories ->
  exists self', aggregate_metrics self fm = Returns self'
                /\ keys (metrics self') = categories
                /\ total_files self' = total_files self
                /\ total_lines self' = total_lines self.
Proof.
  intros Hk. unfold aggregate_metrics.
  destruct fm as [|m fm]; [exists self; auto|].
  destruct (aggregate_fold_keys (m :: fm) stanzas (metrics self))
    as (ms & -> & Hms); [rewrite Hk; exact stanzas_in_categories|].
  simpl. eexists. repeat split; simpl; congruence.
Qed.

(** One call of [analyze_files] on an instance whose [metrics] has the
    eight keys: it returns [self.metrics], keeps the keys, and adds the
    analyzed files and their newlines to the counters. *)
Lemma analyze_files_spec cls self files :
  keys (metrics self) = categories ->
  exists self',
    analyze_files cls self files = Returns (metrics self', self')
    /\ keys (metrics self') = categories
    /\ total_files self' = total_files self + llen (analyzed cls files)
    /\ total_lines self' = total_lines self + analyzed_lines cls files.
Proof.
  intros Hk. unfold analyze_files.
  rewrite analyze_loop. simpl.
  destruct (collected cls files) as [|m fm].
  - simpl.
    exists (Self (metrics self)
                 (total_files self + llen (analyzed cls files))
                 (total_lines self + analyzed_lines cls files)).
    simpl. auto.
  - destruct (aggregate_metrics_keys
                (Self (metrics self)
                      (total_files self + llen (analyzed cls files))
                      (total_lines self + analyzed_lines cls files))
                (m :: fm) Hk)
      as (self' & -> & Hk' & Hf & Hl).
    simpl. exists self'. auto.
Qed.

Lemma init_keys : keys (metrics init) = categories.
Proof. reflexivity. Qed.

Lemma after_calls_keys cls calls : forall self,
  keys (metrics self) = categories ->
  exists self', after_calls cls self calls = Returns self'
                /\ keys (metrics self') = categories.
Proof.
  induction calls as [|files calls IH]; intros self Hk; cbn [after_calls].
  - exists self. auto.
  - destruct (analyze_files_spec cls self files Hk) as (s1 & -> & Hk1 & _).
    cbn [bind snd]. exact (IH s1 Hk1).
Qed.

(** After any sequence of calls on a fresh instance, the counters hold the
    files analyzed in all the calls and their newlines. *)
Lemma after_calls_counters cls calls : forall self,
  keys (metrics self) = categories ->
  exists self',
    after_calls cls self calls = Returns self'
    /\ total_files self'
       = total_files self + sumZ (map (fun files => llen (analyzed cls files)) calls)
    /\ total_lines self'
       = total_lines self + sumZ (map (analyzed_lines cls) calls).
Proof.
  induction calls as [|files calls IH]; intros self Hk;
    cbn [after_calls map].
  - exists self. unfold sumZ. simpl. repeat split; lia.
  - destruct (analyze_files_spec cls self files Hk)
      as (s1 & -> & Hk1 & Hf1 & Hl1).
    cbn [bind snd]. destruct (IH s1 Hk1) as (s2 & Hrun & Hf2 & Hl2).
    exists s2. rewrite !sumZ_cons. repeat split; [exact Hrun|lia|lia].
Qed.

End LanguageAnalyzerFacts.

(** ** The empathy score: bounds *)

Module ScoreFacts.

Import Py LanguageAnalyzer BaseSpec DictFacts LanguageAnalyzerFacts.
Local Open Scope string_scope.
Local Open Scope list_scope.
Local Open Scope Q_scope.

Lemma sumQ_from (xs : list Q) (a : Q) : fold_left Qplus xs a == a + sumQ xs.
Proof.
  unfold sumQ. revert a.
  induction xs as [|x xs IH]; intros a; cbn [fold_left]; [lra|].
  rewrite (IH (a + x)), (IH (0 + x)). lra.
Qed.

Lemma sumQ_cons (x : Q) (xs : list Q) : sumQ (x :: xs) == x + sumQ xs.
Proof. unfold sumQ at 1. cbn [fold_left]. rewrite sumQ_from. lra. Qed.

Lemma sumQ_app (xs ys : list Q) : sumQ (xs ++ ys) == sumQ xs + sumQ ys.
Proof.
  induction xs as [|x xs IH]; cbn [app].
  - unfold sumQ at 2. cbn [fold_left]. lra.
  - rewrite !sumQ_cons, IH. lra.
Qed.

Lemma inject_llen_cons {A} (x : A) (xs : list A) :
  inject_Z (llen (x :: xs)) == 1 + inject_Z (llen xs).
Proof. rewrite llen_cons, inject_Z_plus. reflexivity. Qed.

Lemma inject_llen_nonneg {A} (xs : list A) : 0 <= inject_Z (llen xs).
Proof.
  change 0 with (inject_Z 0). rewrite <- Zle_Qle. apply llen_nonneg.
Qed.

(** The sum of [n] unit values lies between 0 and [n]. *)
Lemma sumQ_unit (xs : list Q) :
  Forall unit_value xs -> 0 <= sumQ xs <= inject_Z (llen xs).
Proof.
  induction 1 as [|x xs [Hx0 Hx1] _ [IH0 IH1]].
  - unfold sumQ, llen. simpl. split; apply Qle_refl.
  - rewrite sumQ_cons, inject_llen_cons. lra.
Qed.

(** The mean of unit values is a unit value. *)
Lemma mean_unit (x : Q) (xs : list Q) :
  Forall unit_value (x :: xs) ->
  unit_value (sumQ (x :: xs) / inject_Z (llen (x :: xs))).
Proof.
  intros Hall.
  destruct (sumQ_unit _ Hall) as [H0 H1].
  assert (Hpos : 0 < inject_Z (llen (x :: xs))).
  { rewrite inject_llen_cons. pose proof (inject_llen_nonneg xs). lra. }
  split.
  - apply Qle_shift_div_l; [exact Hpos|]. lra.
  - apply Qle_shift_div_r; [exact Hpos|]. lra.
Qed.

Lemma get_category_unit (m : metrics_t) category d :
  unit_metrics m -> get category m = Some d -> unit_leaves d.
Proof.
  intros Hm Hget. apply get_some_in in Hget.
  unfold unit_metrics in Hm. rewrite Forall_forall in Hm.
  exact (Hm _ Hget).
Qed.

Lemma set_unit (d : leaves) leaf v :
  unit_leaves d -> unit_value v -> unit_leaves (set leaf v d).
Proof.
  intros Hd Hv. unfold unit_leaves in *. rewrite Forall_forall in *.
  intros [k0 v0] Hin.
  destruct (in_set _ _ _ _ _ Hin) as [Hold|[_ ->]]; [exact (Hd _ Hold)|exact Hv].
Qed.

Lemma set_category_unit (m : metrics_t) category d :
  unit_metrics m -> unit_leaves d -> unit_metrics (set category d m).
Proof.
  intros Hm Hd. unfold unit_metrics in *. rewrite Forall_forall in *.
  intros [k0 v0] Hin.
  destruct (in_set _ _ _ _ _ Hin) as [Hold|[_ ->]]; [exact (Hm _ Hold)|exact Hd].
Qed.

(** What a stanza reads from the files is a list of unit values. *)
Lemma scores_of_unit category leaf target (fm : list metrics_t) :
  In (category, leaf, target) stanzas ->
  Forall unit_reads fm -> Forall unit_value (scores_of category leaf fm).
Proof.
  intros Hst Hfm. unfold scores_of.
  rewrite Forall_forall in *. intros q Hq.
  apply in_map_iff in Hq. destruct Hq as (m & <- & Hm).
  apply filter_In in Hm. destruct Hm as [Hm Hrep].
  exact (Hfm m Hm category leaf target Hst Hrep).
Qed.

Lemma setitem2_unit category leaf v (ms ms' : metrics_t) :
  unit_metrics ms -> unit_value v ->
  setitem2 category leaf v ms = Returns ms' -> unit_metrics ms'.
Proof.
  unfold setitem2. intros Hms Hv.
  destruct (get category ms) as [d|] eqn:Hc; [|discriminate].
  intros [= <-].
  apply set_category_unit; [exact Hms|].
  apply set_unit; [|exact Hv].
  eapply get_category_unit; eassumption.
Qed.

Lemma aggregate_one_unit fm (ms ms' : metrics_t) stanza :
  In stanza stanzas -> Forall unit_reads fm -> unit_metrics ms ->
  aggregate_one fm (Returns ms) stanza = Returns ms' -> unit_metrics ms'.
Proof.
  destruct stanza as [[category leaf] target]. simpl. intros Hst Hfm Hms.
  pose proof (scores_of_unit category leaf target fm Hst Hfm) as Hsc.
  destruct (scores_of category leaf fm) as [|q qs].
  - now intros [= <-].
  - apply setitem2_unit; [exact Hms|]. now apply mean_unit.
Qed.

(** Once a stanza has raised, the loop raises. *)
Lemma aggregate_fold_raises fm (sts : list (string * string * string)) e :
  fold_left (aggregate_one fm) sts (Raises e) = Raises e.
Proof.
  induction sts as [|[[c l] tg] sts IH]; cbn [fold_left]; [reflexivity|].
  exact IH.
Qed.

Lemma aggregate_fold_unit fm (sts : list (string * string * string))
  (ms ms' : metrics_t) :
  incl sts stanzas -> Forall unit_reads fm -> unit_metrics ms ->
  fold_left (aggregate_one fm) sts (Returns ms) = Returns ms' ->
  unit_metrics ms'.
Proof.
  intros Hincl Hfm. revert ms.
  induction sts as [|st sts IH]; intros ms Hms; cbn [fold_left].
  - now intros [= <-].
  - destruct (aggregate_one fm (Returns ms) st) as [ms1|e] eqn:Hone.
    + apply IH; [intros x Hx; apply Hincl; now right|].
      eapply aggregate_one_unit; [apply Hincl; now left| | |]; eassumption.
    + rewrite aggregate_fold_raises. discriminate.
Qed.

(** The results collected from a map of unit results are unit reads. *)
Lemma collected_unit cls files :
  unit_results cls files -> Forall unit_reads (collected cls files).
Proof.
  intros Hres. unfold collected. rewrite Forall_forall. intros m Hm.
  apply in_flat_map in Hm. destruct Hm as ([p c] & Hin & Hm). simpl in Hm.
  destruct (should_analyze_file cls p) eqn:Hext; [|destruct Hm].
  destruct (analyze_file cls p c) as [m'|e] eqn:Hfile; [|destruct Hm].
  destruct Hm as [<-|[]]. exact (Hres _ _ _ Hin Hext Hfile).
Qed.

Lemma analyze_files_unit cls self files ms self' :
  unit_results cls files -> unit_metrics (metrics self) ->
  analyze_files cls self files = Returns (ms, self') ->
  unit_metrics (metrics self').
Proof.
  intros Hres Hself. unfold analyze_files.
  rewrite analyze_loop. cbn [file_metrics files_done lines_done app].
  pose proof (collected_unit cls files Hres) as Hfm.
  destruct (collected cls files) as [|m fm]; cbn [bind].
  - intros [= _ <-]. exact Hself.
  - unfold aggregate_metrics. cbn [metrics].
    destruct (fold_left (aggregate_one (m :: fm)) stanzas
                        (Returns (metrics self))) as [ms1|e] eqn:Hfold;
      cbn [bind]; [|discriminate].
    intros [= _ <-]. cbn [metrics].
    eapply aggregate_fold_unit; [apply incl_refl| | |]; eassumption.
Qed.

Lemma category_values_unit (ms : metrics_t) category :
  unit_metrics ms ->
  Forall unit_value (values (get_category category ms)).
Proof.
  intros Hms. unfold values. apply Forall_map.
  unfold get_category, get_default.
  destruct (get category ms) as [d|] eqn:Hget; [|constructor].
  exact (get_category_unit _ _ _ Hms Hget).
Qed.

(** The scores of the categories, for any table of non-negative weights:
    between 0 and the sum of the weights. *)
Lemma category_scores_bound (ms : metrics_t) (ws : dict Q) :
  unit_metrics ms ->
  Forall (fun cw => 0 <= snd cw) ws ->
  0 <= sumQ (flat_map (category_score ms) ws) <= sumQ (values ws).
Proof.
  intros Hms Hws.
  induction Hws as [|[c w] ws Hw _ IH]; cbn [flat_map values map].
  - unfold sumQ. simpl. split; apply Qle_refl.
  - rewrite sumQ_app. fold (values ws). rewrite sumQ_cons.
    cbn [snd] in *.
    assert (Hc : 0 <= sumQ (category_score ms (c, w)) <= w).
    { pose proof (category_values_unit ms c Hms) as Hvs.
      unfold category_score.
      destruct (values (get_category c ms)) as [|v vs].
      - unfold sumQ. simpl. split; [apply Qle_refl|exact Hw].
      - destruct (mean_unit v vs Hvs) as [H0 H1].
        unfold sumQ at 1 3. cbn [fold_left].
        set (mean := sumQ (v :: vs) / inject_Z (llen (v :: vs))) in *.
        nra. }
    lra.
Qed.

Lemma weights_nonneg : Forall (fun cw => 0 <= snd cw) weights.
Proof. unfold weights. repeat (apply Forall_cons; [discriminate|]). apply Forall_nil. Qed.

Lemma weights_sum : sumQ (values weights) == 1.
Proof. reflexivity. Qed.

Lemma calculate_empathy_score_sum self :
  calculate_empathy_score self
  = sumQ (flat_map (category_score (metrics self)) weights).
Proof.
  unfold calculate_empathy_score.
  now destruct (flat_map (category_score (metrics self)) weights).
Qed.

(** The score of an instance whose leaves are unit values is a unit
    value. *)
Lemma score_unit self :
  unit_metrics (metrics self) -> unit_value (calculate_empathy_score self).
Proof.
  intros Hms. rewrite calculate_empathy_score_sum.
  pose proof (category_scores_bound _ _ Hms weights_nonneg) as H.
  rewrite weights_sum in H. exact H.
Qed.

End ScoreFacts.

(** ** The duplication detector *)

Module DuplicationFacts.

Import Py DuplicationAnalyzer DuplicationSpec DictFacts.
Local Open Scope string_scope.
Local Open Scope list_scope.
Local Open Scope Z_scope.

(** *** Grouping by hash *)

Lemma group_block_all P (by_hash : dict (list block)) b :
  groups_all P by_hash -> P b -> groups_all P (group_block by_hash b).
Proof.
  intros Hall Hb h bs Hin. unfold group_block in Hin.
  apply in_set in Hin. destruct Hin as [Hold|[_ ->]]; [exact (Hall _ _ Hold)|].
  apply Forall_app. split; [|now repeat constructor].
  unfold get_default.
  destruct (get (b_hash b) by_hash) as [old|] eqn:Hget; [|constructor].
  exact (Hall _ _ (get_some_in _ _ _ Hget)).
Qed.

Lemma group_blocks_all P (bs : list block) : forall by_hash,
  groups_all P by_hash -> Forall P bs ->
  groups_all P (fold_left group_block bs by_hash).
Proof.
  induction bs as [|b bs IH]; intros by_hash Hall Hbs; cbn [fold_left];
    [exact Hall|].
  inversion Hbs; subst. apply IH; [now apply group_block_all|assumption].
Qed.

Lemma group_blocks_nodup (bs : list block) : forall by_hash,
  NoDup (keys by_hash) -> NoDup (keys (fold_left group_block bs by_hash)).
Proof.
  induction bs as [|b bs IH]; intros by_hash Hnd; cbn [fold_left];
    [exact Hnd|].
  apply IH. unfold group_block. now apply NoDup_keys_set.
Qed.

Lemma block_at_path self lines file_path i :
  Forall (fun b => b_file_path b = file_path)
         (block_at self lines file_path i).
Proof.
  unfold block_at.
  destruct (min_block_size self <=? _); repeat constructor.
Qed.

Lemma extract_blocks_path self content file_path :
  Forall (fun b => b_file_path b = file_path)
         (extract_blocks self content file_path).
Proof.
  unfold extract_blocks. rewrite Forall_forall. intros b Hb.
  apply in_flat_map in Hb. destruct Hb as (i & _ & Hb).
  pose proof (block_at_path self (split_lines content) file_path i) as H.
  rewrite Forall_forall in H. exact (H b Hb).
Qed.

(** The groups have distinct hashes, and every block of every group
    comes from a file of the map. *)
Lemma blocks_by_hash_spec self (files_content : dict string) :
  NoDup (keys (blocks_by_hash self files_content))
  /\ groups_all (fun b => In (b_file_path b) (keys files_content))
                (blocks_by_hash self files_content).
Proof.
  unfold blocks_by_hash.
  assert (H : forall (files : dict string) (by_hash : dict (list block))
                     (known : list string),
             NoDup (keys by_hash) ->
             groups_all (fun b => In (b_file_path b) (known ++ keys files))
                        by_hash ->
             NoDup (keys (fold_left (group_file self) files by_hash))
             /\ groups_all (fun b => In (b_file_path b) (known ++ keys files))
                           (fold_left (group_file self) files by_hash)).
  { induction files as [|[p c] files IH]; intros by_hash known Hnd Hall;
      cbn [fold_left]; [auto|].
    cbn [keys map fst] in *.
    replace (known ++ p :: map fst files)
      with ((known ++ [p]) ++ keys files) in *
      by (rewrite <- app_assoc; reflexivity).
    apply IH; unfold group_file.
    - destruct (truthy (strip c)); [|exact Hnd].
      now apply group_blocks_nodup.
    - destruct (truthy (strip c)); [|exact Hall].
      apply group_blocks_all; [exact Hall|].
      pose proof (extract_blocks_path self c p) as Hp.
      rewrite Forall_forall in *. intros b Hb. rewrite (Hp b Hb).
      apply in_or_app. left. apply in_or_app. right. now left. }
  apply (H files_content [] []); [constructor|intros h bs []].
Qed.

(** *** Finding the clusters *)

Lemma find_step_cluster acc item :
  ~ In (fst item) (keys (duplicates acc)) ->
  duplicates (find_step acc item) = duplicates acc ++ cluster_of item
  /\ total_duplicated_lines (find_step acc item)
     = total_duplicated_lines acc + sumZ (map cluster_lines (values (cluster_of item))).
Proof.
  destruct item as [h bs]. unfold find_step, cluster_of. cbn [fst snd].
  intros Hnot.
  destruct bs as [|b0 [|b1 bs]]; cbn [duplicates total_duplicated_lines].
  - rewrite app_nil_r. split; [reflexivity|]. unfold sumZ. simpl. lia.
  - rewrite app_nil_r. split; [reflexivity|]. unfold sumZ. simpl. lia.
  - split; [now apply set_absent|].
    unfold values, cluster_lines, sumZ. simpl. lia.
Qed.

(** The second loop computes the clusters of the grouping and the sum of
    their duplicated lines. *)
Lemma find_clusters_fold (items : dict (list block)) : forall acc,
  NoDup (keys items) ->
  (forall h, In h (keys (duplicates acc)) -> ~ In h (keys items)) ->
  duplicates (fold_left find_step items acc)
  = duplicates acc ++ clusters_of items
  /\ total_duplicated_lines (fold_left find_step items acc)
     = total_duplicated_lines acc
       + sumZ (map cluster_lines (values (clusters_of items))).
Proof.
  induction items as [|item items IH]; intros acc Hnd Hfresh;
    cbn [fold_left clusters_of flat_map].
  - rewrite app_nil_r. unfold sumZ. simpl. split; [reflexivity|lia].
  - cbn [keys map] in Hnd. inversion Hnd as [|? ? Hnot Hrest]; subst.
    destruct (find_step_cluster acc item) as [Hd Ht].
    { intros Hin. apply (Hfresh _ Hin). now left. }
    destruct (IH (find_step acc item) Hrest) as [Hd' Ht'].
    { intros h Hin. rewrite Hd in Hin. unfold keys in Hin.
      rewrite map_app in Hin. apply in_app_or in Hin.
      destruct Hin as [Hin|Hin].
      - intros Hin'. apply (Hfresh h Hin). now right.
      - assert (h = fst item) as ->.
        { unfold cluster_of in Hin.
          destruct (snd item) as [|b0 [|b1 bs]]; simpl in Hin;
            intuition congruence. }
        exact Hnot. }
    fold (clusters_of items). rewrite Hd', Ht', Hd, Ht.
    split; [now rewrite app_assoc|].
    unfold values. rewrite !map_app, sumZ_app. lia.
Qed.

Lemma find_clusters_spec (by_hash : dict (list block)) :
  NoDup (keys by_hash) ->
  duplicates (find_clusters by_hash) = clusters_of by_hash
  /\ total_duplicated_lines (find_clusters by_hash)
     = sumZ (map cluster_lines (values (clusters_of by_hash))).
Proof.
  intros Hnd. unfold find_clusters.
  destruct (find_clusters_fold by_hash (Found [] 0 []) Hnd) as [Hd Ht].
  - intros h [].
  - now rewrite Hd, Ht.
Qed.

(** A cluster counts its blocks, has two of them or more, and its blocks
    are those of a group. *)
Lemma clusters_of_spec (by_hash : dict (list block)) d :
  In d (values (clusters_of by_hash)) ->
  occurrences d = llen (blocks d)
  /\ 2 <= occurrences d
  /\ exists h, In (h, blocks d) by_hash.
Proof.
  unfold values, clusters_of. intros Hin.
  apply in_map_iff in Hin. destruct Hin as ([h d'] & <- & Hin).
  apply in_flat_map in Hin. destruct Hin as ([h0 bs] & Hitem & Hin).
  unfold cluster_of in Hin. cbn [fst snd] in Hin.
  destruct bs as [|b0 [|b1 bs]]; [destruct Hin|destruct Hin|].
  destruct Hin as [[= <- <-]|[]]. cbn [snd occurrences blocks].
  split; [reflexivity|]. split; [|now exists h0].
  rewrite !llen_cons. pose proof (llen_nonneg bs). lia.
Qed.

(** *** The statistics per file *)

Lemma blocks_in_cons f b bs :
  blocks_in f (b :: bs)
  = (if String.eqb (b_file_path b) f then 1 else 0) + blocks_in f bs.
Proof.
  unfold blocks_in. cbn [filter].
  destruct (String.eqb (b_file_path b) f); [now rewrite llen_cons|lia].
Qed.

Lemma stat_block_get sz (stats : dict Z) b f :
  get_default f 0 (stat_block sz stats b)
  = get_default f 0 stats + (if String.eqb (b_file_path b) f then sz else 0).
Proof.
  unfold stat_block, get_default.
  destruct (String.eqb_spec (b_file_path b) f) as [->|Hne].
  - now rewrite get_set_same.
  - rewrite get_set_other by congruence. lia.
Qed.

Lemma stat_blocks_get sz (bs : list block) : forall (stats : dict Z) f,
  get_default f 0 (fold_left (stat_block sz) bs stats)
  = get_default f 0 stats + sz * blocks_in f bs.
Proof.
  induction bs as [|b bs IH]; intros stats f; cbn [fold_left].
  - unfold blocks_in, llen. simpl. lia.
  - rewrite IH, stat_block_get, blocks_in_cons.
    destruct (String.eqb (b_file_path b) f); lia.
Qed.

Lemma stat_duplicates_get (ds : list duplicate) : forall (stats : dict Z) f,
  get_default f 0 (fold_left stat_duplicate ds stats)
  = get_default f 0 stats
    + sumZ (map (fun d => size d * blocks_in f (blocks d)) ds).
Proof.
  induction ds as [|d ds IH]; intros stats f; cbn [fold_left map].
  - unfold sumZ. simpl. lia.
  - rewrite IH. unfold stat_duplicate. rewrite stat_blocks_get, sumZ_cons. lia.
Qed.

(** The count kept for a file is the summed size of its duplicated
    blocks. *)
Lemma file_duplication_stats_get (dups : dict duplicate) f :
  get_default f 0 (file_duplication_stats dups) = duplicated_size dups f.
Proof.
  unfold file_duplication_stats, duplicated_size.
  rewrite stat_duplicates_get. reflexivity.
Qed.

Lemma stat_blocks_keys sz (bs : list block) : forall (stats : dict Z),
  NoDup (keys stats) ->
  NoDup (keys (fold_left (stat_block sz) bs stats))
  /\ forall f, In f (keys (fold_left (stat_block sz) bs stats))
               <-> In f (keys stats)
                   \/ exists b, In b bs /\ b_file_path b = f.
Proof.
  induction bs as [|b bs IH]; intros stats Hnd; cbn [fold_left].
  - split; [exact Hnd|]. intros f. split; [auto|].
    intros [H|(b & [] & _)]. exact H.
  - destruct (IH (stat_block sz stats b)) as [Hnd' Hkeys].
    { unfold stat_block. now apply NoDup_keys_set. }
    split; [exact Hnd'|]. intros f. rewrite Hkeys. unfold stat_block. split.
    + intros [Hin|(b' & Hb' & Hf)].
      * apply in_keys_set in Hin. destruct Hin as [->|Hin]; [|now left].
        right. exists b. split; [now left|reflexivity].
      * right. exists b'. split; [now right|exact Hf].
    + intros [Hin|(b' & [<-|Hb'] & Hf)].
      * left. apply keys_set_in. now right.
      * left. apply keys_set_in. now left.
      * right. exists b'. auto.
Qed.

Lemma stat_duplicates_keys (ds : list duplicate) : forall (stats : dict Z),
  NoDup (keys stats) ->
  NoDup (keys (fold_left stat_duplicate ds stats))
  /\ forall f, In f (keys (fold_left stat_duplicate ds stats))
               <-> In f (keys stats)
                   \/ exists d b, In d ds /\ In b (blocks d)
                                  /\ b_file_path b = f.
Proof.
  induction ds as [|d ds IH]; intros stats Hnd; cbn [fold_left].
  - split; [exact Hnd|]. intros f. split; [auto|].
    intros [H|(d & b & [] & _)]. exact H.
  - destruct (stat_blocks_keys (size d) (blocks d) stats Hnd) as [Hnd1 Hk1].
    destruct (IH (stat_duplicate stats d) Hnd1) as [Hnd2 Hk2].
    split; [exact Hnd2|]. intros f. rewrite Hk2. unfold stat_duplicate.
    rewrite Hk1. split.
    + intros [[Hin|(b & Hb & Hf)]|(d' & b & Hd' & Hb & Hf)].
      * now left.
      * right. exists d, b. split; [now left|auto].
      * right. exists d', b. split; [now right|auto].
    + intros [Hin|(d' & b & [<-|Hd'] & Hb & Hf)].
      * left. now left.
      * left. right. exists b. auto.
      * right. exists d', b. auto.
Qed.

(** The files counted are those that occur in a cluster, each once. *)
Lemma file_duplication_stats_keys (dups : dict duplicate) :
  NoDup (keys (file_duplication_stats dups))
  /\ forall f, In f (keys (file_duplication_stats dups)) <-> occurs_in dups f.
Proof.
  unfold file_duplication_stats, occurs_in.
  destruct (stat_duplicates_keys (values dups) []) as [Hnd Hk];
    [constructor|].
  split; [exact Hnd|]. intros f. rewrite Hk. simpl. tauto.
Qed.

(** *** Line counts *)

Lemma split_aux_nonempty sep s : forall cur, 1 <= llen (split_aux sep cur s).
Proof.
  induction s as [|c s IH]; intros cur; cbn [split_aux].
  - unfold llen. simpl. lia.
  - destruct (Ascii.eqb c sep); [|apply IH].
    rewrite llen_cons. pose proof (IH EmptyString). lia.
Qed.

Lemma split_lines_nonempty s : 1 <= llen (split_lines s).
Proof. apply split_aux_nonempty. Qed.


(** *** [find_duplicates] *)

(** [round(x, 2)] depends on the value of [x] only, not on the fraction
    that represents it. *)
(** Without a duplicated line the percentage is 0. *)
Lemma percentage_zero (b : Z) : round2 (fmul (truediv 0 b) 100) = 0%Q.
Proof. reflexivity. Qed.

(** A file that occurs in a cluster is a file of the map. *)
Lemma occurs_in_files self (files_content : dict string) f :
  occurs_in (clusters_of (blocks_by_hash self files_content)) f ->
  In f (keys files_content).
Proof.
  intros (d & b & Hd & Hb & <-).
  destruct (clusters_of_spec _ _ Hd) as (_ & _ & h & Hgroup).
  destruct (blocks_by_hash_spec self files_content) as [_ Hall].
  pose proof (Hall _ _ Hgroup) as Hbs. rewrite Forall_forall in Hbs.
  exact (Hbs b Hb).
Qed.

(** A cluster has a block, so some file occurs in it. *)
Lemma clusters_occur (by_hash : dict (list block)) :
  clusters_of by_hash <> [] -> exists f, occurs_in (clusters_of by_hash) f.
Proof.
  intros Hne.
  destruct (clusters_of by_hash) as [|[h d] rest] eqn:Hc; [congruence|].
  assert (Hd : In d (values (clusters_of by_hash))).
  { rewrite Hc. now left. }
  destruct (clusters_of_spec _ _ Hd) as (Hocc & Htwo & _).
  destruct (blocks d) as [|b bs] eqn:Hb.
  - unfold llen in Hocc. simpl in Hocc. lia.
  - exists (b_file_path b), d, b. rewrite <- Hc, Hb.
    split; [exact Hd|]. split; [now left|reflexivity].
Qed.

(** What [find_duplicates] returns; it does not raise. *)
Lemma find_duplicates_spec self (files_content : dict string) :
  let dups := clusters_of (blocks_by_hash self files_content) in
  exists r,
    find_duplicates self files_content = Returns r
    /\ duplicates_details r = dups
    /\ lineas_duplicadas r = sumZ (map cluster_lines (values dups))
    /\ porcentaje_global r
       = round2 (fmul (truediv (lineas_duplicadas r)
                               (Z.max (total_lines files_content) 1)) 100)
    /\ mayor_duplicacion r
       = match max_item (file_duplication_stats dups) with
         | Some (path, n) =>
             Some (Mayor path
                     (round2
                        (fmul (truediv n
                                 (Z.max (line_count files_content path) 1))
                              100)))
         | None => None
         end.
Proof.
  intros dups.
  destruct (blocks_by_hash_spec self files_content) as [Hnd _].
  destruct (find_clusters_spec _ Hnd) as [Hd Ht].
  fold dups in Hd, Ht.
  unfold find_duplicates, most_duplicated. rewrite Hd, Ht.
  destruct (max_item (file_duplication_stats dups)) as [[path n]|] eqn:Hmax.
  - destruct (max_item_spec _ _ Hmax) as [Hin _].
    assert (Hocc : occurs_in dups path).
    { apply (file_duplication_stats_keys dups).
      change path with (fst (path, n)). apply in_map, Hin. }
    destruct (get_in_keys _ _ (occurs_in_files _ _ _ Hocc)) as [content Hget].
    unfold getitem, line_count. rewrite Hget. cbn [bind].
    eexists. split; [reflexivity|].
    cbn [duplicates_details lineas_duplicadas porcentaje_global
         mayor_duplicacion].
    repeat split.
  - cbn [bind]. eexists. split; [reflexivity|].
    cbn [duplicates_details lineas_duplicadas porcentaje_global
         mayor_duplicacion].
    repeat split.
Qed.

End DuplicationFacts.

(** ** The factory *)

Module FactoryFacts.

Import Py LanguageAnalyzer AnalyzerFactory BaseSpec FactorySpec DictFacts
       LanguageAnalyzerFacts ScoreFacts.
Local Open Scope string_scope.
Local Open Scope list_scope.
Local Open Scope Z_scope.

Lemma set_nonempty {V} k (v : V) (d : dict V) : set k v d <> [].
Proof.
  destruct d as [|[k' v'] d]; simpl; [discriminate|].
  destruct (String.eqb k k'); discriminate.
Qed.

(** No language is grouped without a file. *)
Lemma group_by_language_nonempty reg (files : dict string) :
  forall language_files : dict (dict string),
    (forall l d, In (l, d) language_files -> d <> []) ->
    forall l d,
      In (l, d) (fold_left (group_by_language reg) files language_files) ->
      d <> [].
Proof.
  induction files as [|[p c] files IH]; intros lf Hlf; cbn [fold_left];
    [exact Hlf|].
  apply IH. unfold group_by_language.
  destruct (get_analyzer_for_file reg p) as [analyzer|]; [|exact Hlf].
  intros l d Hin. apply in_set in Hin.
  destruct Hin as [Hold|[_ ->]]; [exact (Hlf _ _ Hold)|apply set_nonempty].
Qed.

Section Project.

Variable aux : Type.
Variables deps pats perf comm : dict string -> aux.

(** The second loop returns, and every language it records has a
    file. *)
Lemma analyze_languages_spec reg (language_files : dict (dict string)) :
  (forall l d, In (l, d) language_files -> d <> []) ->
  forall results : dict (language_result aux),
    Forall (fun lang => 1 <= file_count lang) (values results) ->
    exists results' : dict (language_result aux),
      fold_left (analyze_language deps pats perf comm reg) language_files
                (Returns results)
      = Returns results'
      /\ Forall (fun lang => 1 <= file_count lang) (values results').
Proof.
  induction language_files as [|[language lang_files] lfs IH];
    intros Hne results Hres; cbn [fold_left].
  - exists results. auto.
  - assert (Hrest : forall l d, In (l, d) lfs -> d <> []).
    { intros l d Hin. apply (Hne l d). now right. }
    unfold analyze_language at 2. cbn [bind].
    destruct (get_analyzer reg (lower language)) as [analyzer|];
      [|exact (IH Hrest results Hres)].
    destruct (analyze_files_spec analyzer init lang_files init_keys)
      as (self & -> & _).
    cbn [bind]. apply (IH Hrest).
    unfold values in *. rewrite Forall_forall in *.
    intros lang Hin. apply in_map_iff in Hin.
    destruct Hin as ([l lang'] & <- & Hin). cbn [snd].
    apply in_set in Hin. destruct Hin as [Hold|[_ ->]].
    + apply Hres. change lang' with (snd (l, lang')). now apply in_map.
    + cbn [file_count].
      assert (lang_files <> []) by (apply (Hne language); now left).
      destruct lang_files; [congruence|].
      rewrite llen_cons. pose proof (llen_nonneg lang_files). lia.
Qed.

Lemma file_counts_sum (langs : list (language_result aux)) :
  Forall (fun lang => 1 <= file_count lang) langs ->
  llen langs <= sumZ (map file_count langs).
Proof.
  induction 1 as [|lang langs Hlang _ IH]; cbn [map].
  - unfold sumZ, llen. simpl. lia.
  - rewrite sumZ_cons, llen_cons. lia.
Qed.

(** The loop of [_calculate_aggregate_metrics] adds up the weighted
    scores. *)
Lemma weighted_loop (total : Z) (langs : list (language_result aux)) : forall acc : Q,
  (fold_left
     (fun acc lang =>
        acc + s_empathy_score (r_summary lang)
              * (inject_Z (file_count lang) / inject_Z total))
     langs acc
   == acc
      + sumQ (map (fun lang =>
                     s_empathy_score (r_summary lang)
                     * inject_Z (file_count lang) / inject_Z total)
                  langs))%Q.
Proof.
  induction langs as [|lang langs IH]; intros acc; cbn [fold_left map].
  - unfold sumQ. simpl. ring.
  - rewrite IH, sumQ_cons. unfold Qdiv. ring.
Qed.

(** What [_calculate_aggregate_metrics] returns when every language has
    a file. *)
Lemma calculate_aggregate_metrics_spec (langs : dict (language_result aux)) :
  Forall (fun lang => 1 <= file_count lang) (values langs) ->
  exists total,
    calculate_aggregate_metrics langs = Returns total
    /\ match total with
       | None => langs = []
       | Some tm =>
           langs <> []
           /\ 1 <= project_file_count langs
           /\ tm_total_files tm = project_file_count langs
           /\ (overall_empathy_score tm == weighted_empathy langs)%Q
       end.
Proof.
  intros Hall. unfold calculate_aggregate_metrics.
  destruct langs as [|item langs]; [exists None; auto|].
  pose proof (file_counts_sum _ Hall) as Hsum.
  fold (project_file_count (item :: langs)) in *.
  assert (Hlen : llen (values (item :: langs)) = 1 + llen langs).
  { unfold values. now rewrite length_map_llen, llen_cons. }
  rewrite Hlen in Hsum. pose proof (llen_nonneg langs).
  assert (Hpos : 1 <= project_file_count (item :: langs)).
  { lia. }
  destruct (Z.eqb_spec (project_file_count (item :: langs)) 0); [lia|].
  eexists. split; [reflexivity|]. cbn [tm_total_files overall_empathy_score].
  split; [discriminate|]. split; [exact Hpos|]. split; [reflexivity|].
  rewrite weighted_loop. unfold weighted_empathy. ring.
Qed.

Lemma analyze_multi_language_project_spec reg (files : dict string) :
  exists r,
    analyze_multi_language_project deps pats perf comm reg files
    = Returns r
    /\ match total_metrics r with
       | None => languages r = []
       | Some tm =>
           languages r <> []
           /\ 1 <= project_file_count (languages r)
           /\ tm_total_files tm = project_file_count (languages r)
           /\ (overall_empathy_score tm
               == weighted_empathy (languages r))%Q
       end.
Proof.
  unfold analyze_multi_language_project.
  destruct (analyze_languages_spec reg
              (fold_left (group_by_language reg) files []))
    with (results := ([] : dict (language_result aux)))
    as (langs & Hfold & Hall).
  - apply group_by_language_nonempty. intros l d [].
  - constructor.
  - match goal with
    | |- context [bind ?o _] =>
        replace o with (Returns langs) by (symmetry; exact Hfold)
    end.
    cbn [bind].
    destruct (calculate_aggregate_metrics_spec langs Hall)
      as (total & -> & Htotal).
    cbn [bind]. eexists. split; [reflexivity|]. exact Htotal.
Qed.

End Project.

End FactoryFacts.

(* ================================================================== *)
(** * The properties of the specification *)
(* ================================================================== *)

Module Claims.

Import Py DictFacts.
Local Open Scope string_scope.
Local Open Scope list_scope.
Local Open Scope Z_scope.

(** ** The base analyzer *)

Section Base.

Import LanguageAnalyzer BaseSpec Samples LanguageAnalyzerFacts ScoreFacts.

(** C1, as stated, fails: the score of a file with ten functions is 1.5.
    [funciones_por_archivo] is a count, and the score is not clamped. *)
Lemma empathy_score_above_one :
  exists self,
    analyze_files MyLanguageAnalyzer init [("main.mylang", "")]
    = Returns (metrics self, self)
    /\ (calculate_empathy_score self == 15 # 10)%Q
    /\ (1 < calculate_empathy_score self)%Q.
Proof.
  eexists. split; [reflexivity|]. split; reflexivity.
Qed.

(** C1 (amended): for every analyzer class and every file map, when every
    value that [aggregate_metrics] reads from what [analyze_file] returns
    for the files of the map lies in [0, 1], [analyze_files] on a fresh
    instance returns and the empathy score computed afterwards lies between
    0 and 1. *)
Theorem empathy_score_bounds (cls : class) (files : dict string) :
  unit_results cls files ->
  exists self,
    analyze_files cls init files = Returns (metrics self, self)
    /\ (0 <= calculate_empathy_score self <= 1)%Q.
Proof.
  intros Hres.
  destruct (analyze_files_spec cls init files init_keys) as (self & Hrun & _).
  exists self. split; [exact Hrun|].
  apply score_unit.
  eapply analyze_files_unit; [exact Hres| |exact Hrun].
  unfold unit_metrics, init. cbn [metrics].
  repeat (apply Forall_cons; [apply Forall_nil|]). apply Forall_nil.
Qed.

(** The bound at two files whose leaves are ratios. *)
Lemma empathy_score_bounds_witness :
  exists self,
    analyze_files RatioAnalyzer init [("a.mylang", "x"); ("b.mylang", "y")]
    = Returns (metrics self, self)
    /\ (0 <= calculate_empathy_score self <= 1)%Q.
Proof.
  apply (empathy_score_bounds RatioAnalyzer
           [("a.mylang", "x"); ("b.mylang", "y")]).
  intros file_path content m _ _ Hm. simpl in Hm. injection Hm as <-.
  intros category leaf target Hst _. unfold stanzas in Hst. simpl in Hst.
  repeat (destruct Hst as [[= <- <- <-]|Hst];
          [vm_compute; split; discriminate|]).
  destruct Hst.
Defined.

(** C6: for every analyzer class, on an instance that has served any
    sequence of earlier calls, [analyze_files] returns a mapping whose keys
    are exactly the eight categories. *)
Theorem analyze_files_category_closure (cls : class)
  (calls : list (dict string)) (files : dict string) :
  exists self ms self',
    after_calls cls init calls = Returns self
    /\ analyze_files cls self files = Returns (ms, self')
    /\ keys ms = categories.
Proof.
  destruct (after_calls_keys cls calls init init_keys) as (self & Hcalls & Hk).
  destruct (analyze_files_spec cls self files Hk) as (self' & Hrun & Hk' & _).
  exists self, (metrics self'), self'. auto.
Qed.

(** C9: on a fresh instance, [analyze_files] of the empty map returns the
    eight categories, each empty, and the empathy score is then 0.0. *)
Theorem analyze_files_empty_input (cls : class) :
  exists ms self,
    analyze_files cls init [] = Returns (ms, self)
    /\ ms = map (fun category => (category, [])) categories
    /\ calculate_empathy_score self = 0%Q.
Proof.
  exists (metrics init), init. repeat split.
Qed.

(** C10: two calls of [analyze_files] on one fresh instance leave in
    [get_summary] the files analyzed in the first map plus those analyzed
    in the second, and the newlines of those files: the counters are never
    reset. *)
Theorem counters_accumulate (cls : class) (F1 F2 : dict string) :
  exists m1 s1 m2 s2,
    analyze_files cls init F1 = Returns (m1, s1)
    /\ analyze_files cls s1 F2 = Returns (m2, s2)
    /\ s_total_files (get_summary cls s2)
       = llen (analyzed cls F1) + llen (analyzed cls F2)
    /\ s_total_lines (get_summary cls s2)
       = analyzed_lines cls F1 + analyzed_lines cls F2.
Proof.
  destruct (analyze_files_spec cls init F1 init_keys)
    as (s1 & Hrun1 & Hk1 & Hf1 & Hl1).
  destruct (analyze_files_spec cls s1 F2 Hk1)
    as (s2 & Hrun2 & _ & Hf2 & Hl2).
  exists (metrics s1), s1, (metrics s2), s2.
  repeat split; [exact Hrun1|exact Hrun2| |]; cbn [get_summary s_total_files s_total_lines].
  - rewrite Hf2, Hf1. reflexivity.
  - rewrite Hl2, Hl1. reflexivity.
Qed.

End Base.

(** ** The duplication detector *)

Section Duplication.

Import DuplicationAnalyzer DuplicationSpec Samples DuplicationFacts.


(** C3, as stated, fails: [a.py] has three duplicated blocks in ten lines,
    [b.py] two in six; the file reported is [a.py], whose ratio is the
    smaller one. *)
Lemma most_duplicated_is_not_highest_ratio :
  let files_content := [("a.py", a_py); ("b.py", b_py)] in
  exists r m,
    find_duplicates default files_content = Returns r
    /\ mayor_duplicacion r = Some m
    /\ archivo m = "a.py"
    /\ In "b.py" (archivos_afectados r)
    /\ (duplication_ratio r files_content "a.py" == 15 # 10)%Q
    /\ (duplication_ratio r files_content "b.py" == 10 # 6)%Q
    /\ (duplication_ratio r files_content "a.py"
        < duplication_ratio r files_content "b.py")%Q.
Proof.
  eexists. eexists.
  split; [vm_compute; reflexivity|].
  split; [reflexivity|].
  split; [reflexivity|].
  split; [right; left; reflexivity|].
  repeat split; vm_compute; reflexivity.
Qed.

(** C3 (amended): without a cluster [mayor_duplicacion] is [None];
    otherwise its [archivo] is a file of a cluster that maximizes the sum
    of the sizes of its duplicated blocks (the sum itself, not the sum
    over the line count), and its [porcentaje] is that sum divided by the
    line count of the file, times 100, rounded to two decimals, each of the
    three operations as Python does it on doubles. *)
Theorem most_duplicated_file (self : DuplicationAnalyzer.t)
  (files_content : dict string) :
  exists r,
    find_duplicates self files_content = Returns r
    /\ match duplicates_details r with
       | [] => mayor_duplicacion r = None
       | _ :: _ =>
           exists m,
             mayor_duplicacion r = Some m
             /\ occurs_in (duplicates_details r) (archivo m)
             /\ (forall f,
                   occurs_in (duplicates_details r) f ->
                   duplicated_size (duplicates_details r) f
                   <= duplicated_size (duplicates_details r) (archivo m))
             /\ 1 <= line_count files_content (archivo m)
             /\ porcentaje m
                = round2
                    (fmul (truediv (duplicated_size (duplicates_details r)
                                                    (archivo m))
                                   (line_count files_content (archivo m)))
                          100)
       end.
Proof.
  destruct (find_duplicates_spec self files_content)
    as (r & Hrun & Hd & _ & _ & Hm).
  exists r. split; [exact Hrun|]. rewrite Hd, Hm.
  set (dups := clusters_of (blocks_by_hash self files_content)) in *.
  destruct (file_duplication_stats_keys dups) as [Hnd Hkeys].
  destruct dups as [|c dups'] eqn:Hdups; [reflexivity|].
  rewrite <- Hdups in *.
  destruct (max_item (file_duplication_stats dups)) as [[path n]|] eqn:Hmax.
  - destruct (max_item_spec _ _ Hmax) as [Hin Hle].
    assert (Hocc : occurs_in dups path).
    { apply Hkeys. change path with (fst (path, n)). apply in_map, Hin. }
    assert (Hn : n = duplicated_size dups path).
    { rewrite <- file_duplication_stats_get. unfold get_default.
      now rewrite (get_in_nodup _ _ _ Hnd Hin). }
    assert (Hlines : 1 <= line_count files_content path).
    { unfold dups in Hocc.
      destruct (get_in_keys _ _ (occurs_in_files _ _ _ Hocc))
        as [content Hget].
      unfold line_count. rewrite Hget. apply split_lines_nonempty. }
    exists (Mayor path
              (round2
                 (fmul (truediv n (Z.max (line_count files_content path) 1))
                       100))).
    cbn [archivo porcentaje].
    split; [reflexivity|]. split; [exact Hocc|]. split; [|split].
    + intros f Hf. apply Hkeys in Hf.
      destruct (get_in_keys _ _ Hf) as [k Hget].
      rewrite <- (file_duplication_stats_get dups f), <- Hn.
      unfold get_default. rewrite Hget.
      exact (Hle _ (get_some_in _ _ _ Hget)).
    + exact Hlines.
    + rewrite <- Hn.
      now replace (Z.max (line_count files_content path) 1)
        with (line_count files_content path) by lia.
  - exfalso.
    destruct (clusters_occur (blocks_by_hash self files_content)) as [f Hf].
    { fold dups. rewrite Hdups. discriminate. }
    fold dups in Hf. apply Hkeys in Hf.
    destruct (file_duplication_stats dups); [destruct Hf|discriminate].
Qed.

(** C7: [analyze_repository_files] is the [try]/[except] around
    [find_duplicates]; around any [find_duplicates] it returns the report
    of that call when the call returns and, when the call raises an
    exception, the zeroed report that carries the message of the exception:
    either way it returns. On a map of strings [find_duplicates] returns,
    and the report is its report. *)
Theorem analyze_repository_files_never_raises (self : DuplicationAnalyzer.t)
  (find : dict string -> outcome report) (files_content : dict string) :
  analyze_repository_files self files_content
  = try_find_duplicates (find_duplicates self) files_content
  /\ (exists r, find_duplicates self files_content = Returns r
                /\ analyze_repository_files self files_content = r)
  /\
  match find files_content with
  | Returns r => try_find_duplicates find files_content = r
  | Raises e =>
      let r := try_find_duplicates find files_content in
      porcentaje_global r = 0%Q
      /\ bloques_encontrados r = 0
      /\ total_ocurrencias r = 0
      /\ lineas_duplicadas r = 0
      /\ archivos_afectados r = []
      /\ mayor_duplicacion r = None
      /\ error r = Some (exc_str e)
  end.
Proof.
  split; [reflexivity|]. split.
  - destruct (find_duplicates_spec self files_content) as (r & Hrun & _).
    exists r. split; [exact Hrun|].
    unfold analyze_repository_files, try_find_duplicates. now rewrite Hrun.
  - unfold try_find_duplicates.
    destruct (find files_content) as [r|e]; [reflexivity|].
    cbv zeta. repeat split.
Qed.

End Duplication.

(** ** The TypeScript analyzer *)

Section TypeScript.

Import LanguageAnalyzer TypeScriptAnalyzer Samples.

Lemma min1_le_1 (x : Q) : (min1 x <= 1)%Q.
Proof.
  unfold min1. destruct (Qcompare_spec x 1) as [H|H|H]; try apply Qle_refl.
  now apply Qlt_le_weak.
Qed.

(** C5, as stated, fails: with half of the declarations annotated the
    coverage is 0.5, below the threshold, and the documentation score stays
    at 0.5, but the security score goes from 0.5 to 0.6. *)
Lemma security_bonus_below_threshold :
  let analyze :=
    analyze_file app_ts_finditer (fun _ _ => Returns app_ts_base)
                 (fun _ => []) in
  exists m,
    analyze "app.ts" app_ts = Returns m
    /\ (calculate_type_coverage app_ts_finditer (fun _ => []) app_ts
        == 1 # 2)%Q
    /\ (current "documentacion" "cobertura" m == 1 # 2)%Q
    /\ (current "seguridad" "validacion" app_ts_base == 1 # 2)%Q
    /\ (current "seguridad" "validacion" m == 6 # 10)%Q.
Proof.
  eexists. split; [vm_compute; reflexivity|].
  repeat split; vm_compute; reflexivity.
Qed.

(** C5 (amended): when the base JavaScript analysis returns metrics with
    the categories [documentacion] and [seguridad], [analyze_file]
    returns; [documentacion.cobertura] becomes [min(1.0, base + 0.2)]
    exactly when the type coverage is above 0.7 and the category is left
    as the base analysis produced it otherwise; [seguridad.validacion]
    becomes [min(1.0, base + 0.2 * coverage)] whatever the coverage; both
    new values are at most 1. *)
Theorem typescript_bonus
  (finditer : string -> string -> list re_match)
  (super_analyze_file : string -> string -> outcome metrics_t)
  (super_extract_functions : string -> list function_info)
  (file_path content : string) (base : metrics_t) (doc sec : leaves) :
  super_analyze_file file_path content = Returns base ->
  get "documentacion" base = Some doc ->
  get "seguridad" base = Some sec ->
  let coverage :=
    calculate_type_coverage finditer super_extract_functions content in
  let new_doc := min1 (current "documentacion" "cobertura" base + (2 # 10)) in
  let new_sec :=
    min1 (current "seguridad" "validacion" base + coverage * (2 # 10)) in
  exists m,
    analyze_file finditer super_analyze_file super_extract_functions
                 file_path content = Returns m
    /\ get "documentacion" m
       = Some (match coverage ?= 7 # 10 with
               | Gt => set "cobertura" new_doc doc
               | _ => doc
               end)%Q
    /\ get "seguridad" m = Some (set "validacion" new_sec sec)
    /\ (new_doc <= 1)%Q /\ (new_sec <= 1)%Q.
Proof.
  intros Hsuper Hdoc Hsec coverage new_doc new_sec.
  unfold analyze_file. rewrite Hsuper. cbn [bind].
  fold coverage.
  set (ts := [ ("type_coverage", coverage);
               ("interfaces", inject_Z (count_interfaces finditer content));
               ("type_aliases",
                inject_Z (count_type_aliases finditer content));
               ("enums", inject_Z (count_enums finditer content)) ]).
  set (m0 := set "typescript" ts base).
  assert (Hdoc0 : @get leaves "documentacion" m0 = Some doc).
  { unfold m0. rewrite get_set_other by discriminate. exact Hdoc. }
  assert (Hsec0 : @get leaves "seguridad" m0 = Some sec).
  { unfold m0. rewrite get_set_other by discriminate. exact Hsec. }
  assert (Hcur_doc : current "documentacion" "cobertura" m0
                     = current "documentacion" "cobertura" base).
  { unfold current, get_category, get_default. now rewrite Hdoc0, Hdoc. }
  assert (Hcur_sec : current "seguridad" "validacion" m0
                     = current "seguridad" "validacion" base).
  { unfold current, get_category, get_default. now rewrite Hsec0, Hsec. }
  destruct (coverage ?= 7 # 10)%Q eqn:Hcmp.
  - cbn [bind]. unfold setitem2. rewrite Hsec0, Hcur_sec. fold new_sec.
    eexists. split; [reflexivity|].
    rewrite get_set_other by discriminate. rewrite get_set_same.
    split; [exact Hdoc0|]. split; [reflexivity|].
    split; apply min1_le_1.
  - cbn [bind]. unfold setitem2. rewrite Hsec0, Hcur_sec. fold new_sec.
    eexists. split; [reflexivity|].
    rewrite get_set_other by discriminate. rewrite get_set_same.
    split; [exact Hdoc0|]. split; [reflexivity|].
    split; apply min1_le_1.
  - unfold setitem2 at 1. rewrite Hdoc0, Hcur_doc. fold new_doc. cbn [bind].
    set (m1 := set "documentacion" (set "cobertura" new_doc doc) m0).
    assert (Hsec1 : @get leaves "seguridad" m1 = Some sec).
    { unfold m1. rewrite get_set_other by discriminate. exact Hsec0. }
    assert (Hcur1 : current "seguridad" "validacion" m1
                    = current "seguridad" "validacion" base).
    { unfold current, get_category, get_default. now rewrite Hsec1, Hsec. }
    unfold setitem2. rewrite Hsec1, Hcur1. fold new_sec.
    eexists. split; [reflexivity|].
    rewrite get_set_other by discriminate. unfold m1.
    rewrite !get_set_same.
    split; [reflexivity|]. split; [reflexivity|].
    split; apply min1_le_1.
Qed.

(** The bonus at a file with full coverage: 0.5 becomes 0.7 in both
    categories. *)
Lemma typescript_bonus_witness :
  exists m,
    analyze_file typed_ts_finditer (fun _ _ => Returns app_ts_base)
                 (fun _ => []) "typed.ts" typed_ts = Returns m
    /\ get "documentacion" m = Some [("cobertura", min1 ((1 # 2) + (2 # 10)))]%Q
    /\ get "seguridad" m
       = Some [("validacion", min1 ((1 # 2) + (1 # 1) * (2 # 10)))]%Q.
Proof.
  destruct (typescript_bonus typed_ts_finditer
              (fun _ _ => Returns app_ts_base) (fun _ => [])
              "typed.ts" typed_ts app_ts_base
              [("cobertura", 1 # 2)]%Q [("validacion", 1 # 2)]%Q
              eq_refl eq_refl eq_refl)
    as (m & Hrun & Hdoc & Hsec & _).
  exists m. split; [exact Hrun|]. split; [exact Hdoc|exact Hsec].
Defined.

End TypeScript.

(** ** The factory *)

Section Factory.

Import LanguageAnalyzer AnalyzerFactory FactorySpec FactoryFacts.

(** Registering a class leaves the lookup by file as it was for every
    path whose extension maps to another language. *)
Lemma register_analyzer_other_languages {Cls} (reg : registry Cls)
  (language : string) (analyzer_class : Cls) (file_path : string) :
  (forall l, get (lower (snd (splitext file_path))) (extension_map reg)
             = Some l -> lower l <> lower language) ->
  get_analyzer_for_file (register_analyzer reg language analyzer_class)
                        file_path
  = get_analyzer_for_file reg file_path.
Proof.
  intros Hother. unfold get_analyzer_for_file, register_analyzer.
  cbn [extension_map]. destruct (splitext file_path) as [root ext].
  cbn [snd] in Hother.
  destruct (get (lower ext) (extension_map reg)) as [l|]; [|reflexivity].
  destruct (truthy l); [|reflexivity].
  unfold get_analyzer. cbn [analyzers].
  apply get_set_other. now apply Hother.
Qed.

(** C2 (the code at the failing input): after [register_analyzer] on the
    registry of the class body, the class is found under its language
    name, the extension map is what it was, and no analyzer is found for
    [foo.xyz]. *)
Theorem registered_extension_not_dispatched (Cls : Type)
  (PythonAnalyzer JavaScriptAnalyzer TypeScriptAnalyzer JavaAnalyzer
   GoAnalyzer CSharpAnalyzer CppAnalyzer PHPAnalyzer RubyAnalyzer
   SwiftAnalyzer HTMLAnalyzer CSSAnalyzer : Cls)
  (language : string) (XyzAnalyzer : Cls) :
  let builtin :=
    initial PythonAnalyzer JavaScriptAnalyzer TypeScriptAnalyzer JavaAnalyzer
            GoAnalyzer CSharpAnalyzer CppAnalyzer PHPAnalyzer RubyAnalyzer
            SwiftAnalyzer HTMLAnalyzer CSSAnalyzer in
  let reg := register_analyzer builtin language XyzAnalyzer in
  get_analyzer reg language = Some XyzAnalyzer
  /\ extension_map reg = extension_map builtin
  /\ get_analyzer_for_file reg "foo.xyz" = None.
Proof.
  cbv zeta. split; [|split; reflexivity].
  unfold get_analyzer, register_analyzer. cbn [analyzers].
  apply get_set_same.
Qed.

(** C8, as stated, fails: for the empty file map, whatever the registry
    and the detectors, [total_metrics] is the empty mapping and has no
    [overall_empathy_score]. *)
Lemma empty_project_has_no_overall_score :
  ~ exists (aux : Type) (deps pats perf comm : dict string -> aux)
           (reg : registry class) (r : project aux) (tm : total_metrics_t),
      analyze_multi_language_project deps pats perf comm reg [] = Returns r
      /\ total_metrics r = Some tm.
Proof.
  intros (aux & deps & pats & perf & comm & reg & r & tm & Hrun & Htm).
  cbn in Hrun. injection Hrun as <-. discriminate Htm.
Qed.

(** C8 (amended): [analyze_multi_language_project] returns; when no
    language is analyzed [total_metrics] is the empty mapping; otherwise
    the languages analyzed have one file or more in total, and
    [overall_empathy_score] is the sum over them of the empathy score of
    the language times its file count over the total file count. *)
Theorem overall_empathy_score_weighted (aux : Type)
  (deps pats perf comm : dict string -> aux)
  (reg : registry class) (files : dict string) :
  exists r,
    analyze_multi_language_project deps pats perf comm reg files = Returns r
    /\ match total_metrics r with
       | None => languages r = []
       | Some tm =>
           languages r <> []
           /\ 1 <= project_file_count (languages r)
           /\ (overall_empathy_score tm
               == sumQ (map (fun lang =>
                               s_empathy_score (r_summary lang)
                               * inject_Z (file_count lang)
                               / inject_Z (project_file_count (languages r)))
                            (values (languages r))))%Q
       end.
Proof.
  destruct (analyze_multi_language_project_spec aux deps pats perf comm
              reg files) as (r & Hrun & Hr).
  exists r. split; [exact Hrun|].
  destruct (total_metrics r) as [tm|]; [|exact Hr].
  destruct Hr as (Hne & Hpos & _ & Hscore). auto.
Qed.

End Factory.

End Claims.

(* ================================================================== *)
(** * Further properties of the code *)
(* ================================================================== *)

(** ** More about [dict] *)

Module KeyFacts.

Import Py DictFacts.
Local Open Scope list_scope.

Lemma get_some_keys {V} k (v : V) (d : dict V) :
  get k d = Some v -> In k (keys d).
Proof.
  intros H. apply get_some_in in H. apply in_map_iff.
  exists (k, v). split; [reflexivity|exact H].
Qed.

Lemma get_none_keys {V} k (d : dict V) : get k d = None -> ~ In k (keys d).
Proof.
  intros Hnone Hin. destruct (get_in_keys _ _ Hin) as [v Hv]. congruence.
Qed.

Lemma in_keys_set_iff {V} k (v : V) (d : dict V) k0 :
  In k0 (keys (set k v d)) <-> k0 = k \/ In k0 (keys d).
Proof. split; [apply in_keys_set|apply keys_set_in]. Qed.

End KeyFacts.

(** ** [normalize_line] *)

Module NormalizeFacts.

Import Py DuplicationAnalyzer DuplicationNotions.
Local Open Scope string_scope.

Lemma append_empty s : s ++ "" = s.
Proof. induction s as [|c s IH]; cbn; [reflexivity|now rewrite IH]. Qed.

Lemma append_assoc s1 s2 s3 : (s1 ++ s2) ++ s3 = s1 ++ (s2 ++ s3).
Proof. induction s1 as [|c s1 IH]; cbn; [reflexivity|now rewrite IH]. Qed.

Lemma plain_char_no_match c rest :
  plain_char c = true -> comment_match (String c rest) = None.
Proof.
  unfold plain_char, comment_match. cbn [startswith].
  rewrite (Ascii.eqb_sym "/" c), (Ascii.eqb_sym "#" c), (Ascii.eqb_sym "<" c).
  destruct (Ascii.eqb c "/"); [discriminate|].
  destruct (Ascii.eqb c "#"); [discriminate|].
  destruct (Ascii.eqb c "<"); [discriminate|].
  reflexivity.
Qed.

Lemma isspace_plain c : isspace c = true -> plain_char c = true.
Proof.
  destruct c as [[] [] [] [] [] [] [] []]; vm_compute; congruence.
Qed.

Lemma all_spaces_plain ws : all_spaces ws -> plain ws.
Proof.
  unfold all_spaces, plain. apply Forall_impl. exact isspace_plain.
Qed.

(** The substitution leaves a prefix without comment characters alone. *)
Lemma sub_comments_plain_prefix code rest :
  plain code ->
  sub_comments O (code ++ rest) = code ++ sub_comments O rest.
Proof.
  unfold plain.
  induction code as [|c code IH]; cbn [list_ascii_of_string String.append];
    intros Hplain; [reflexivity|].
  inversion Hplain as [|? ? Hc Hrest]; subst.
  cbn [sub_comments]. rewrite (plain_char_no_match c _ Hc).
  now rewrite IH.
Qed.

Lemma sub_comments_plain code : plain code -> sub_comments O code = code.
Proof.
  intros Hplain.
  pose proof (sub_comments_plain_prefix code "" Hplain) as H.
  rewrite append_empty in H. cbn [sub_comments] in H.
  now rewrite append_empty in H.
Qed.

(** A match that reaches the end of the string leaves nothing. *)
Lemma sub_comments_skip_all s : forall n,
  (String.length s <= n)%nat -> sub_comments n s = "".
Proof.
  induction s as [|c s IH]; intros n Hn; cbn [sub_comments]; [reflexivity|].
  cbn [String.length] in Hn. destruct n as [|n]; [lia|].
  apply IH. lia.
Qed.

Lemma dot_star_one_line s : one_line s -> dot_star s = String.length s.
Proof.
  unfold one_line.
  induction s as [|c s IH]; cbn [list_ascii_of_string dot_star String.length];
    intros Hline; [reflexivity|].
  inversion Hline as [|? ? Hc Hrest]; subst.
  rewrite Hc. now rewrite IH.
Qed.

Lemma sub_comments_hash rest : one_line rest -> sub_comments O ("#" ++ rest) = "".
Proof.
  intros Hline. cbn. rewrite (dot_star_one_line _ Hline).
  apply sub_comments_skip_all. lia.
Qed.

Lemma sub_comments_slashes rest :
  one_line rest -> sub_comments O ("//" ++ rest) = "".
Proof.
  intros Hline. cbn. rewrite (dot_star_one_line _ Hline).
  apply sub_comments_skip_all. lia.
Qed.

Lemma lstrip_spaces ws s : all_spaces ws -> lstrip (ws ++ s) = lstrip s.
Proof.
  unfold all_spaces.
  induction ws as [|c ws IH]; cbn [list_ascii_of_string String.append lstrip];
    intros Hws; [reflexivity|].
  inversion Hws as [|? ? Hc Hrest]; subst.
  rewrite Hc. now apply IH.
Qed.

(** *** Blank strings *)

Lemma lstrip_all_spaces s : all_spaces s -> lstrip s = "".
Proof.
  induction s as [|c s IH]; intros H; cbn [lstrip]; [reflexivity|].
  inversion H as [|? ? Hc Hs]; subst. rewrite Hc. now apply IH.
Qed.

Lemma strip_all_spaces s : all_spaces s -> strip s = "".
Proof. intros H. unfold strip. now rewrite lstrip_all_spaces. Qed.

Lemma rstrip_empty s : rstrip s = "" -> all_spaces s.
Proof.
  induction s as [|c s IH]; intros H; [constructor|].
  cbn [rstrip] in H. destruct (rstrip s) eqn:Hr; [|discriminate].
  destruct (isspace c) eqn:Hc; [|discriminate].
  constructor; [exact Hc|now apply IH].
Qed.

Lemma lstrip_all_spaces_inv s : all_spaces (lstrip s) -> all_spaces s.
Proof.
  induction s as [|c s IH]; intros H; [constructor|].
  cbn [lstrip] in H. destruct (isspace c) eqn:Hc; [|exact H].
  constructor; [exact Hc|now apply IH].
Qed.

Lemma strip_empty s : strip s = "" -> all_spaces s.
Proof.
  intros H. apply lstrip_all_spaces_inv, rstrip_empty. exact H.
Qed.

Lemma all_spaces_snoc cur c :
  all_spaces cur -> isspace c = true -> all_spaces (cur ++ String c "").
Proof.
  induction cur as [|a cur IH]; intros H Hc; cbn.
  - repeat constructor. exact Hc.
  - inversion H; subst. constructor; [assumption|now apply IH].
Qed.

Lemma split_aux_all_spaces sep s : forall cur,
  all_spaces cur -> all_spaces s ->
  Forall all_spaces (split_aux sep cur s).
Proof.
  induction s as [|c s IH]; intros cur Hcur Hs; cbn [split_aux].
  - repeat constructor. exact Hcur.
  - inversion Hs as [|? ? Hc Hs']; subst.
    destruct (Ascii.eqb c sep).
    + constructor; [exact Hcur|]. apply IH; [constructor|exact Hs'].
    + apply IH; [now apply all_spaces_snoc|exact Hs'].
Qed.

(** A line of spaces is blank once normalized. *)
Lemma normalize_all_spaces self line :
  all_spaces line -> strip (normalize_line self line) = "".
Proof.
  intros H. unfold normalize_line.
  rewrite (sub_comments_plain _ (all_spaces_plain _ H)).
  destruct (ignore_whitespace self); [|now apply strip_all_spaces].
  now rewrite (strip_all_spaces _ H).
Qed.

(** A file with a line that is not blank once normalized is not blank. *)
Lemma not_blank_content self content line :
  In line (split_lines content) ->
  truthy (strip (normalize_line self line)) = true ->
  truthy (strip content) = true.
Proof.
  intros Hin Hsig. destruct (strip content) eqn:Hstrip; [|reflexivity].
  exfalso. apply strip_empty in Hstrip.
  assert (Hall : Forall all_spaces (split_lines content)).
  { apply split_aux_all_spaces; [constructor|exact Hstrip]. }
  rewrite Forall_forall in Hall.
  rewrite (normalize_all_spaces self line (Hall line Hin)) in Hsig.
  discriminate.
Qed.

End NormalizeFacts.

(** ** Blocks, groups and clusters *)

Module BlockFacts.

Import Py DuplicationAnalyzer DuplicationSpec DuplicationNotions DictFacts
       DuplicationFacts NormalizeFacts.
Local Open Scope string_scope.
Local Open Scope list_scope.
Local Open Scope Z_scope.

Lemma block_at_shape self lines file_path i :
  0 <= min_block_size self ->
  (i < Z.to_nat (llen lines - min_block_size self + 1))%nat ->
  Forall (well_shaped self file_path (llen lines))
         (block_at self lines file_path i).
Proof.
  intros Hmbs Hi. unfold block_at.
  set (window := firstn (Z.to_nat (min_block_size self)) (skipn i lines)).
  set (kept := window_lines self window).
  destruct (Z.leb_spec (min_block_size self) (llen (map fst kept)));
    [|constructor].
  assert (Hkept : llen (map fst kept) <= min_block_size self).
  { rewrite length_map_llen. unfold kept, window_lines, llen.
    pose proof (filter_length_le
                  (fun p : string * string => truthy (strip (fst p)))
                  (map (fun line => (normalize_line self line, line)) window)).
    rewrite length_map in H0.
    pose proof (firstn_le_length (Z.to_nat (min_block_size self))
                                 (skipn i lines)).
    fold window in H1. lia. }
  repeat constructor; cbn; lia.
Qed.

(** Every block spans [min_block_size] lines of its file and has that
    size. *)
Lemma extract_blocks_shape self content file_path :
  0 <= min_block_size self ->
  Forall (well_shaped self file_path (llen (split_lines content)))
         (extract_blocks self content file_path).
Proof.
  intros Hmbs. unfold extract_blocks. rewrite Forall_forall. intros b Hb.
  apply in_flat_map in Hb. destruct Hb as (i & Hi & Hb).
  apply in_seq in Hi.
  pose proof (block_at_shape self (split_lines content) file_path i Hmbs)
    as Hshape.
  rewrite Forall_forall in Hshape. apply Hshape; [lia|exact Hb].
Qed.

(** A file with fewer lines than [min_block_size] has no block. *)
Lemma extract_blocks_short self content file_path :
  llen (split_lines content) < min_block_size self ->
  extract_blocks self content file_path = [].
Proof.
  intros Hshort. unfold extract_blocks.
  replace (Z.to_nat (llen (split_lines content) - min_block_size self + 1))
    with O by lia.
  reflexivity.
Qed.

(** The first loop groups the blocks of all the files, one after the
    other. *)
Lemma blocks_by_hash_flat self (files_content : dict string) :
  blocks_by_hash self files_content
  = fold_left group_block (all_blocks self files_content) [].
Proof.
  unfold blocks_by_hash, all_blocks. generalize (@nil (string * list block)).
  induction files_content as [|[p c] files IH]; intros acc;
    cbn [fold_left flat_map]; [reflexivity|].
  rewrite fold_left_app, IH. unfold group_file. cbn [fst snd].
  now destruct (truthy (strip c)).
Qed.

Lemma with_hash_app h bs bs' :
  with_hash h (bs ++ bs') = with_hash h bs ++ with_hash h bs'.
Proof. apply filter_app. Qed.

Lemma group_block_grouped (by_hash : dict (list block)) bs b :
  grouped by_hash bs -> grouped (group_block by_hash b) (bs ++ [b]).
Proof.
  intros [Hnd Hget]. unfold group_block. split; [now apply NoDup_keys_set|].
  intros h. rewrite with_hash_app. unfold with_hash at 2. cbn [filter].
  destruct (String.eqb_spec (b_hash b) h) as [<-|Hne].
  - rewrite get_set_same. unfold get_default. rewrite Hget.
    destruct (with_hash (b_hash b) bs); reflexivity.
  - rewrite get_set_other by congruence. rewrite app_nil_r. apply Hget.
Qed.

Lemma group_blocks_grouped (more : list block) :
  forall (by_hash : dict (list block)) bs,
    grouped by_hash bs ->
    grouped (fold_left group_block more by_hash) (bs ++ more).
Proof.
  induction more as [|b more IH]; intros by_hash bs Hg; cbn [fold_left].
  - now rewrite app_nil_r.
  - replace (bs ++ b :: more) with ((bs ++ [b]) ++ more)
      by (rewrite <- app_assoc; reflexivity).
    apply IH. now apply group_block_grouped.
Qed.

(** The grouping of [find_duplicates] holds all the blocks by hash. *)
Lemma blocks_by_hash_grouped self (files_content : dict string) :
  grouped (blocks_by_hash self files_content)
          (all_blocks self files_content).
Proof.
  rewrite blocks_by_hash_flat.
  apply (group_blocks_grouped (all_blocks self files_content) [] []).
  split; [constructor|reflexivity].
Qed.

(** The groups of a grouping, read as entries. *)
Lemma grouped_in (by_hash : dict (list block)) bs h g :
  grouped by_hash bs ->
  (In (h, g) by_hash <-> g = with_hash h bs /\ g <> []).
Proof.
  intros [Hnd Hget]. split.
  - intros Hin. apply (get_in_nodup _ _ _ Hnd) in Hin.
    rewrite Hget in Hin.
    destruct (with_hash h bs) as [|b0 g0]; [discriminate|].
    injection Hin as <-. split; [reflexivity|discriminate].
  - intros [-> Hne]. apply get_some_in. rewrite Hget.
    destruct (with_hash h bs); [congruence|reflexivity].
Qed.

(** The entries of the clusters of a grouping. *)
Lemma clusters_of_in (by_hash : dict (list block)) h d :
  In (h, d) (clusters_of by_hash)
  <-> exists b0 b1 rest,
        In (h, b0 :: b1 :: rest) by_hash
        /\ d = Duplicate (llen (b0 :: b1 :: rest)) (b0 :: b1 :: rest)
                         (b_size b0) (preview (b_content b0)).
Proof.
  unfold clusters_of. rewrite in_flat_map. split.
  - intros ([h' g] & Hin & Hc). unfold cluster_of in Hc. cbn [fst snd] in Hc.
    destruct g as [|b0 [|b1 rest]]; [destruct Hc|destruct Hc|].
    destruct Hc as [[= <- <-]|[]]. exists b0, b1, rest. auto.
  - intros (b0 & b1 & rest & Hin & ->).
    exists (h, b0 :: b1 :: rest). split; [exact Hin|]. now left.
Qed.

(** *** What [extract_blocks] returns *)

Lemma filter_keeps_all {A} (f : A -> bool) (l : list A) :
  (List.length l <= List.length (filter f l))%nat -> forallb f l = true.
Proof.
  induction l as [|a l IH]; cbn [filter forallb List.length]; [reflexivity|].
  pose proof (filter_length_le f l) as Hle.
  destruct (f a); cbn [List.length andb]; intros H; [apply IH|]; lia.
Qed.

Lemma filter_all {A} (f : A -> bool) (l : list A) :
  forallb f l = true -> filter f l = l.
Proof.
  induction l as [|a l IH]; cbn [filter forallb]; [reflexivity|].
  intros H. apply andb_prop in H. destruct H as [-> H]. now rewrite IH.
Qed.

Lemma window_lines_all self (w : list string) :
  forallb (significant self) w = true ->
  window_lines self w = map (fun line => (normalize_line self line, line)) w.
Proof.
  intros H. unfold window_lines. apply filter_all.
  rewrite forallb_forall in *. intros p Hp. apply in_map_iff in Hp.
  destruct Hp as (line & <- & Hline). exact (H line Hline).
Qed.

Lemma window_lines_some self (w : list string) :
  forallb (significant self) w = false ->
  (List.length (window_lines self w) < List.length w)%nat.
Proof.
  intros H. unfold window_lines.
  pose proof (filter_length_le (fun p : string * string => truthy (strip (fst p)))
                (map (fun line => (normalize_line self line, line)) w)) as Hle.
  rewrite length_map in Hle.
  destruct (Nat.eq_dec
              (List.length
                 (filter (fun p : string * string => truthy (strip (fst p)))
                    (map (fun line => (normalize_line self line, line)) w)))
              (List.length w)) as [Heq|Hne]; [|lia].
  exfalso.
  assert (Hall : forallb (fun p : string * string => truthy (strip (fst p)))
                   (map (fun line => (normalize_line self line, line)) w)
                 = true).
  { apply filter_keeps_all. rewrite length_map. lia. }
  rewrite forallb_forall in Hall.
  assert (forallb (significant self) w = true); [|congruence].
  apply forallb_forall. intros line Hline.
  apply (Hall (normalize_line self line, line)).
  apply in_map_iff. exists line. auto.
Qed.

Lemma window_length self lines i :
  0 <= min_block_size self ->
  (i < Z.to_nat (llen lines - min_block_size self + 1))%nat ->
  List.length (window self lines i) = Z.to_nat (min_block_size self).
Proof.
  intros Hmbs Hi. unfold window. rewrite length_firstn, length_skipn.
  unfold llen in Hi. lia.
Qed.

(** The body of the loop over [i]: the block of the window, or nothing
    when a line of the window is blank once normalized. *)
Lemma block_at_spec self lines file_path i :
  0 <= min_block_size self ->
  (i < Z.to_nat (llen lines - min_block_size self + 1))%nat ->
  block_at self lines file_path i
  = if forallb (significant self) (window self lines i)
    then [block_of self lines file_path i] else [].
Proof.
  intros Hmbs Hi. pose proof (window_length self lines i Hmbs Hi) as Hlen.
  unfold block_at. fold (window self lines i).
  destruct (forallb (significant self) (window self lines i)) eqn:Hall.
  - rewrite (window_lines_all _ _ Hall), !map_map. cbn [fst snd].
    rewrite map_id.
    change (fun x : string => normalize_line self x)
      with (normalize_line self).
    assert (Hn : llen (map (normalize_line self) (window self lines i))
                 = min_block_size self).
    { unfold llen. rewrite length_map, Hlen. lia. }
    rewrite Hn, Z.leb_refl. reflexivity.
  - pose proof (window_lines_some _ _ Hall) as Hlt.
    destruct (Z.leb_spec (min_block_size self)
                (llen (map fst (window_lines self (window self lines i)))))
      as [Hge|_]; [|reflexivity].
    unfold llen in Hge. rewrite length_map in Hge. lia.
Qed.

Lemma flat_map_filter_map {A B} (f : A -> B) (g : A -> bool) (h : A -> list B)
  (l : list A) :
  (forall a, In a l -> h a = if g a then [f a] else []) ->
  flat_map h l = map f (filter g l).
Proof.
  induction l as [|a l IH]; intros H; cbn [flat_map filter map];
    [reflexivity|].
  rewrite (H a (or_introl eq_refl)), IH by (intros; apply H; now right).
  destruct (g a); reflexivity.
Qed.

(** [extract_blocks]: the blocks of the windows without a blank line, in
    order. *)
Lemma extract_blocks_spec self content file_path :
  0 <= min_block_size self ->
  let lines := split_lines content in
  extract_blocks self content file_path
  = map (block_of self lines file_path)
        (filter (fun i => forallb (significant self) (window self lines i))
                (seq 0 (Z.to_nat (llen lines - min_block_size self + 1)))).
Proof.
  intros Hmbs lines. unfold extract_blocks. fold lines.
  apply flat_map_filter_map. intros i Hi. apply in_seq in Hi.
  apply block_at_spec; [exact Hmbs|lia].
Qed.

(** *** The affected files *)

Lemma set_add_in x (s : list string) f :
  In f (set_add x s) <-> In f s \/ f = x.
Proof.
  unfold set_add. destruct (existsb (String.eqb x) s) eqn:Hex.
  - apply existsb_exists in Hex. destruct Hex as (y & Hy & Heq).
    apply String.eqb_eq in Heq. subst y. split; [auto|].
    intros [H| ->]; assumption.
  - rewrite in_app_iff. simpl. intuition congruence.
Qed.

Lemma set_add_nodup x (s : list string) : NoDup s -> NoDup (set_add x s).
Proof.
  intros Hnd. unfold set_add.
  destruct (existsb (String.eqb x) s) eqn:Hex; [exact Hnd|].
  apply NoDup_app; [exact Hnd|repeat constructor; simpl; tauto|].
  intros y Hy [Heq|[]]. subst y.
  assert (existsb (String.eqb x) s = true); [|congruence].
  apply existsb_exists. exists x. split; [exact Hy|apply String.eqb_refl].
Qed.

Lemma set_add_blocks (bs : list block) : forall (s : list string),
  NoDup s ->
  NoDup (fold_left (fun s b => set_add (b_file_path b) s) bs s)
  /\ forall f,
       In f (fold_left (fun s b => set_add (b_file_path b) s) bs s)
       <-> In f s \/ exists b, In b bs /\ b_file_path b = f.
Proof.
  induction bs as [|b bs IH]; intros s Hnd; cbn [fold_left].
  - split; [exact Hnd|]. intros f. split; [auto|].
    intros [H|(b & [] & _)]. exact H.
  - destruct (IH (set_add (b_file_path b) s) (set_add_nodup _ _ Hnd))
      as [Hnd' Hin].
    split; [exact Hnd'|]. intros f. rewrite Hin, set_add_in. split.
    + intros [[H| ->]|(b' & Hb' & Hf)]; [now left| |].
      * right. exists b. split; [now left|reflexivity].
      * right. exists b'. split; [now right|exact Hf].
    + intros [H|(b' & [<-|Hb'] & Hf)]; [now left; left| |].
      * left. right. now symmetry.
      * right. exists b'. auto.
Qed.

Lemma occurs_in_app (d1 d2 : dict duplicate) f :
  occurs_in (d1 ++ d2) f <-> occurs_in d1 f \/ occurs_in d2 f.
Proof.
  unfold occurs_in, values. split.
  - intros (d & b & Hd & Hb & Hf). rewrite map_app in Hd.
    apply in_app_or in Hd. destruct Hd; [left|right]; exists d, b; auto.
  - intros [(d & b & Hd & Hb & Hf)|(d & b & Hd & Hb & Hf)];
      exists d, b; rewrite map_app; (split; [|auto]); apply in_or_app; auto.
Qed.

Lemma occurs_in_cluster_of item f :
  occurs_in (cluster_of item) f
  <-> exists b0 b1 rest,
        snd item = b0 :: b1 :: rest
        /\ exists b, In b (snd item) /\ b_file_path b = f.
Proof.
  unfold occurs_in, cluster_of, values.
  destruct (snd item) as [|b0 [|b1 rest]] eqn:Hitem; cbn [map snd].
  - split; [intros (d & b & [] & _)|intros (? & ? & ? & [=] & _)].
  - split; [intros (d & b & [] & _)|intros (? & ? & ? & [=] & _)].
  - split.
    + intros (d & b & [<-|[]] & Hb & Hf). cbn [blocks] in Hb.
      exists b0, b1, rest. split; [reflexivity|]. exists b. auto.
    + intros (? & ? & ? & _ & b & Hb & Hf).
      eexists. exists b. split; [now left|]. cbn [blocks]. auto.
Qed.

(** The second loop collects the files that occur in a cluster, each
    once. *)
Lemma find_files_fold (items : dict (list block)) : forall acc,
  NoDup (files_with_duplicates acc) ->
  NoDup (files_with_duplicates (fold_left find_step items acc))
  /\ forall f,
       In f (files_with_duplicates (fold_left find_step items acc))
       <-> In f (files_with_duplicates acc)
           \/ occurs_in (clusters_of items) f.
Proof.
  induction items as [|[h bs] items IH]; intros acc Hnd;
    cbn [fold_left clusters_of flat_map].
  - split; [exact Hnd|]. intros f. split; [auto|].
    intros [H|(d & b & [] & _)]. exact H.
  - fold (clusters_of items).
    assert (Hstep :
              NoDup (files_with_duplicates (find_step acc (h, bs)))
              /\ forall f,
                   In f (files_with_duplicates (find_step acc (h, bs)))
                   <-> In f (files_with_duplicates acc)
                       \/ occurs_in (cluster_of (h, bs)) f).
    { unfold find_step.
      destruct bs as [|b0 [|b1 rest]].
      - split; [exact Hnd|]. intros f. rewrite occurs_in_cluster_of.
        cbn [snd]. split; [auto|]. intros [H|(? & ? & ? & [=] & _)]. exact H.
      - split; [exact Hnd|]. intros f. rewrite occurs_in_cluster_of.
        cbn [snd]. split; [auto|]. intros [H|(? & ? & ? & [=] & _)]. exact H.
      - cbn [files_with_duplicates].
        destruct (set_add_blocks (b0 :: b1 :: rest)
                                 (files_with_duplicates acc) Hnd)
          as [Hnd' Hin].
        split; [exact Hnd'|]. intros f. rewrite Hin, occurs_in_cluster_of.
        cbn [snd]. split.
        + intros [H|H]; [now left|]. right. exists b0, b1, rest. auto.
        + intros [H|(? & ? & ? & _ & H)]; auto. }
    destruct Hstep as [Hnd1 Hin1].
    destruct (IH (find_step acc (h, bs)) Hnd1) as [Hnd2 Hin2].
    split; [exact Hnd2|]. intros f.
    rewrite Hin2, Hin1, occurs_in_app. tauto.
Qed.

(** The fields of the report that are counts of the clusters. *)
Lemma find_duplicates_fields self (files_content : dict string) r :
  find_duplicates self files_content = Returns r ->
  bloques_encontrados r = llen (duplicates_details r)
  /\ total_ocurrencias r
     = sumZ (map occurrences (values (duplicates_details r)))
  /\ archivos_afectados r
     = files_with_duplicates
         (find_clusters (blocks_by_hash self files_content))
  /\ total_archivos r = llen files_content
  /\ error r = None.
Proof.
  unfold find_duplicates.
  destruct (most_duplicated files_content _) as [most|e]; cbn [bind];
    [|discriminate].
  intros [= <-]. cbn. repeat split.
Qed.

(** *** Clusters and extracted blocks *)

Lemma in_all_blocks self (files_content : dict string) path content b :
  In (path, content) files_content ->
  truthy (strip content) = true ->
  In b (extract_blocks self content path) ->
  In b (all_blocks self files_content).
Proof.
  intros Hin Hstrip Hb. unfold all_blocks. apply in_flat_map.
  exists (path, content). split; [exact Hin|]. cbn [fst snd].
  now rewrite Hstrip.
Qed.

Lemma all_blocks_in self (files_content : dict string) b :
  In b (all_blocks self files_content) ->
  exists path content,
    In (path, content) files_content
    /\ In b (extract_blocks self content path).
Proof.
  unfold all_blocks. intros Hb. apply in_flat_map in Hb.
  destruct Hb as ([path content] & Hin & Hb). cbn [fst snd] in Hb.
  exists path, content. split; [exact Hin|].
  destruct (truthy (strip content)); [exact Hb|destruct Hb].
Qed.

Lemma two_in_list {A} (x y : A) (l : list A) :
  In x l -> In y l -> x <> y -> exists a b rest, l = a :: b :: rest.
Proof.
  intros Hx Hy Hne. destruct l as [|a [|b rest]].
  - destruct Hx.
  - destruct Hx as [<-|[]]. destruct Hy as [<-|[]]. congruence.
  - eauto.
Qed.

Lemma with_hash_in h b bs : In b (with_hash h bs) <-> In b bs /\ b_hash b = h.
Proof.
  unfold with_hash. rewrite filter_In, String.eqb_eq. reflexivity.
Qed.

Lemma grouped_get (by_hash : dict (list block)) bs h b :
  grouped by_hash bs -> In b bs -> b_hash b = h ->
  get h by_hash = Some (with_hash h bs).
Proof.
  intros [_ Hget] Hb Hh. rewrite Hget.
  destruct (with_hash h bs) eqn:Hw; [|reflexivity].
  assert (Hin : In b (with_hash h bs)) by (apply with_hash_in; auto).
  rewrite Hw in Hin. destruct Hin.
Qed.

(** The clusters of a grouping with distinct hashes, by hash. *)
Lemma get_clusters_of (by_hash : dict (list block)) h :
  NoDup (keys by_hash) ->
  get h (clusters_of by_hash)
  = match get h by_hash with
    | Some (b0 :: b1 :: rest) =>
        Some (Duplicate (llen (b0 :: b1 :: rest)) (b0 :: b1 :: rest)
                        (b_size b0) (preview (b_content b0)))
    | _ => None
    end.
Proof.
  induction by_hash as [|[k g] by_hash IH]; intros Hnd; [reflexivity|].
  cbn [keys map fst] in Hnd. inversion Hnd as [|? ? Hk Hnd']; subst.
  cbn [clusters_of flat_map get]. fold (clusters_of by_hash).
  destruct (String.eqb_spec h k) as [->|Hne].
  - assert (Hnone : get k (clusters_of by_hash) = None).
    { destruct (get k (clusters_of by_hash)) as [d|] eqn:Hget; [|reflexivity].
      exfalso. apply Hk. apply get_some_in in Hget.
      apply clusters_of_in in Hget.
      destruct Hget as (c0 & c1 & cs & Hin & _).
      change k with (fst (k, c0 :: c1 :: cs)). now apply in_map. }
    unfold cluster_of. cbn [fst snd].
    destruct g as [|b0 [|b1 rest]]; cbn [app]; try exact Hnone.
    cbn [get]. now rewrite String.eqb_refl.
  - rewrite <- (IH Hnd'). unfold cluster_of. cbn [fst snd].
    destruct g as [|b0 [|b1 rest]]; cbn [app]; try reflexivity.
    cbn [get]. destruct (String.eqb_spec h k); [congruence|reflexivity].
Qed.

Lemma clusters_of_nodup (by_hash : dict (list block)) :
  NoDup (keys by_hash) -> NoDup (keys (clusters_of by_hash)).
Proof.
  induction by_hash as [|[k g] by_hash IH]; intros Hnd; [constructor|].
  cbn [keys map fst] in Hnd. inversion Hnd as [|? ? Hk Hnd']; subst.
  cbn [clusters_of flat_map]. fold (clusters_of by_hash).
  unfold cluster_of. cbn [fst snd].
  destruct g as [|b0 [|b1 rest]]; cbn [app]; try now apply IH.
  cbn [keys map fst]. constructor; [|now apply IH].
  intros Hin. apply Hk. apply in_map_iff in Hin.
  destruct Hin as ([k' d] & Hk' & Hin). cbn [fst] in Hk'. subst k'.
  apply clusters_of_in in Hin. destruct Hin as (c0 & c1 & cs & Hin & _).
  change k with (fst (k, c0 :: c1 :: cs)). now apply in_map.
Qed.

(** Every cluster of extracted blocks has the size of a block. *)
Lemma cluster_sizes self (files_content : dict string) d :
  0 <= min_block_size self ->
  In d (values (clusters_of (blocks_by_hash self files_content))) ->
  size d = min_block_size self.
Proof.
  intros Hmbs Hd. unfold values in Hd. apply in_map_iff in Hd.
  destruct Hd as ([h d'] & <- & Hin). cbn [snd].
  apply clusters_of_in in Hin.
  destruct Hin as (b0 & b1 & rest & Hin & ->). cbn [size].
  apply (grouped_in _ _ _ _ (blocks_by_hash_grouped self files_content))
    in Hin.
  destruct Hin as [Hg _].
  assert (Hb0 : In b0 (with_hash h (all_blocks self files_content))).
  { rewrite <- Hg. now left. }
  apply with_hash_in in Hb0. destruct Hb0 as [Hb0 _].
  apply all_blocks_in in Hb0. destruct Hb0 as (path & content & _ & Hb0).
  pose proof (extract_blocks_shape self content path Hmbs) as Hshape.
  rewrite Forall_forall in Hshape. exact (proj1 (Hshape b0 Hb0)).
Qed.

(** *** One more block, one more file *)

Lemma block_at_size self lines file_path i :
  Forall (fun b => 0 <= b_size b) (block_at self lines file_path i).
Proof.
  unfold block_at.
  destruct (min_block_size self <=? _); repeat constructor.
  cbn [b_size]. apply llen_nonneg.
Qed.

Lemma extract_blocks_size self content file_path :
  Forall (fun b => 0 <= b_size b) (extract_blocks self content file_path).
Proof.
  unfold extract_blocks. rewrite Forall_forall. intros b Hb.
  apply in_flat_map in Hb. destruct Hb as (i & _ & Hb).
  pose proof (block_at_size self (split_lines content) file_path i) as H.
  rewrite Forall_forall in H. now apply H.
Qed.

Lemma all_blocks_size self (files_content : dict string) :
  Forall (fun b => 0 <= b_size b) (all_blocks self files_content).
Proof.
  rewrite Forall_forall. intros b Hb. apply all_blocks_in in Hb.
  destruct Hb as (path & content & _ & Hb).
  pose proof (extract_blocks_size self content path) as H.
  rewrite Forall_forall in H. now apply H.
Qed.

Lemma group_files_flat self (more : dict string) :
  forall acc : dict (list block),
    fold_left (group_file self) more acc
    = fold_left group_block (all_blocks self more) acc.
Proof.
  unfold all_blocks.
  induction more as [|[p c] more IH]; intros acc;
    cbn [fold_left flat_map]; [reflexivity|].
  rewrite fold_left_app, IH. unfold group_file. cbn [fst snd].
  now destruct (truthy (strip c)).
Qed.

Lemma all_blocks_app self (files more : dict string) :
  all_blocks self (files ++ more)
  = all_blocks self files ++ all_blocks self more.
Proof. unfold all_blocks. apply flat_map_app. Qed.

Section Monotone.

(** A measure of the clusters that adds up over the groups and does not
    go down when a group gets one more block. *)
Variable mu : dict duplicate -> Z.
Hypothesis mu_app : forall a b, mu (a ++ b) = mu a + mu b.
Hypothesis mu_grow :
  forall k g b,
    Forall (fun b => 0 <= b_size b) g ->
    mu (cluster_of (k, g)) <= mu (cluster_of (k, g ++ [b])).

Lemma group_block_monotone (by_hash : dict (list block)) b :
  groups_all (fun b => 0 <= b_size b) by_hash ->
  mu (clusters_of by_hash) <= mu (clusters_of (group_block by_hash b)).
Proof.
  unfold group_block.
  induction by_hash as [|[k g] by_hash IH]; intros Hall.
  - cbn [get_default get set clusters_of flat_map].
    rewrite mu_app. pose proof (mu_grow (b_hash b) [] b (Forall_nil _)) as H.
    assert (Hnil : mu [] = 0).
    { pose proof (mu_app [] []) as H0. cbn [app] in H0. lia. }
    unfold cluster_of at 1 in H. cbn [snd] in H. cbn [app] in *. lia.
  - assert (Hg : Forall (fun b => 0 <= b_size b) g).
    { apply (Hall k). now left. }
    assert (Hrest : groups_all (fun b => 0 <= b_size b) by_hash).
    { intros h bs Hin. apply (Hall h). now right. }
    unfold get_default in *. cbn [get set].
    destruct (String.eqb (b_hash b) k).
    + cbn [clusters_of flat_map]. rewrite !mu_app.
      pose proof (mu_grow k g b Hg). lia.
    + cbn [clusters_of flat_map]. fold (clusters_of by_hash).
      fold (clusters_of
              (set (b_hash b)
                   (match get (b_hash b) by_hash with
                    | Some v => v
                    | None => []
                    end ++ [b]) by_hash)).
      rewrite !mu_app. pose proof (IH Hrest). lia.
Qed.

Lemma group_blocks_monotone (bs : list block) :
  forall by_hash : dict (list block),
    groups_all (fun b => 0 <= b_size b) by_hash ->
    Forall (fun b => 0 <= b_size b) bs ->
    mu (clusters_of by_hash)
    <= mu (clusters_of (fold_left group_block bs by_hash)).
Proof.
  induction bs as [|b bs IH]; intros by_hash Hall Hbs; cbn [fold_left];
    [lia|].
  inversion Hbs as [|? ? Hb Hbs']; subst.
  pose proof (group_block_monotone by_hash b Hall).
  assert (groups_all (fun b => 0 <= b_size b) (group_block by_hash b)).
  { now apply group_block_all. }
  pose proof (IH (group_block by_hash b) H0 Hbs'). lia.
Qed.

(** More files, more clusters. *)
Lemma more_files_monotone self (files more : dict string) :
  mu (clusters_of (blocks_by_hash self files))
  <= mu (clusters_of (blocks_by_hash self (files ++ more))).
Proof.
  unfold blocks_by_hash at 2. rewrite fold_left_app.
  fold (blocks_by_hash self files). rewrite group_files_flat.
  apply group_blocks_monotone; [|apply all_blocks_size].
  rewrite blocks_by_hash_flat.
  apply group_blocks_all; [|apply all_blocks_size].
  intros h bs [].
Qed.

End Monotone.

Lemma lines_app (a b : dict duplicate) :
  sumZ (map cluster_lines (values (a ++ b)))
  = sumZ (map cluster_lines (values a)) + sumZ (map cluster_lines (values b)).
Proof. unfold values. now rewrite !map_app, sumZ_app. Qed.

Lemma llen_app {A} (a b : list A) : llen (a ++ b) = llen a + llen b.
Proof. unfold llen. rewrite length_app. lia. Qed.

Lemma lines_grow k g b :
  Forall (fun b => 0 <= b_size b) g ->
  sumZ (map cluster_lines (values (cluster_of (k, g))))
  <= sumZ (map cluster_lines (values (cluster_of (k, g ++ [b])))).
Proof.
  intros Hg. unfold cluster_of. cbn [fst snd].
  destruct g as [|b0 [|b1 rest]]; cbn [app values map snd].
  - unfold sumZ. cbn. lia.
  - inversion Hg; subst. unfold sumZ, cluster_lines, llen. cbn. lia.
  - inversion Hg; subst.
    change (b0 :: b1 :: rest ++ [b]) with ((b0 :: b1 :: rest) ++ [b]).
    rewrite !sumZ_cons. unfold cluster_lines. cbn [size occurrences].
    rewrite llen_app. unfold sumZ. cbn [fold_left].
    pose proof (llen_nonneg (b0 :: b1 :: rest)).
    change (llen [b]) with 1. nia.
Qed.

Lemma occurrences_app (a b : dict duplicate) :
  sumZ (map occurrences (values (a ++ b)))
  = sumZ (map occurrences (values a)) + sumZ (map occurrences (values b)).
Proof. unfold values. now rewrite !map_app, sumZ_app. Qed.

Lemma occurrences_grow k g b :
  Forall (fun b => 0 <= b_size b) g ->
  sumZ (map occurrences (values (cluster_of (k, g))))
  <= sumZ (map occurrences (values (cluster_of (k, g ++ [b])))).
Proof.
  intros _. unfold cluster_of. cbn [fst snd].
  destruct g as [|b0 [|b1 rest]]; cbn [app values map snd].
  - unfold sumZ. cbn. lia.
  - unfold sumZ, llen. cbn. lia.
  - change (b0 :: b1 :: rest ++ [b]) with ((b0 :: b1 :: rest) ++ [b]).
    rewrite !sumZ_cons. cbn [occurrences]. rewrite llen_app.
    change (llen [b]) with 1. lia.
Qed.

Lemma count_grow k g (b : block) :
  Forall (fun b => 0 <= b_size b) g ->
  llen (cluster_of (k, g)) <= llen (cluster_of (k, g ++ [b])).
Proof.
  intros _. unfold cluster_of. cbn [fst snd].
  destruct g as [|b0 [|b1 rest]]; cbn [app]; unfold llen; cbn; lia.
Qed.

(** *** Sums over the clusters *)

Lemma cluster_occurrences (ds : list duplicate) :
  Forall (fun d => 2 <= occurrences d) ds ->
  2 * llen ds <= sumZ (map occurrences ds).
Proof.
  induction 1 as [|d ds Hd _ IH]; cbn [map].
  - unfold sumZ, llen. cbn. lia.
  - rewrite sumZ_cons, llen_cons. lia.
Qed.

Lemma cluster_lines_sum (m : Z) (ds : list duplicate) :
  Forall (fun d => size d = m) ds ->
  sumZ (map cluster_lines ds) = m * (sumZ (map occurrences ds) - llen ds).
Proof.
  induction 1 as [|d ds Hd _ IH]; cbn [map].
  - unfold sumZ, llen. cbn. lia.
  - rewrite !sumZ_cons, llen_cons, IH. unfold cluster_lines. rewrite Hd. lia.
Qed.

(** *** A window that counts *)

Lemma forallb_significant self (w : list string) :
  forallb (significant self) w
  = forallb (fun l => truthy (strip l)) (map (normalize_line self) w).
Proof.
  induction w as [|l w IH]; cbn [forallb map]; [reflexivity|].
  now rewrite IH.
Qed.

Lemma window_incl self lines i l : In l (window self lines i) -> In l lines.
Proof.
  unfold window. intros H.
  rewrite <- (firstn_skipn i lines). apply in_or_app. right.
  rewrite <- (firstn_skipn (Z.to_nat (min_block_size self)) (skipn i lines)).
  apply in_or_app. now left.
Qed.

Lemma window_in_range self (lines : list string) i :
  0 <= min_block_size self ->
  (i + Z.to_nat (min_block_size self) <= List.length lines)%nat ->
  (i < Z.to_nat (llen lines - min_block_size self + 1))%nat.
Proof. unfold llen. lia. Qed.

(** The block of a window of lines that all count is extracted, and the
    file is not blank. *)
Lemma block_of_extracted self content file_path i :
  0 < min_block_size self ->
  (i + Z.to_nat (min_block_size self)
   <= List.length (split_lines content))%nat ->
  forallb (significant self) (window self (split_lines content) i) = true ->
  In (block_of self (split_lines content) file_path i)
     (extract_blocks self content file_path)
  /\ truthy (strip content) = true.
Proof.
  intros Hmbs Hi Hall.
  assert (Hrange : (i < Z.to_nat (llen (split_lines content)
                                  - min_block_size self + 1))%nat).
  { apply window_in_range; [lia|exact Hi]. }
  split.
  - rewrite extract_blocks_spec by lia. apply in_map. apply filter_In.
    split; [|exact Hall]. apply in_seq. lia.
  - pose proof (window_length self (split_lines content) i
                  (Z.lt_le_incl _ _ Hmbs) Hrange) as Hlen.
    destruct (window self (split_lines content) i) as [|l w] eqn:Hw.
    + cbn [List.length] in Hlen. lia.
    + cbn [forallb] in Hall. apply andb_prop in Hall.
      apply (not_blank_content self content l); [|exact (proj1 Hall)].
      apply (window_incl self _ i). rewrite Hw. now left.
Qed.

(** *** A block size of 0 or less *)

Lemma block_at_empty self lines file_path i :
  min_block_size self <= 0 ->
  block_at self lines file_path i = [empty_block self file_path i].
Proof.
  intros Hmbs. unfold block_at, empty_block.
  replace (Z.to_nat (min_block_size self)) with O by lia.
  cbn [firstn window_lines map filter join_lines].
  change (llen (@nil string)) with 0.
  destruct (Z.leb_spec (min_block_size self) 0); [reflexivity|lia].
Qed.

Lemma extract_blocks_empty self content file_path :
  min_block_size self <= 0 ->
  extract_blocks self content file_path
  = map (empty_block self file_path)
        (seq 0 (Z.to_nat (llen (split_lines content)
                          - min_block_size self + 1))).
Proof.
  intros Hmbs. unfold extract_blocks.
  induction (seq 0 _) as [|i l IH]; cbn [flat_map map]; [reflexivity|].
  now rewrite IH, block_at_empty.
Qed.

Lemma empty_blocks_two self content file_path :
  min_block_size self <= 0 ->
  In (empty_block self file_path 0) (extract_blocks self content file_path)
  /\ In (empty_block self file_path 1)
        (extract_blocks self content file_path).
Proof.
  intros Hmbs. rewrite extract_blocks_empty by exact Hmbs.
  pose proof (split_lines_nonempty content) as Hlines.
  split; apply in_map, in_seq; lia.
Qed.

Lemma all_blocks_empty self (files_content : dict string) b :
  min_block_size self <= 0 ->
  In b (all_blocks self files_content) ->
  b_hash b = MD5.hexdigest "" /\ b_size b = 0.
Proof.
  intros Hmbs Hb. apply all_blocks_in in Hb.
  destruct Hb as (path & content & _ & Hb).
  rewrite extract_blocks_empty in Hb by exact Hmbs.
  apply in_map_iff in Hb. destruct Hb as (i & <- & _). split; reflexivity.
Qed.

Lemma nodup_single {A} (a : A) (l : list A) :
  NoDup l -> (forall x, In x l -> x = a) -> In a l -> l = [a].
Proof.
  intros Hnd Hall Hin. destruct l as [|x [|y l]]; [destruct Hin| |].
  - now rewrite (Hall x (or_introl eq_refl)).
  - exfalso. inversion Hnd as [|? ? Hx _]; subst. apply Hx.
    rewrite (Hall x), (Hall y); cbn; auto.
Qed.

Lemma single_key {V} (d : dict V) k :
  keys d = [k] -> exists v, d = [(k, v)].
Proof.
  destruct d as [|[k' v] [|item d]]; cbn [keys map fst]; intros H;
    try discriminate H.
  injection H as ->. now exists v.
Qed.

(** With a block size of 0 or less and a file that is not blank, the
    grouping has one group: all the blocks, under the digest of the empty
    string. *)
Lemma blocks_by_hash_empty self (files_content : dict string) path content :
  min_block_size self <= 0 ->
  In (path, content) files_content ->
  truthy (strip content) = true ->
  exists b0 b1 rest,
    all_blocks self files_content = b0 :: b1 :: rest
    /\ blocks_by_hash self files_content
       = [(MD5.hexdigest "", b0 :: b1 :: rest)].
Proof.
  intros Hmbs Hin Hstrip.
  destruct (empty_blocks_two self content path Hmbs) as [H0 H1].
  pose proof (in_all_blocks _ _ _ _ _ Hin Hstrip H0) as Ha0.
  pose proof (in_all_blocks _ _ _ _ _ Hin Hstrip H1) as Ha1.
  assert (Hne : empty_block self path 0 <> empty_block self path 1).
  { intros Heq. pose proof (f_equal b_start_line Heq) as Hs.
    unfold empty_block in Hs. cbn [b_start_line] in Hs. lia. }
  destruct (two_in_list _ _ _ Ha0 Ha1 Hne) as (b0 & b1 & rest & Hall).
  exists b0, b1, rest. split; [exact Hall|].
  pose proof (blocks_by_hash_grouped self files_content) as Hgrouped.
  assert (Hwith : with_hash (MD5.hexdigest "") (all_blocks self files_content)
                  = all_blocks self files_content).
  { unfold with_hash. apply filter_all. apply forallb_forall. intros b Hb.
    apply String.eqb_eq. exact (proj1 (all_blocks_empty _ _ _ Hmbs Hb)). }
  assert (Hkeys : keys (blocks_by_hash self files_content)
                  = [MD5.hexdigest ""]).
  { apply nodup_single; [exact (proj1 Hgrouped)| |].
    - intros h Hh. apply in_map_iff in Hh. destruct Hh as ([h' g] & <- & Hg).
      cbn [fst]. apply (grouped_in _ _ _ _ Hgrouped) in Hg.
      destruct Hg as [-> Hg].
      destruct (with_hash h' (all_blocks self files_content)) as [|b g]
        eqn:Hw; [congruence|].
      assert (Hb : In b (with_hash h' (all_blocks self files_content))).
      { rewrite Hw. now left. }
      apply with_hash_in in Hb. destruct Hb as [Hb <-].
      exact (proj1 (all_blocks_empty _ _ _ Hmbs Hb)).
    - apply in_map_iff. exists (MD5.hexdigest "", b0 :: b1 :: rest).
      split; [reflexivity|]. apply (grouped_in _ _ _ _ Hgrouped).
      rewrite Hwith, Hall. split; [reflexivity|discriminate]. }
  destruct (single_key _ _ Hkeys) as [g Hby]. rewrite Hby in Hgrouped.
  assert (Hg : In (MD5.hexdigest "", g) [(MD5.hexdigest "", g)]).
  { left. reflexivity. }
  apply (grouped_in _ _ _ _ Hgrouped) in Hg. destruct Hg as [Hg _].
  rewrite Hby, Hg, Hwith, Hall. reflexivity.
Qed.

Lemma empty_block_path self file_path i :
  b_file_path (empty_block self file_path i) = file_path.
Proof. reflexivity. Qed.

(** The report of a grouping that has one group, of two blocks or more. *)
Lemma single_group_report self (files_content : dict string) h b0 b1 rest r :
  blocks_by_hash self files_content = [(h, b0 :: b1 :: rest)] ->
  find_duplicates self files_content = Returns r ->
  bloques_encontrados r = 1
  /\ total_ocurrencias r = 2 + llen rest
  /\ lineas_duplicadas r = b_size b0 * (1 + llen rest)
  /\ forall f, (exists b, In b (b0 :: b1 :: rest) /\ b_file_path b = f) ->
               In f (archivos_afectados r).
Proof.
  intros Hby Hrun.
  destruct (find_duplicates_spec self files_content)
    as (r' & Hrun' & Hd & Hl & _).
  rewrite Hrun in Hrun'. injection Hrun' as <-.
  destruct (find_duplicates_fields self files_content r Hrun)
    as (Hb & Ht & Haf & _).
  destruct (find_files_fold (blocks_by_hash self files_content)
              (Found [] 0 [])) as [_ Hfiles]; [constructor|].
  fold (find_clusters (blocks_by_hash self files_content)) in Hfiles.
  rewrite <- Haf in Hfiles.
  rewrite Hby in Hd, Hl, Hfiles.
  unfold clusters_of, cluster_of in Hd, Hl, Hfiles.
  cbn [flat_map fst snd app] in Hd, Hl, Hfiles.
  rewrite Hb, Ht, Hl, Hd. cbn [values map snd occurrences].
  unfold cluster_lines. cbn [size occurrences].
  rewrite !llen_cons. unfold sumZ. cbn [fold_left].
  split; [reflexivity|]. split; [lia|]. split; [ring|].
  intros f (b & Hin & Hf). apply Hfiles. right.
  eexists. exists b. split; [left; reflexivity|]. split; assumption.
Qed.

End BlockFacts.

(** ** The duplication detector: lines and blocks *)

Module DuplicationProperties.

Import Py DuplicationAnalyzer DuplicationSpec DuplicationNotions Samples
       DictFacts DuplicationFacts NormalizeFacts BlockFacts.
Local Open Scope string_scope.
Local Open Scope list_scope.
Local Open Scope Z_scope.

(** X1: with [ignore_whitespace], [normalize_line] does not see the
    indentation of a line: spaces put before a line leave its normal form
    as it is. *)
Theorem normalize_line_ignores_indentation (self : DuplicationAnalyzer.t)
  (ws line : string) :
  ignore_whitespace self = true ->
  all_spaces ws ->
  normalize_line self (ws ++ line)%string = normalize_line self line.
Proof.
  intros Hiw Hws. unfold normalize_line. rewrite Hiw.
  rewrite (sub_comments_plain_prefix _ _ (all_spaces_plain _ Hws)).
  unfold strip. now rewrite lstrip_spaces.
Qed.

(** Four blanks and a tab before an assignment. *)
Lemma normalize_line_ignores_indentation_witness :
  normalize_line default ("    " ++ String (ascii_of_nat 9) "" ++ "x = 1")%string
  = normalize_line default "x = 1".
Proof.
  apply (normalize_line_ignores_indentation default
           ("    " ++ String (ascii_of_nat 9) "")%string "x = 1");
    [reflexivity|repeat constructor].
Defined.

(** X2: [normalize_line] drops a comment at the end of a line: after code
    without [/], [#] and [<], whatever follows a [#] or a [//] up to the end
    of the line leaves no trace, with or without [ignore_whitespace]. *)
Theorem normalize_line_drops_comment (self : DuplicationAnalyzer.t)
  (code rest : string) :
  plain code ->
  one_line rest ->
  normalize_line self (code ++ "#" ++ rest)%string = normalize_line self code
  /\ normalize_line self (code ++ "//" ++ rest)%string
     = normalize_line self code.
Proof.
  intros Hcode Hrest. unfold normalize_line.
  rewrite !(sub_comments_plain_prefix _ _ Hcode).
  rewrite (sub_comments_hash _ Hrest), (sub_comments_slashes _ Hrest).
  rewrite append_empty, (sub_comments_plain _ Hcode). split; reflexivity.
Qed.

(** An assignment followed by a comment. *)
Lemma normalize_line_drops_comment_witness :
  normalize_line default ("x = 1 " ++ "#" ++ " set x")%string
  = normalize_line default "x = 1 "
  /\ normalize_line default ("x = 1 " ++ "//" ++ " set x")%string
     = normalize_line default "x = 1 ".
Proof.
  apply (normalize_line_drops_comment default "x = 1 " " set x");
    repeat constructor.
Defined.

(** X3: a line that holds only a comment does not count in a block: when
    the first character after the indentation is a [#] (a comment of Python,
    and a preprocessor directive of C as well) or the line starts there with
    [//], the line is blank once normalized. *)
Theorem comment_line_is_not_significant (self : DuplicationAnalyzer.t)
  (ws rest : string) :
  all_spaces ws ->
  one_line rest ->
  significant self (ws ++ "#" ++ rest)%string = false
  /\ significant self (ws ++ "//" ++ rest)%string = false.
Proof.
  intros Hws Hrest. unfold significant, normalize_line.
  rewrite !(sub_comments_plain_prefix _ _ (all_spaces_plain _ Hws)).
  rewrite (sub_comments_hash _ Hrest), (sub_comments_slashes _ Hrest).
  rewrite append_empty.
  destruct (ignore_whitespace self); rewrite !(strip_all_spaces _ Hws);
    split; reflexivity.
Qed.

(** An indented [#include] and an indented comment. *)
Lemma comment_line_is_not_significant_witness :
  significant default ("  " ++ "#" ++ "include <stdio.h>")%string = false
  /\ significant default ("  " ++ "//" ++ "include <stdio.h>")%string = false.
Proof.
  apply (comment_line_is_not_significant default "  " "include <stdio.h>");
    repeat constructor.
Defined.

(** X4: for a block size that is not negative, [extract_blocks] returns, in
    the order of the lines, one block for every window of [min_block_size]
    consecutive lines none of which is blank once normalized, and nothing
    for the other windows: the block starts at the line of the window,
    counts [min_block_size] lines, holds the lines of the window joined by
    newlines, normalized in [content] and as they are in
    [original_content], and its hash is the MD5 of [content]. *)
Theorem extract_blocks_characterization (self : DuplicationAnalyzer.t)
  (content file_path : string) :
  0 <= min_block_size self ->
  extract_blocks self content file_path
  = map (block_of self (split_lines content) file_path)
        (filter (fun i =>
                   forallb (significant self)
                           (window self (split_lines content) i))
                (seq 0 (Z.to_nat (llen (split_lines content)
                                  - min_block_size self + 1)))).
Proof.
  intros Hmbs. exact (extract_blocks_spec self content file_path Hmbs).
Qed.

(** Six lines and blocks of five lines. *)
Lemma extract_blocks_characterization_witness :
  extract_blocks default b_py "b.py"
  = map (block_of default (split_lines b_py) "b.py")
        (filter (fun i =>
                   forallb (significant default)
                           (window default (split_lines b_py) i))
                (seq 0 (Z.to_nat (llen (split_lines b_py)
                                  - min_block_size default + 1)))).
Proof.
  apply (extract_blocks_characterization default b_py "b.py").
  intros H. discriminate H.
Defined.

(** ** The duplication detector: the report *)

(** X5: files that are all shorter than a block have no duplication:
    [find_duplicates] reports no cluster, no duplicated line, no affected
    file, no most duplicated file, and 0 percent. *)
Theorem short_files_have_no_duplication (self : DuplicationAnalyzer.t)
  (files_content : dict string) :
  Forall (fun item => llen (split_lines (snd item)) < min_block_size self)
         files_content ->
  exists r,
    find_duplicates self files_content = Returns r
    /\ duplicates_details r = []
    /\ bloques_encontrados r = 0
    /\ total_ocurrencias r = 0
    /\ lineas_duplicadas r = 0
    /\ archivos_afectados r = []
    /\ mayor_duplicacion r = None
    /\ (porcentaje_global r == 0)%Q.
Proof.
  intros Hshort.
  assert (Hnone : blocks_by_hash self files_content = []).
  { rewrite blocks_by_hash_flat.
    replace (all_blocks self files_content) with (@nil block); [reflexivity|].
    symmetry. unfold all_blocks.
    induction Hshort as [|[p c] files Hc _ IH]; cbn [flat_map]; [reflexivity|].
    cbn [fst snd] in *. rewrite IH, app_nil_r.
    destruct (truthy (strip c)); [|reflexivity].
    now apply extract_blocks_short. }
  destruct (find_duplicates_spec self files_content)
    as (r & Hrun & Hd & Hl & Hp & Hm).
  destruct (find_duplicates_fields self files_content r Hrun)
    as (Hb & Ht & Ha & _).
  rewrite Hnone in *. cbn in Hd, Hl, Hm, Ha.
  exists r. split; [exact Hrun|]. split; [exact Hd|].
  rewrite Hb, Ht, Hd, Hl. repeat split; try assumption.
  rewrite Hp, Hl, percentage_zero. reflexivity.
Qed.

(** Two files of one line each, and blocks of five lines. *)
Lemma short_files_have_no_duplication_witness :
  exists r,
    find_duplicates default [("a.py", "x = 1"); ("b.py", "x = 1")] = Returns r
    /\ duplicates_details r = []
    /\ bloques_encontrados r = 0
    /\ total_ocurrencias r = 0
    /\ lineas_duplicadas r = 0
    /\ archivos_afectados r = []
    /\ mayor_duplicacion r = None
    /\ (porcentaje_global r == 0)%Q.
Proof.
  apply (short_files_have_no_duplication default
           [("a.py", "x = 1"); ("b.py", "x = 1")]).
  repeat constructor.
Defined.

(** X6: [archivos_afectados] lists, each once, the files that have a
    block in a cluster; they are files of the map, so they are no more
    than [total_archivos]. *)
Theorem affected_files_are_the_files_of_clusters
  (self : DuplicationAnalyzer.t) (files_content : dict string) :
  exists r,
    find_duplicates self files_content = Returns r
    /\ NoDup (archivos_afectados r)
    /\ (forall f, In f (archivos_afectados r)
                  <-> occurs_in (duplicates_details r) f)
    /\ incl (archivos_afectados r) (keys files_content)
    /\ llen (archivos_afectados r) <= total_archivos r.
Proof.
  destruct (find_duplicates_spec self files_content)
    as (r & Hrun & Hd & _).
  destruct (find_duplicates_fields self files_content r Hrun)
    as (_ & _ & Ha & Ht & _).
  destruct (find_files_fold (blocks_by_hash self files_content)
              (Found [] 0 [])) as [Hnd Hin]; [constructor|].
  fold (find_clusters (blocks_by_hash self files_content)) in Hnd, Hin.
  rewrite <- Ha in Hnd, Hin. rewrite <- Hd in Hin.
  assert (Hiff : forall f, In f (archivos_afectados r)
                           <-> occurs_in (duplicates_details r) f).
  { intros f. rewrite Hin. cbn [files_with_duplicates In]. tauto. }
  assert (Hincl : incl (archivos_afectados r) (keys files_content)).
  { intros f Hf. apply Hiff in Hf. rewrite Hd in Hf.
    exact (occurs_in_files _ _ _ Hf). }
  exists r. split; [exact Hrun|]. split; [exact Hnd|].
  split; [exact Hiff|]. split; [exact Hincl|].
  rewrite Ht. pose proof (NoDup_incl_length Hnd Hincl) as Hlen.
  unfold keys in Hlen. rewrite length_map in Hlen. unfold llen. lia.
Qed.

(** X7: for a block size that is not negative, every cluster has the size
    of a block and two occurrences or more, so that the occurrences are at
    least twice the clusters and the duplicated lines are the block size
    times the occurrences beyond the first of every cluster. *)
Theorem occurrences_and_duplicated_lines (self : DuplicationAnalyzer.t)
  (files_content : dict string) :
  0 <= min_block_size self ->
  exists r,
    find_duplicates self files_content = Returns r
    /\ Forall (fun d => size d = min_block_size self)
              (values (duplicates_details r))
    /\ 2 * bloques_encontrados r <= total_ocurrencias r
    /\ lineas_duplicadas r
       = min_block_size self
         * (total_ocurrencias r - bloques_encontrados r).
Proof.
  intros Hmbs.
  destruct (find_duplicates_spec self files_content)
    as (r & Hrun & Hd & Hl & _).
  destruct (find_duplicates_fields self files_content r Hrun)
    as (Hb & Ht & _).
  assert (Hsize : Forall (fun d => size d = min_block_size self)
                         (values (duplicates_details r))).
  { rewrite Hd, Forall_forall. intros d Hin.
    exact (cluster_sizes self files_content d Hmbs Hin). }
  assert (Hocc : Forall (fun d => 2 <= occurrences d)
                        (values (duplicates_details r))).
  { rewrite Hd, Forall_forall. intros d Hin.
    now destruct (clusters_of_spec _ _ Hin) as (_ & Htwo & _). }
  assert (Hlen : llen (values (duplicates_details r))
                 = llen (duplicates_details r)).
  { unfold values. apply length_map_llen. }
  exists r. split; [exact Hrun|]. split; [exact Hsize|].
  rewrite Hb, Ht, <- Hlen. split; [now apply cluster_occurrences|].
  rewrite Hl, <- Hd. now apply cluster_lines_sum.
Qed.

(** Seven lines and six lines that are one line repeated: one cluster of
    five occurrences. *)
Lemma occurrences_and_duplicated_lines_witness :
  exists r,
    find_duplicates default [("a.py", a_py); ("b.py", b_py)] = Returns r
    /\ Forall (fun d => size d = 5) (values (duplicates_details r))
    /\ 2 * bloques_encontrados r <= total_ocurrencias r
    /\ lineas_duplicadas r
       = 5 * (total_ocurrencias r - bloques_encontrados r).
Proof.
  apply (occurrences_and_duplicated_lines default
           [("a.py", a_py); ("b.py", b_py)]).
  intros H. discriminate H.
Defined.

(** X8: the clusters of the report have distinct hashes, and the cluster
    of a hash is there exactly when two or more of the blocks extracted
    from the files that are not blank carry the hash; it then holds all
    those blocks, in the order of extraction, counts them, and takes its
    size and its preview from the first. *)
Theorem clusters_are_the_shared_hashes (self : DuplicationAnalyzer.t)
  (files_content : dict string) :
  exists r,
    find_duplicates self files_content = Returns r
    /\ NoDup (keys (duplicates_details r))
    /\ forall h,
         get h (duplicates_details r)
         = match with_hash h (all_blocks self files_content) with
           | b0 :: b1 :: rest =>
               Some (Duplicate (llen (b0 :: b1 :: rest)) (b0 :: b1 :: rest)
                               (b_size b0) (preview (b_content b0)))
           | _ => None
           end.
Proof.
  destruct (find_duplicates_spec self files_content)
    as (r & Hrun & Hd & _).
  pose proof (blocks_by_hash_grouped self files_content) as [Hnd Hget].
  exists r. split; [exact Hrun|]. rewrite Hd.
  split; [now apply clusters_of_nodup|].
  intros h. rewrite (get_clusters_of _ h Hnd), Hget.
  now destruct (with_hash h (all_blocks self files_content))
    as [|b0 [|b1 rest]].
Qed.

(** X9: a repeated window is reported. When [min_block_size] consecutive
    lines of a file, none of them blank once normalized, have the same
    normal forms, line by line, as [min_block_size] consecutive lines at
    another place (of another file or of the same one), the report has a
    cluster that holds the blocks of both windows, and both files are among
    [archivos_afectados]. *)
Theorem repeated_window_is_reported (self : DuplicationAnalyzer.t)
  (files_content : dict string) (p1 c1 p2 c2 : string) (i1 i2 : nat) :
  0 < min_block_size self ->
  In (p1, c1) files_content ->
  In (p2, c2) files_content ->
  (i1 + Z.to_nat (min_block_size self)
   <= List.length (split_lines c1))%nat ->
  (i2 + Z.to_nat (min_block_size self)
   <= List.length (split_lines c2))%nat ->
  forallb (significant self) (window self (split_lines c1) i1) = true ->
  map (normalize_line self) (window self (split_lines c1) i1)
  = map (normalize_line self) (window self (split_lines c2) i2) ->
  p1 <> p2 \/ i1 <> i2 ->
  exists r h d,
    find_duplicates self files_content = Returns r
    /\ In (h, d) (duplicates_details r)
    /\ In (block_of self (split_lines c1) p1 i1) (blocks d)
    /\ In (block_of self (split_lines c2) p2 i2) (blocks d)
    /\ In p1 (archivos_afectados r)
    /\ In p2 (archivos_afectados r).
Proof.
  intros Hmbs Hf1 Hf2 Hi1 Hi2 Hall1 Hsame Hother.
  assert (Hall2 : forallb (significant self) (window self (split_lines c2) i2)
                  = true).
  { now rewrite forallb_significant, <- Hsame, <- forallb_significant. }
  destruct (block_of_extracted self c1 p1 i1 Hmbs Hi1 Hall1) as [Hb1 Hs1].
  destruct (block_of_extracted self c2 p2 i2 Hmbs Hi2 Hall2) as [Hb2 Hs2].
  set (b1 := block_of self (split_lines c1) p1 i1) in *.
  set (b2 := block_of self (split_lines c2) p2 i2) in *.
  set (all := all_blocks self files_content).
  assert (Ha1 : In b1 all) by exact (in_all_blocks _ _ _ _ _ Hf1 Hs1 Hb1).
  assert (Ha2 : In b2 all) by exact (in_all_blocks _ _ _ _ _ Hf2 Hs2 Hb2).
  assert (Hhash : b_hash b2 = b_hash b1).
  { unfold b1, b2, block_of. cbn [b_hash]. now rewrite Hsame. }
  assert (Hne : b1 <> b2).
  { intros Heq. destruct Hother as [Hp|Hi]; [apply Hp|apply Hi].
    - exact (f_equal b_file_path Heq).
    - pose proof (f_equal b_start_line Heq) as Hst.
      unfold b1, b2, block_of in Hst. cbn [b_start_line] in Hst. lia. }
  set (h := b_hash b1).
  assert (Hw1 : In b1 (with_hash h all)) by (apply with_hash_in; auto).
  assert (Hw2 : In b2 (with_hash h all)) by (apply with_hash_in; auto).
  destruct (two_in_list _ _ _ Hw1 Hw2 Hne) as (a & b & rest & Hg).
  pose proof (blocks_by_hash_grouped self files_content) as Hgrouped.
  pose proof (grouped_get _ _ h b1 Hgrouped Ha1 eq_refl) as Hget.
  fold all in Hget. rewrite Hg in Hget.
  destruct (find_duplicates_spec self files_content)
    as (r & Hrun & Hd & _).
  destruct (find_duplicates_fields self files_content r Hrun)
    as (_ & _ & Haf & _).
  destruct (find_files_fold (blocks_by_hash self files_content)
              (Found [] 0 [])) as [_ Hin]; [constructor|].
  fold (find_clusters (blocks_by_hash self files_content)) in Hin.
  rewrite <- Haf, <- Hd in Hin.
  set (d := Duplicate (llen (a :: b :: rest)) (a :: b :: rest) (b_size a)
                      (preview (b_content a))).
  assert (Hcl : In (h, d) (duplicates_details r)).
  { rewrite Hd. apply get_some_in.
    rewrite (get_clusters_of _ h (proj1 Hgrouped)), Hget. reflexivity. }
  assert (Hd1 : In b1 (blocks d)) by (cbn [d blocks]; now rewrite <- Hg).
  assert (Hd2 : In b2 (blocks d)) by (cbn [d blocks]; now rewrite <- Hg).
  assert (Hval : In d (values (duplicates_details r))).
  { change d with (snd (h, d)). now apply in_map. }
  exists r, h, d. split; [exact Hrun|]. split; [exact Hcl|].
  split; [exact Hd1|]. split; [exact Hd2|].
  split; apply Hin; right.
  - exists d, b1. repeat split; assumption.
  - exists d, b2. repeat split; assumption.
Qed.

(** The first five lines of [a.py] and the first five lines of [b.py]. *)
Lemma repeated_window_is_reported_witness :
  exists r h d,
    find_duplicates default [("a.py", a_py); ("b.py", b_py)] = Returns r
    /\ In (h, d) (duplicates_details r)
    /\ In (block_of default (split_lines a_py) "a.py" 0) (blocks d)
    /\ In (block_of default (split_lines b_py) "b.py" 0) (blocks d)
    /\ In "a.py" (archivos_afectados r)
    /\ In "b.py" (archivos_afectados r).
Proof.
  apply (repeated_window_is_reported default
           [("a.py", a_py); ("b.py", b_py)] "a.py" a_py "b.py" b_py 0 0).
  - reflexivity.
  - now left.
  - right; now left.
  - vm_compute. lia.
  - vm_compute. lia.
  - reflexivity.
  - reflexivity.
  - left. discriminate.
Defined.

(** X10: files added to a project never lower the duplication counted:
    with more files after them, the files of a map have as many clusters,
    occurrences and duplicated lines as before, or more. *)
Theorem more_files_no_less_duplication (self : DuplicationAnalyzer.t)
  (files_content more : dict string) :
  exists r r',
    find_duplicates self files_content = Returns r
    /\ find_duplicates self (files_content ++ more) = Returns r'
    /\ bloques_encontrados r <= bloques_encontrados r'
    /\ total_ocurrencias r <= total_ocurrencias r'
    /\ lineas_duplicadas r <= lineas_duplicadas r'.
Proof.
  destruct (find_duplicates_spec self files_content)
    as (r & Hrun & Hd & Hl & _).
  destruct (find_duplicates_spec self (files_content ++ more))
    as (r' & Hrun' & Hd' & Hl' & _).
  destruct (find_duplicates_fields self files_content r Hrun)
    as (Hb & Ht & _).
  destruct (find_duplicates_fields self (files_content ++ more) r' Hrun')
    as (Hb' & Ht' & _).
  exists r, r'. split; [exact Hrun|]. split; [exact Hrun'|].
  rewrite Hb, Hb', Ht, Ht', Hl, Hl', Hd, Hd'. repeat split.
  - apply (more_files_monotone (fun d => llen d)).
    + intros a b. apply llen_app.
    + apply count_grow.
  - apply (more_files_monotone
             (fun d => sumZ (map occurrences (values d)))).
    + apply occurrences_app.
    + apply occurrences_grow.
  - apply (more_files_monotone
             (fun d => sumZ (map cluster_lines (values d)))).
    + apply lines_app.
    + apply lines_grow.
Qed.

(** X29: a block size of 0 or less makes every file a duplicate. Every
    window then gives a block without a line, whose hash is the digest of
    the empty string; as soon as a file of the map is not blank, the report
    has one cluster, of all the blocks and of size 0, no duplicated line,
    and every file that is not blank among [archivos_afectados]. *)
Theorem nonpositive_block_size_reports_every_file
  (self : DuplicationAnalyzer.t) (files_content : dict string)
  (path content : string) :
  min_block_size self <= 0 ->
  In (path, content) files_content ->
  truthy (strip content) = true ->
  exists r,
    find_duplicates self files_content = Returns r
    /\ bloques_encontrados r = 1
    /\ 2 <= total_ocurrencias r
    /\ lineas_duplicadas r = 0
    /\ forall q d,
         In (q, d) files_content -> truthy (strip d) = true ->
         In q (archivos_afectados r).
Proof.
  intros Hmbs Hin Hstrip.
  destruct (blocks_by_hash_empty self files_content path content
              Hmbs Hin Hstrip) as (b0 & b1 & rest & Hall & Hby).
  destruct (find_duplicates_spec self files_content) as (r & Hrun & _).
  destruct (single_group_report self files_content _ b0 b1 rest r Hby Hrun)
    as (Hb & Ht & Hl & Hfiles).
  assert (Hsize : b_size b0 = 0).
  { apply (all_blocks_empty self files_content b0 Hmbs).
    rewrite Hall. left. reflexivity. }
  pose proof (llen_nonneg rest) as Hrest.
  exists r. split; [exact Hrun|]. split; [exact Hb|].
  split; [lia|]. split; [rewrite Hl, Hsize; lia|].
  intros q d Hq Hd. apply Hfiles.
  destruct (empty_blocks_two self d q Hmbs) as [Hblock _].
  pose proof (in_all_blocks _ _ _ _ _ Hq Hd Hblock) as Hblock'.
  rewrite Hall in Hblock'.
  exists (empty_block self q 0).
  split; [exact Hblock'|apply empty_block_path].
Qed.

(** Two files of one line each, and a block size of 0. *)
Lemma nonpositive_block_size_reports_every_file_witness :
  exists r,
    find_duplicates (Make 0 true) [("a.py", "x = 1"); ("b.py", "y = 2")]
    = Returns r
    /\ bloques_encontrados r = 1
    /\ 2 <= total_ocurrencias r
    /\ lineas_duplicadas r = 0
    /\ forall q d,
         In (q, d) [("a.py", "x = 1"); ("b.py", "y = 2")] ->
         truthy (strip d) = true ->
         In q (archivos_afectados r).
Proof.
  apply (nonpositive_block_size_reports_every_file (Make 0 true)
           [("a.py", "x = 1"); ("b.py", "y = 2")] "a.py" "x = 1").
  - apply Z.le_refl.
  - left. reflexivity.
  - reflexivity.
Defined.

End DuplicationProperties.

(** ** The base analyzer *)

Module BaseFacts.

Import Py LanguageAnalyzer BaseSpec BaseNotions DictFacts
       LanguageAnalyzerFacts ScoreFacts.
Local Open Scope string_scope.
Local Open Scope list_scope.
Local Open Scope Z_scope.

(** The loop of [analyze_files] sees the files it analyzes only. *)
Lemma analyze_loop_analyzed cls (files : dict string) :
  forall acc,
    fold_left (analyze_step cls) (analyzed cls files) acc
    = fold_left (analyze_step cls) files acc.
Proof.
  unfold analyzed.
  induction files as [|[p c] files IH]; intros acc; cbn [filter fold_left];
    [reflexivity|].
  cbn [fst snd]. unfold analyze_step at 3.
  destruct (should_analyze_file cls p) eqn:Hext; cbn [andb]; [|apply IH].
  destruct (analyze_file cls p c) as [m|e] eqn:Hrun; cbn [returned];
    [|apply IH].
  cbn [fold_left]. unfold analyze_step at 2. rewrite Hext, Hrun. apply IH.
Qed.

Lemma analyzed_none cls (files : dict string) :
  (forall p c, In (p, c) files -> should_analyze_file cls p = true ->
               exists e, analyze_file cls p c = Raises e) ->
  analyzed cls files = [].
Proof.
  intros H. unfold analyzed.
  induction files as [|[p c] files IH]; cbn [filter]; [reflexivity|].
  cbn [fst snd].
  rewrite IH by (intros p' c' Hin; apply H; now right).
  destruct (should_analyze_file cls p) eqn:Hext; [|reflexivity].
  destruct (H p c (or_introl eq_refl) Hext) as [e ->]. reflexivity.
Qed.

(** One stanza writes its category and no other. *)
Lemma aggregate_one_get fm (ms ms' : metrics_t) category leaf target c :
  aggregate_one fm (Returns ms) (category, leaf, target) = Returns ms' ->
  get c ms'
  = if String.eqb c category then
      match get category ms with
      | Some old =>
          Some (match category_mean category leaf fm with
                | Some v => set target v old
                | None => old
                end)
      | None => None
      end
    else get c ms.
Proof.
  unfold aggregate_one, category_mean. cbn [bind].
  destruct (scores_of category leaf fm) as [|x xs] eqn:Hscores.
  - intros [= <-]. destruct (String.eqb_spec c category) as [->|_];
      [|reflexivity].
    now destruct (get category ms).
  - unfold setitem2. destruct (@get leaves category ms) as [old|] eqn:Hold;
      [|discriminate].
    intros [= <-]. destruct (String.eqb_spec c category) as [->|Hne].
    + now rewrite get_set_same.
    + now rewrite get_set_other.
Qed.

(** The stanzas of distinct categories: each category is written by its
    stanza, once. *)
Lemma aggregate_fold_get fm (sts : list (string * string * string)) :
  forall ms ms' : metrics_t,
    NoDup (map (fun st => fst (fst st)) sts) ->
    fold_left (aggregate_one fm) sts (Returns ms) = Returns ms' ->
    (forall c, ~ In c (map (fun st => fst (fst st)) sts) ->
               get c ms' = get c ms)
    /\ forall category leaf target old,
         In (category, leaf, target) sts ->
         get category ms = Some old ->
         get category ms'
         = Some (match category_mean category leaf fm with
                 | Some v => set target v old
                 | None => old
                 end).
Proof.
  induction sts as [|[[c0 l0] t0] sts IH]; intros ms ms' Hnd Hfold.
  - cbn in Hfold. injection Hfold as <-. split; [reflexivity|].
    intros ? ? ? ? [].
  - cbn [fold_left] in Hfold. cbn [map fst] in Hnd.
    inversion Hnd as [|? ? Hc0 Hnd']; subst.
    destruct (aggregate_one fm (Returns ms) (c0, l0, t0)) as [ms1|e] eqn:Hone.
    2:{ rewrite aggregate_fold_raises in Hfold. discriminate. }
    destruct (IH ms1 ms' Hnd' Hfold) as [Hframe Hwrite].
    pose proof (aggregate_one_get fm ms ms1 c0 l0 t0) as Hget.
    split.
    + intros c Hc. cbn [map fst In] in Hc.
      rewrite Hframe by tauto. rewrite (Hget c Hone).
      destruct (String.eqb_spec c c0); [subst; tauto|reflexivity].
    + intros category leaf target old [[= -> -> ->]|Hin] Hold.
      * rewrite (Hframe category Hc0), (Hget category Hone).
        now rewrite String.eqb_refl, Hold.
      * apply (Hwrite category leaf target old Hin).
        rewrite (Hget category Hone).
        destruct (String.eqb_spec category c0) as [->|_]; [|exact Hold].
        exfalso. apply Hc0. apply in_map_iff.
        exists (c0, leaf, target). split; [reflexivity|exact Hin].
Qed.

Lemma stanzas_nodup : NoDup (map (fun st => fst (fst st)) stanzas).
Proof.
  cbn. repeat (constructor; [cbn; intuition discriminate|]). constructor.
Qed.

(** What [analyze_files] leaves in [self.metrics]: the stanzas applied
    to the results of the files. *)
Lemma analyze_files_fold cls self files ms self' :
  analyze_files cls self files = Returns (ms, self') ->
  ms = metrics self'
  /\ fold_left (aggregate_one (collected cls files)) stanzas
               (Returns (metrics self))
     = Returns (metrics self').
Proof.
  unfold analyze_files. rewrite analyze_loop. cbn [file_metrics app].
  destruct (collected cls files) as [|m fm].
  - cbn. intros [= <- <-]. cbn. auto.
  - unfold aggregate_metrics. cbn [metrics].
    destruct (fold_left (aggregate_one (m :: fm)) stanzas
                        (Returns (metrics self))) as [ms1|e];
      cbn [bind]; [|discriminate].
    intros [= <- <-]. cbn. auto.
Qed.

Lemma analyze_files_analyzed cls self (files : dict string) :
  analyze_files cls self files = analyze_files cls self (analyzed cls files).
Proof.
  unfold analyze_files. now rewrite analyze_loop_analyzed.
Qed.

(** The score of a category that holds the mean of its stanza, or
    nothing. *)
Lemma category_score_fresh (ms : metrics_t) fm category leaf target w :
  get category ms
  = Some (match category_mean category leaf fm with
          | Some v => set target v []
          | None => []
          end) ->
  (sumQ (category_score ms (category, w))
   == match category_mean category leaf fm with
      | Some v => v * w
      | None => 0
      end)%Q.
Proof.
  intros Hget. unfold category_score, get_category, get_default.
  rewrite Hget. destruct (category_mean category leaf fm) as [v|].
  - cbn [set values map snd]. unfold sumQ, llen. cbn [fold_left List.length].
    change (inject_Z (Z.of_nat 1)) with 1%Q. field.
  - reflexivity.
Qed.

End BaseFacts.

Module BaseProperties.

Import Py LanguageAnalyzer BaseSpec BaseNotions Samples DictFacts
       LanguageAnalyzerFacts ScoreFacts BaseFacts.
Local Open Scope string_scope.
Local Open Scope list_scope.
Local Open Scope Z_scope.

(** X11: [analyze_files] sees only the files it analyzes. The files
    whose path does not end with an extension of the class, and the files
    on which [analyze_file] raises, can be taken out of the map: the result
    and the instance are the same. *)
Theorem analyze_files_sees_analyzed_files_only (cls : class) (self : t)
  (files : dict string) :
  analyze_files cls self files = analyze_files cls self (analyzed cls files).
Proof.
  exact (analyze_files_analyzed cls self files).
Qed.

(** X12: an exception of [analyze_file] never leaves [analyze_files]. When
    [analyze_file] raises on every file of the map that has an extension of
    the class, [analyze_files] returns the metrics of the instance and
    leaves the instance, its counters included, as it was. *)
Theorem failing_files_leave_the_instance (cls : class) (self : t)
  (files : dict string) :
  (forall p c, In (p, c) files -> should_analyze_file cls p = true ->
               exists e, analyze_file cls p c = Raises e) ->
  analyze_files cls self files = Returns (metrics self, self).
Proof.
  intros Hfail. rewrite analyze_files_analyzed.
  rewrite (analyzed_none cls files Hfail). destruct self as [ms n l].
  reflexivity.
Qed.

(** A file that cannot be parsed and a file of another language. *)
Lemma failing_files_leave_the_instance_witness :
  analyze_files FailingAnalyzer init [("a.mylang", "x"); ("b.txt", "y")]
  = Returns (metrics init, init).
Proof.
  apply (failing_files_leave_the_instance FailingAnalyzer init
           [("a.mylang", "x"); ("b.txt", "y")]).
  intros p c _ _. eexists. reflexivity.
Defined.

(** X13: on an instance that has the eight categories, [analyze_files]
    returns, and every category is what its stanza of [aggregate_metrics]
    makes of it: when a file analyzed reports the category, the leaf of the
    stanza is set to the mean, over the files that report the category, of
    the leaf read (0 for a file that lacks the leaf); when none does, the
    category keeps what it held before the call. *)
Theorem analyze_files_category_means (cls : class) (self : t)
  (files : dict string) :
  keys (metrics self) = categories ->
  exists self',
    analyze_files cls self files = Returns (metrics self', self')
    /\ forall category leaf target old,
         In (category, leaf, target) stanzas ->
         get category (metrics self) = Some old ->
         get category (metrics self')
         = Some (match category_mean category leaf (collected cls files) with
                 | Some v => set target v old
                 | None => old
                 end).
Proof.
  intros Hk.
  destruct (analyze_files_spec cls self files Hk) as (self' & Hrun & _).
  exists self'. split; [exact Hrun|].
  destruct (analyze_files_fold cls self files _ _ Hrun) as [_ Hfold].
  exact (proj2 (aggregate_fold_get _ _ _ _ stanzas_nodup Hfold)).
Qed.

(** Two files whose leaves are ratios, on a fresh instance. *)
Lemma analyze_files_category_means_witness :
  exists self',
    analyze_files RatioAnalyzer init [("a.mylang", "x"); ("b.mylang", "y")]
    = Returns (metrics self', self')
    /\ forall category leaf target old,
         In (category, leaf, target) stanzas ->
         get category (metrics init) = Some old ->
         get category (metrics self')
         = Some (match category_mean category leaf
                         (collected RatioAnalyzer
                            [("a.mylang", "x"); ("b.mylang", "y")]) with
                 | Some v => set target v old
                 | None => old
                 end).
Proof.
  apply (analyze_files_category_means RatioAnalyzer init
           [("a.mylang", "x"); ("b.mylang", "y")]).
  reflexivity.
Defined.

(** X14: the empathy score after [analyze_files] on a fresh instance is
    the sum, over the categories that a file analyzed reports, of the
    weight of the category times the mean of the leaf of its stanza: a
    category that no file reports adds nothing, and the weights of the
    categories reported are not rescaled. *)
Theorem fresh_empathy_score (cls : class) (files : dict string) :
  exists self,
    analyze_files cls init files = Returns (metrics self, self)
    /\ (calculate_empathy_score self
        == sumQ (map (stanza_score (collected cls files)) stanzas))%Q.
Proof.
  destruct (analyze_files_spec cls init files init_keys)
    as (self & Hrun & _).
  exists self. split; [exact Hrun|].
  destruct (analyze_files_fold cls init files _ _ Hrun) as [_ Hfold].
  destruct (aggregate_fold_get _ _ _ _ stanzas_nodup Hfold) as [_ Hget].
  set (fm := collected cls files) in *.
  assert (Hcat : forall category leaf target w,
             In (category, leaf, target) stanzas ->
             In category categories ->
             (sumQ (category_score (metrics self) (category, w))
              == match category_mean category leaf fm with
                 | Some v => v * w
                 | None => 0
                 end)%Q).
  { intros category leaf target w Hst Hin.
    apply (category_score_fresh _ fm category leaf target).
    apply (Hget category leaf target [] Hst).
    cbn in Hin. cbn.
    repeat (destruct Hin as [<-|Hin]; [reflexivity|]). destruct Hin. }
  rewrite calculate_empathy_score_sum. unfold weights.
  cbn [flat_map]. rewrite !sumQ_app.
  rewrite (Hcat "nombres" "descriptividad" "descriptividad")
    by (cbn; tauto).
  rewrite (Hcat "documentacion" "cobertura" "cobertura_docstrings")
    by (cbn; tauto).
  rewrite (Hcat "modularidad" "funciones" "funciones_por_archivo")
    by (cbn; tauto).
  rewrite (Hcat "complejidad" "ciclomatica" "complejidad_ciclomatica")
    by (cbn; tauto).
  rewrite (Hcat "manejo_errores" "cobertura" "cobertura_manejo_errores")
    by (cbn; tauto).
  rewrite (Hcat "pruebas" "cobertura" "cobertura_pruebas")
    by (cbn; tauto).
  rewrite (Hcat "seguridad" "validacion" "validacion_entradas")
    by (cbn; tauto).
  rewrite (Hcat "consistencia_estilo" "consistencia" "consistencia_nombres")
    by (cbn; tauto).
  unfold stanzas. cbn [map]. unfold stanza_score.
  change (get_default "nombres" 0%Q weights) with (15 # 100)%Q.
  change (get_default "documentacion" 0%Q weights) with (15 # 100)%Q.
  change (get_default "modularidad" 0%Q weights) with (15 # 100)%Q.
  change (get_default "complejidad" 0%Q weights) with (15 # 100)%Q.
  change (get_default "manejo_errores" 0%Q weights) with (10 # 100)%Q.
  change (get_default "pruebas" 0%Q weights) with (10 # 100)%Q.
  change (get_default "seguridad" 0%Q weights) with (10 # 100)%Q.
  change (get_default "consistencia_estilo" 0%Q weights) with (10 # 100)%Q.
  unfold sumQ. cbn [fold_left]. ring.
Qed.

End BaseProperties.

(** ** The TypeScript analyzer *)

Module TypeScriptFacts.

Import Py LanguageAnalyzer TypeScriptAnalyzer TypeScriptNotions DictFacts
       KeyFacts.
Local Open Scope string_scope.
Local Open Scope list_scope.
Local Open Scope Z_scope.

Section Facts.

Variable finditer : string -> string -> list re_match.
Variable super_analyze_file : string -> string -> outcome metrics_t.
Variable super_extract_functions : string -> list function_info.

(** The two assignments of [analyze_file] on a mapping that agrees with
    the base result on the two categories. *)
Lemma bonus_steps (coverage : Q) (m0 base : metrics_t) :
  @get leaves "documentacion" m0 = get "documentacion" base ->
  @get leaves "seguridad" m0 = get "seguridad" base ->
  bind (match (coverage ?= 7 # 10)%Q with
        | Gt =>
            setitem2 "documentacion" "cobertura"
              (min1 (current "documentacion" "cobertura" m0 + (2 # 10)))%Q m0
        | _ => Returns m0
        end)
    (fun m =>
       setitem2 "seguridad" "validacion"
         (min1 (current "seguridad" "validacion" m
                + coverage * (2 # 10)))%Q m)
  = bind (match (coverage ?= 7 # 10)%Q with
          | Gt =>
              match get "documentacion" base with
              | Some doc =>
                  Returns
                    (set "documentacion"
                         (set "cobertura"
                              (min1 (current "documentacion" "cobertura" base
                                     + (2 # 10)))%Q doc) m0)
              | None => Raises (key_error "documentacion")
              end
          | _ => Returns m0
          end)
      (fun m1 =>
         match get "seguridad" base with
         | Some sec =>
             Returns
               (set "seguridad"
                    (set "validacion"
                         (min1 (current "seguridad" "validacion" base
                                + coverage * (2 # 10)))%Q sec) m1)
         | None => Raises (key_error "seguridad")
         end).
Proof.
  intros Hdoc0 Hsec0.
  assert (Hcur_doc : current "documentacion" "cobertura" m0
                     = current "documentacion" "cobertura" base).
  { unfold current, get_category, get_default. now rewrite Hdoc0. }
  assert (Hcur_sec : current "seguridad" "validacion" m0
                     = current "seguridad" "validacion" base).
  { unfold current, get_category, get_default. now rewrite Hsec0. }
  destruct (coverage ?= 7 # 10)%Q.
  - cbn [bind]. unfold setitem2. rewrite Hsec0, Hcur_sec.
    now destruct (@get leaves "seguridad" base).
  - cbn [bind]. unfold setitem2. rewrite Hsec0, Hcur_sec.
    now destruct (@get leaves "seguridad" base).
  - unfold setitem2 at 1. rewrite Hdoc0, Hcur_doc.
    destruct (@get leaves "documentacion" base) as [doc|]; [|reflexivity].
    cbn [bind].
    remember (set "documentacion"
                  (set "cobertura"
                       (min1 (current "documentacion" "cobertura" base
                              + (2 # 10)))%Q doc) m0) as m1 eqn:Hm1.
    assert (Hsec1 : @get leaves "seguridad" m1 = get "seguridad" base).
    { rewrite Hm1. now rewrite get_set_other by discriminate. }
    assert (Hcur1 : current "seguridad" "validacion" m1
                    = current "seguridad" "validacion" base).
    { unfold current, get_category, get_default. now rewrite Hsec1. }
    unfold setitem2. rewrite Hsec1, Hcur1.
    now destruct (@get leaves "seguridad" base).
Qed.

(** [analyze_file] after the base analysis has returned: the two
    assignments read and write the categories of the base result. *)
Lemma analyze_file_result (file_path content : string) (base : metrics_t) :
  super_analyze_file file_path content = Returns base ->
  let coverage :=
    calculate_type_coverage finditer super_extract_functions content in
  let m0 :=
    set "typescript"
        (typescript_leaves finditer super_extract_functions content) base in
  analyze_file finditer super_analyze_file super_extract_functions
               file_path content
  = bind (match (coverage ?= 7 # 10)%Q with
          | Gt =>
              match get "documentacion" base with
              | Some doc =>
                  Returns
                    (set "documentacion"
                         (set "cobertura"
                              (min1 (current "documentacion" "cobertura" base
                                     + (2 # 10)))%Q doc) m0)
              | None => Raises (key_error "documentacion")
              end
          | _ => Returns m0
          end)
      (fun m1 =>
         match get "seguridad" base with
         | Some sec =>
             Returns
               (set "seguridad"
                    (set "validacion"
                         (min1 (current "seguridad" "validacion" base
                                + coverage * (2 # 10)))%Q sec) m1)
         | None => Raises (key_error "seguridad")
         end).
Proof.
  intros Hsuper. cbv zeta. unfold analyze_file. rewrite Hsuper. cbn [bind].
  apply bonus_steps; now rewrite get_set_other by discriminate.
Qed.

(** The first loop of [_calculate_type_coverage] counts no more typed
    parameters than parameters. *)
Lemma count_param_fold (params : list string) : forall acc : Z * Z,
  0 <= fst acc <= snd acc ->
  let acc' :=
    fold_left (fun acc param =>
                 (fst acc + (if has_char ":" param then 1 else 0),
                  snd acc + 1))
              params acc in
  0 <= fst acc' <= snd acc'.
Proof.
  induction params as [|param params IH]; intros acc Hacc; cbn [fold_left];
    [exact Hacc|].
  apply IH. cbn [fst snd]. destruct (has_char ":" param); lia.
Qed.

Lemma count_params_fold (ms : list re_match) : forall acc : Z * Z,
  0 <= fst acc <= snd acc ->
  0 <= fst (fold_left count_params ms acc)
    <= snd (fold_left count_params ms acc).
Proof.
  induction ms as [|m ms IH]; intros acc Hacc; cbn [fold_left];
    [exact Hacc|].
  apply IH. unfold count_params.
  destruct (truthy (strip (m_group1 m))); [|exact Hacc].
  now apply count_param_fold.
Qed.

Lemma type_coverage_nonneg content :
  (0 <= calculate_type_coverage finditer super_extract_functions content)%Q.
Proof.
  unfold calculate_type_coverage.
  pose proof (count_params_fold (finditer param_pattern content) (0, 0))
    as Hfold.
  destruct (fold_left count_params (finditer param_pattern content) (0, 0))
    as [typed total].
  cbn [fst snd] in Hfold. specialize (Hfold ltac:(lia)).
  match goal with
  | |- context [if 0 <? ?t then _ else _] =>
      destruct (Z.ltb_spec 0 t) as [Hpos|_]; [|apply Qle_refl]
  end.
  unfold findall_count in *.
  pose proof (llen_nonneg (finditer var_pattern content)).
  pose proof (llen_nonneg (finditer return_type_pattern content)).
  apply Qle_shift_div_l.
  - rewrite <- (Zlt_Qlt 0). exact Hpos.
  - rewrite Qmult_0_l. rewrite <- (Zle_Qle 0). lia.
Qed.

End Facts.

Lemma min1_bounds (x b : Q) :
  (x <= 1 -> 0 <= b -> x <= min1 (x + b) <= 1)%Q.
Proof.
  intros Hx Hb. unfold min1.
  destruct (Qcompare_spec (x + b) 1) as [H|H|H]; lra.
Qed.

Lemma current_set category leaf v d (m : metrics_t) :
  current category leaf (set category (set leaf v d) m) = v.
Proof.
  unfold current, get_category, get_default.
  now rewrite get_set_same, get_set_same.
Qed.

Lemma current_set_other category category' leaf d (m : metrics_t) :
  category <> category' ->
  current category leaf (set category' d m) = current category leaf m.
Proof.
  intros Hne. unfold current, get_category, get_default.
  now rewrite get_set_other.
Qed.




End TypeScriptFacts.

Module TypeScriptProperties.

Import Py LanguageAnalyzer TypeScriptAnalyzer TypeScriptNotions Samples
       DictFacts KeyFacts TypeScriptFacts.
Local Open Scope string_scope.
Local Open Scope list_scope.
Local Open Scope Z_scope.

(** X15: the defaults of the two reads do not protect the two writes.
    When the base JavaScript analysis returns metrics without the category
    [seguridad], or without [documentacion] while the type coverage is
    above 0.7, [analyze_file] raises the [KeyError] of that category. *)
Theorem missing_category_raises_key_error
  (finditer : string -> string -> list re_match)
  (super_analyze_file : string -> string -> outcome metrics_t)
  (super_extract_functions : string -> list function_info)
  (file_path content : string) (base : metrics_t) :
  super_analyze_file file_path content = Returns base ->
  get "seguridad" base = None
  \/ ((7 # 10
       < calculate_type_coverage finditer super_extract_functions content)%Q
      /\ get "documentacion" base = None) ->
  exists category,
    (category = "documentacion" \/ category = "seguridad")
    /\ get category base = None
    /\ analyze_file finditer super_analyze_file super_extract_functions
                    file_path content
       = Raises (key_error category).
Proof.
  intros Hsuper Hmissing.
  rewrite (analyze_file_result _ _ _ _ _ _ Hsuper).
  destruct (calculate_type_coverage finditer super_extract_functions content
            ?= 7 # 10)%Q eqn:Hcmp.
  - destruct Hmissing as [Hsec|[Hlt _]].
    + exists "seguridad". rewrite Hsec. cbn [bind]. auto.
    + apply Qgt_alt in Hlt. congruence.
  - destruct Hmissing as [Hsec|[Hlt _]].
    + exists "seguridad". rewrite Hsec. cbn [bind]. auto.
    + apply Qgt_alt in Hlt. congruence.
  - destruct (@get leaves "documentacion" base) as [doc|] eqn:Hdoc.
    + destruct Hmissing as [Hsec|[_ Hnone]]; [|discriminate].
      exists "seguridad". rewrite Hsec. cbn [bind]. auto.
    + exists "documentacion". cbn [bind]. auto.
Qed.

(** A typed file whose base result has the category [nombres] only. *)
Lemma missing_category_raises_key_error_witness :
  exists category,
    (category = "documentacion" \/ category = "seguridad")
    /\ get category names_only = None
    /\ analyze_file typed_ts_finditer (fun _ _ => Returns names_only)
                    (fun _ => []) "typed.ts" typed_ts
       = Raises (key_error category).
Proof.
  apply (missing_category_raises_key_error typed_ts_finditer
           (fun _ _ => Returns names_only) (fun _ => [])
           "typed.ts" typed_ts names_only eq_refl).
  left. reflexivity.
Defined.

(** X16: what [analyze_file] returns differs from the result of the
    base JavaScript analysis in three categories at most: it holds the
    category [typescript] with the type coverage and the three counts,
    every category but [typescript], [documentacion] and [seguridad] is as
    the base analysis returned it, and [typescript] is the only category
    that can be new. *)
Theorem analyze_file_touches_three_categories
  (finditer : string -> string -> list re_match)
  (super_analyze_file : string -> string -> outcome metrics_t)
  (super_extract_functions : string -> list function_info)
  (file_path content : string) (m : metrics_t) :
  analyze_file finditer super_analyze_file super_extract_functions
               file_path content = Returns m ->
  exists base,
    super_analyze_file file_path content = Returns base
    /\ get "typescript" m
       = Some (typescript_leaves finditer super_extract_functions content)
    /\ (forall category,
          category <> "typescript" -> category <> "documentacion" ->
          category <> "seguridad" ->
          get category m = get category base)
    /\ (forall category,
          In category (keys m)
          <-> category = "typescript" \/ In category (keys base)).
Proof.
  intros Hrun.
  destruct (super_analyze_file file_path content) as [base|e] eqn:Hsuper.
  2:{ unfold analyze_file in Hrun. rewrite Hsuper in Hrun. discriminate. }
  exists base. split; [reflexivity|].
  rewrite (analyze_file_result _ _ _ _ _ _ Hsuper) in Hrun.
  destruct (@get leaves "seguridad" base) as [sec|] eqn:Hsec.
  2:{ destruct (_ ?= _)%Q; cbn [bind] in Hrun; try discriminate.
      destruct (@get leaves "documentacion" base); discriminate. }
  pose proof (get_some_keys _ _ _ Hsec) as Hsec_in.
  destruct (calculate_type_coverage finditer super_extract_functions content
            ?= 7 # 10)%Q.
  - cbn [bind] in Hrun. injection Hrun as <-.
    split; [now rewrite get_set_other, get_set_same by discriminate|].
    split.
    + intros category H1 H2 H3. now rewrite !get_set_other by congruence.
    + intros category. rewrite !in_keys_set_iff.
      split; [intros [->|H]; auto|tauto].
  - cbn [bind] in Hrun. injection Hrun as <-.
    split; [now rewrite get_set_other, get_set_same by discriminate|].
    split.
    + intros category H1 H2 H3. now rewrite !get_set_other by congruence.
    + intros category. rewrite !in_keys_set_iff.
      split; [intros [->|H]; auto|tauto].
  - destruct (@get leaves "documentacion" base) as [doc|] eqn:Hdoc;
      [|discriminate].
    pose proof (get_some_keys _ _ _ Hdoc) as Hdoc_in.
    cbn [bind] in Hrun. injection Hrun as <-.
    split; [now rewrite !get_set_other, get_set_same by discriminate|].
    split.
    + intros category H1 H2 H3. now rewrite !get_set_other by congruence.
    + intros category. rewrite !in_keys_set_iff.
      split; [intros [->|[->|H]]; auto|tauto].
Qed.

(** The typed file of the samples. *)
Lemma analyze_file_touches_three_categories_witness :
  exists base,
    Returns app_ts_base = Returns base
    /\ get "typescript" typed_ts_result
       = Some (typescript_leaves typed_ts_finditer (fun _ => []) typed_ts)
    /\ (forall category,
          category <> "typescript" -> category <> "documentacion" ->
          category <> "seguridad" ->
          get category typed_ts_result = get category base)
    /\ (forall category,
          In category (keys typed_ts_result)
          <-> category = "typescript" \/ In category (keys base)).
Proof.
  apply (analyze_file_touches_three_categories typed_ts_finditer
           (fun _ _ => Returns app_ts_base) (fun _ => [])
           "typed.ts" typed_ts typed_ts_result).
  vm_compute. reflexivity.
Defined.

(** X17: the type coverage is never negative, so the two bonuses never
    lower a score: when the base JavaScript analysis returns metrics with
    the categories [documentacion] and [seguridad] whose scores are at most
    1, [analyze_file] returns metrics in which each of the two scores is
    at least what it was, and at most 1. *)
Theorem type_bonus_never_lowers
  (finditer : string -> string -> list re_match)
  (super_analyze_file : string -> string -> outcome metrics_t)
  (super_extract_functions : string -> list function_info)
  (file_path content : string) (base : metrics_t) (doc sec : leaves) :
  super_analyze_file file_path content = Returns base ->
  get "documentacion" base = Some doc ->
  get "seguridad" base = Some sec ->
  (current "documentacion" "cobertura" base <= 1)%Q ->
  (current "seguridad" "validacion" base <= 1)%Q ->
  exists m,
    analyze_file finditer super_analyze_file super_extract_functions
                 file_path content = Returns m
    /\ (0 <= calculate_type_coverage finditer super_extract_functions
                                     content)%Q
    /\ (current "documentacion" "cobertura" base
        <= current "documentacion" "cobertura" m <= 1)%Q
    /\ (current "seguridad" "validacion" base
        <= current "seguridad" "validacion" m <= 1)%Q.
Proof.
  intros Hsuper Hdoc Hsec Hdoc1 Hsec1.
  pose proof (type_coverage_nonneg finditer super_extract_functions content)
    as Hcov.
  rewrite (analyze_file_result _ _ _ _ _ _ Hsuper), Hdoc, Hsec.
  assert (Hbonus : (0 <= calculate_type_coverage finditer
                            super_extract_functions content * (2 # 10))%Q).
  { apply Qmult_le_0_compat; [exact Hcov|discriminate]. }
  pose proof (min1_bounds _ _ Hsec1 Hbonus) as Hnew_sec.
  assert (Hbonus_doc : (0 <= 2 # 10)%Q) by discriminate.
  pose proof (min1_bounds _ _ Hdoc1 Hbonus_doc) as Hnew_doc.
  destruct (calculate_type_coverage finditer super_extract_functions content
            ?= 7 # 10)%Q; cbn [bind]; eexists; (split; [reflexivity|]);
    (split; [exact Hcov|]); rewrite current_set;
    (split; [|exact Hnew_sec]).
  - rewrite !current_set_other by discriminate.
    split; [apply Qle_refl|exact Hdoc1].
  - rewrite !current_set_other by discriminate.
    split; [apply Qle_refl|exact Hdoc1].
  - rewrite current_set_other by discriminate. rewrite current_set.
    exact Hnew_doc.
Qed.

(** The typed file of the samples: 0.5 becomes 0.7 in both categories. *)
Lemma type_bonus_never_lowers_witness :
  exists m,
    analyze_file typed_ts_finditer (fun _ _ => Returns app_ts_base)
                 (fun _ => []) "typed.ts" typed_ts = Returns m
    /\ (0 <= calculate_type_coverage typed_ts_finditer (fun _ => [])
                                     typed_ts)%Q
    /\ (current "documentacion" "cobertura" app_ts_base
        <= current "documentacion" "cobertura" m <= 1)%Q
    /\ (current "seguridad" "validacion" app_ts_base
        <= current "seguridad" "validacion" m <= 1)%Q.
Proof.
  apply (type_bonus_never_lowers typed_ts_finditer
           (fun _ _ => Returns app_ts_base) (fun _ => [])
           "typed.ts" typed_ts app_ts_base
           [("cobertura", 1 # 2)]%Q [("validacion", 1 # 2)]%Q
           eq_refl eq_refl eq_refl);
    vm_compute; intros H; discriminate H.
Defined.



End TypeScriptProperties.

(** ** The factory *)

Module RegistryFacts.

Import Py LanguageAnalyzer AnalyzerFactory FactoryNotions DictFacts
       KeyFacts.
Local Open Scope string_scope.
Local Open Scope list_scope.
Local Open Scope Z_scope.

Lemma get_analyzer_for_file_language {Cls} (reg : registry Cls) file_path :
  get_analyzer_for_file reg file_path
  = match language_of_path reg file_path with
    | Some language => get_analyzer reg language
    | None => None
    end.
Proof.
  unfold get_analyzer_for_file, language_of_path.
  destruct (splitext file_path) as [root ext]. cbn [snd].
  destruct (get (lower ext) (extension_map reg)) as [l|]; [|reflexivity].
  now destruct (truthy l).
Qed.

(** In a registry whose extension map names registered languages only, the
    paths with an analyzer are the paths with a supported extension. *)
Lemma consistent_dispatch {Cls} (reg : registry Cls) file_path :
  consistent reg = true ->
  (exists cls, get_analyzer_for_file reg file_path = Some cls)
  <-> In (lower (snd (splitext file_path))) (get_supported_extensions reg).
Proof.
  intros Hcons. unfold consistent in Hcons. rewrite forallb_forall in Hcons.
  rewrite get_analyzer_for_file_language. unfold language_of_path.
  unfold get_supported_extensions.
  destruct (get (lower (snd (splitext file_path))) (extension_map reg))
    as [l|] eqn:Hget.
  - pose proof (get_some_keys _ _ _ Hget) as Hin. split; [auto|intros _].
    assert (Hl : In l (values (extension_map reg))).
    { apply get_some_in in Hget. apply in_map_iff.
      eexists. split; [|exact Hget]. reflexivity. }
    specialize (Hcons l Hl). apply andb_prop in Hcons.
    destruct Hcons as [-> Hreg].
    destruct (get_analyzer reg l) as [cls|]; [eauto|discriminate].
  - pose proof (get_none_keys _ _ Hget) as Hnot. split; [|tauto].
    intros [cls Hcls]. discriminate.
Qed.

(** *** Counting the languages *)

Lemma count_language_language {Cls} (reg : registry Cls) (counts : dict Z)
  file_path :
  count_language reg counts file_path
  = match language_of_path reg file_path with
    | Some language =>
        set language (get_default language 0 counts + 1) counts
    | None => counts
    end.
Proof.
  unfold count_language, language_of_path.
  destruct (get (lower (snd (splitext file_path))) (extension_map reg))
    as [l|]; [|reflexivity].
  now destruct (truthy l).
Qed.

Lemma count_of_cons {Cls} (reg : registry Cls) l p paths :
  count_of reg l (p :: paths)
  = (match language_of_path reg p with
     | Some l' => if String.eqb l' l then 1 else 0
     | None => 0
     end) + count_of reg l paths.
Proof.
  unfold count_of. cbn [filter].
  destruct (language_of_path reg p) as [l'|]; [|lia].
  destruct (String.eqb l' l); [rewrite llen_cons|]; lia.
Qed.

Lemma count_of_nonneg {Cls} (reg : registry Cls) l paths :
  0 <= count_of reg l paths.
Proof. apply llen_nonneg. Qed.

Lemma count_of_in {Cls} (reg : registry Cls) l p paths :
  In p paths -> language_of_path reg p = Some l ->
  1 <= count_of reg l paths.
Proof.
  intros Hin Hl. induction paths as [|q paths IH]; [destruct Hin|].
  rewrite count_of_cons. pose proof (count_of_nonneg reg l paths).
  destruct Hin as [->|Hin].
  - rewrite Hl, String.eqb_refl. lia.
  - specialize (IH Hin). destruct (language_of_path reg q) as [l'|]; [|lia].
    destruct (String.eqb l' l); lia.
Qed.

Lemma get_default_set (counts : dict Z) l l' v :
  get_default l 0 (set l' v counts)
  = if String.eqb l l' then v else get_default l 0 counts.
Proof.
  unfold get_default. destruct (String.eqb_spec l l') as [->|Hne].
  - now rewrite get_set_same.
  - now rewrite get_set_other.
Qed.

(** The loop of [detect_primary_language] counts, for every language, the
    paths that the extension map gives it. *)
Lemma count_languages {Cls} (reg : registry Cls) (paths : list string) :
  forall counts : dict Z,
    NoDup (keys counts) ->
    (forall l, In l (keys counts) -> 1 <= get_default l 0 counts) ->
    NoDup (keys (fold_left (count_language reg) paths counts))
    /\ (forall l,
          get_default l 0 (fold_left (count_language reg) paths counts)
          = get_default l 0 counts + count_of reg l paths)
    /\ (forall l,
          In l (keys (fold_left (count_language reg) paths counts)) ->
          1 <= get_default l 0 (fold_left (count_language reg) paths counts)).
Proof.
  induction paths as [|p paths IH]; intros counts Hnd Hpos; cbn [fold_left].
  - split; [exact Hnd|]. split; [|exact Hpos].
    intros l. unfold count_of, llen. cbn. lia.
  - rewrite count_language_language.
    destruct (language_of_path reg p) as [l0|] eqn:Hl0.
    + destruct (IH (set l0 (get_default l0 0 counts + 1) counts))
        as (Hnd' & Hget & Hpos').
      * now apply NoDup_keys_set.
      * intros l Hin. rewrite get_default_set.
        destruct (String.eqb_spec l l0) as [->|Hne].
        -- assert (0 <= get_default l0 0 counts); [|lia].
           unfold get_default.
           destruct (get l0 counts) as [n|] eqn:Hn; [|lia].
           pose proof (Hpos l0 (get_some_keys _ _ _ Hn)) as Hone.
           unfold get_default in Hone. rewrite Hn in Hone. lia.
        -- apply Hpos. apply in_keys_set in Hin. tauto.
      * split; [exact Hnd'|]. split; [|exact Hpos'].
        intros l. rewrite Hget, get_default_set, count_of_cons, Hl0.
        rewrite (String.eqb_sym l0 l).
        destruct (String.eqb_spec l l0) as [->|_]; lia.
    + destruct (IH counts Hnd Hpos) as (Hnd' & Hget & Hpos').
      split; [exact Hnd'|]. split; [|exact Hpos'].
      intros l. rewrite Hget, count_of_cons, Hl0. lia.
Qed.

End RegistryFacts.

Module RegistryProperties.

Import Py LanguageAnalyzer AnalyzerFactory FactoryNotions DictFacts
       RegistryFacts.
Local Open Scope string_scope.
Local Open Scope list_scope.
Local Open Scope Z_scope.

(** X19: [register_analyzer] and [get_analyzer] agree up to the case of
    the name: after a class is registered for a language, [get_analyzer]
    finds it under every name that is the same in lower case and answers
    as before for every other name; the supported extensions are as they
    were, the supported languages are the ones there were and the
    lower-case name; and a file whose extension the map gives to that
    language, under any spelling, is dispatched to the class from then
    on. *)
Theorem register_then_get {Cls : Type} (reg : registry Cls)
  (language : string) (analyzer_class : Cls) :
  let reg' := register_analyzer reg language analyzer_class in
  (forall name,
     get_analyzer reg' name
     = if String.eqb (lower name) (lower language)
       then Some analyzer_class else get_analyzer reg name)
  /\ get_supported_extensions reg' = get_supported_extensions reg
  /\ (forall l, In l (get_supported_languages reg')
                <-> l = lower language \/ In l (get_supported_languages reg))
  /\ (forall file_path l,
        language_of_path reg file_path = Some l ->
        lower l = lower language ->
        get_analyzer_for_file reg' file_path = Some analyzer_class).
Proof.
  cbv zeta. split; [|split; [reflexivity|split]].
  - intros name. unfold get_analyzer, register_analyzer. cbn [analyzers].
    destruct (String.eqb_spec (lower name) (lower language)) as [->|Hne].
    + apply get_set_same.
    + now apply get_set_other.
  - intros l. unfold get_supported_languages, register_analyzer.
    cbn [analyzers]. split; [apply in_keys_set|apply keys_set_in].
  - intros file_path l Hl Hsame.
    rewrite get_analyzer_for_file_language.
    unfold language_of_path in *. cbn [register_analyzer extension_map].
    rewrite Hl. unfold get_analyzer. cbn [analyzers]. rewrite Hsame.
    apply get_set_same.
Qed.

(** X20: the two tables of the class body fit: every language that the
    extension map names is registered, so that [get_analyzer_for_file]
    finds an analyzer for a path exactly when the extension of the path,
    in lower case, is one of [get_supported_extensions]. *)
Theorem supported_extensions_are_dispatched (Cls : Type)
  (PythonAnalyzer JavaScriptAnalyzer TypeScriptAnalyzer JavaAnalyzer
   GoAnalyzer CSharpAnalyzer CppAnalyzer PHPAnalyzer RubyAnalyzer
   SwiftAnalyzer HTMLAnalyzer CSSAnalyzer : Cls) (file_path : string) :
  let builtin :=
    initial PythonAnalyzer JavaScriptAnalyzer TypeScriptAnalyzer JavaAnalyzer
            GoAnalyzer CSharpAnalyzer CppAnalyzer PHPAnalyzer RubyAnalyzer
            SwiftAnalyzer HTMLAnalyzer CSSAnalyzer in
  (exists cls, get_analyzer_for_file builtin file_path = Some cls)
  <-> In (lower (snd (splitext file_path)))
         (get_supported_extensions builtin).
Proof.
  cbv zeta. apply consistent_dispatch. reflexivity.
Qed.

(** X21: [detect_primary_language] returns a language that the extension
    map gives to the most paths of the map, and to one at least; it returns
    [None] exactly when the extension map gives no path a language. *)
Theorem detect_primary_language_is_most_common {Cls : Type}
  (reg : registry Cls) (files : dict string) :
  match detect_primary_language reg files with
  | Some language =>
      1 <= count_of reg language (keys files)
      /\ forall l, count_of reg l (keys files)
                   <= count_of reg language (keys files)
  | None => forall p, In p (keys files) -> language_of_path reg p = None
  end.
Proof.
  unfold detect_primary_language.
  destruct (count_languages reg (keys files) []) as (Hnd & Hget & Hpos);
    [constructor|intros l []|].
  set (counts := fold_left (count_language reg) (keys files) []) in *.
  assert (Hcount : forall l, get_default l 0 counts
                             = count_of reg l (keys files)).
  { intros l. rewrite Hget. reflexivity. }
  destruct (max_item counts) as [[language n]|] eqn:Hmax; cbn [option_map fst].
  - destruct (max_item_spec _ _ Hmax) as [Hin Hle].
    assert (Hn : n = count_of reg language (keys files)).
    { rewrite <- Hcount. unfold get_default.
      now rewrite (get_in_nodup _ _ _ Hnd Hin). }
    assert (Hkey : In language (keys counts)).
    { apply in_map_iff. exists (language, n). auto. }
    split; [rewrite <- Hcount; now apply Hpos|].
    intros l. rewrite <- Hn, <- Hcount. unfold get_default.
    destruct (get l counts) as [n'|] eqn:Hl.
    + exact (Hle _ (get_some_in _ _ _ Hl)).
    + specialize (Hpos language Hkey). rewrite Hcount, <- Hn in Hpos. lia.
  - intros p Hp. destruct (language_of_path reg p) as [l|] eqn:Hl;
      [|reflexivity].
    pose proof (count_of_in reg l p (keys files) Hp Hl) as Hone.
    rewrite <- Hcount in Hone.
    destruct counts; [cbn in Hone; lia|discriminate].
Qed.

End RegistryProperties.

(** ** Projects of several languages *)

Module ProjectFacts.

Import Py LanguageAnalyzer AnalyzerFactory BaseSpec FactorySpec
       FactoryNotions DictFacts LanguageAnalyzerFacts ScoreFacts
       FactoryFacts RegistryFacts.
Local Open Scope string_scope.
Local Open Scope list_scope.
Local Open Scope Z_scope.

(** *** The first loop *)

Lemma group_supported reg (files : dict string) :
  forall language_files : dict (dict string),
    fold_left (group_by_language reg) (filter (supported reg) files)
              language_files
    = fold_left (group_by_language reg) files language_files.
Proof.
  induction files as [|[p c] files IH]; intros lf; cbn [filter fold_left];
    [reflexivity|].
  unfold supported at 1. cbn [fst]. unfold group_by_language at 3.
  destruct (get_analyzer_for_file reg p) as [cls|] eqn:Hcls;
    [|apply IH].
  cbn [fold_left]. unfold group_by_language at 2. rewrite Hcls. apply IH.
Qed.

Lemma group_by_language_nodup reg (files : dict string) :
  forall language_files : dict (dict string),
    NoDup (keys language_files) ->
    NoDup (keys (fold_left (group_by_language reg) files language_files)).
Proof.
  induction files as [|[p c] files IH]; intros lf Hnd; cbn [fold_left];
    [exact Hnd|].
  apply IH. unfold group_by_language.
  destruct (get_analyzer_for_file reg p); [|exact Hnd].
  now apply NoDup_keys_set.
Qed.

Lemma llen_set_le {V} k (v : V) (d : dict V) : llen (set k v d) <= llen d + 1.
Proof.
  induction d as [|[k' v'] d IH]; cbn [set].
  - unfold llen. cbn. lia.
  - destruct (String.eqb k k'); rewrite !llen_cons; lia.
Qed.

Lemma grouped_files_cons l (d : dict string) (lf : dict (dict string)) :
  grouped_files ((l, d) :: lf) = llen d + grouped_files lf.
Proof. unfold grouped_files. cbn [values map snd]. apply sumZ_cons. Qed.

Lemma grouped_files_set l (d' : dict string) (lf : dict (dict string)) :
  llen d' <= llen (@get_default (dict string) l [] lf) + 1 ->
  grouped_files (set l d' lf) <= grouped_files lf + 1.
Proof.
  induction lf as [|[k d] lf IH]; intros Hd'.
  - cbn [set]. rewrite grouped_files_cons. unfold get_default in Hd'.
    cbn in Hd'. unfold grouped_files, sumZ. cbn. unfold llen in *. cbn in *.
    lia.
  - unfold get_default in *. cbn [get set] in *.
    destruct (String.eqb l k).
    + rewrite !grouped_files_cons. lia.
    + rewrite !grouped_files_cons. specialize (IH Hd'). lia.
Qed.

(** No more files are grouped than the map has. *)
Lemma group_by_language_count reg (files : dict string) :
  forall language_files : dict (dict string),
    grouped_files (fold_left (group_by_language reg) files language_files)
    <= grouped_files language_files + llen files.
Proof.
  induction files as [|[p c] files IH]; intros lf; cbn [fold_left].
  - unfold llen. cbn. lia.
  - rewrite llen_cons. specialize (IH (group_by_language reg lf (p, c))).
    assert (grouped_files (group_by_language reg lf (p, c))
            <= grouped_files lf + 1); [|lia].
    unfold group_by_language.
    destruct (get_analyzer_for_file reg p) as [cls|]; [|lia].
    apply grouped_files_set. apply llen_set_le.
Qed.

Lemma fold_nonempty reg (files : dict string) :
  forall language_files : dict (dict string),
    language_files <> [] ->
    fold_left (group_by_language reg) files language_files <> [].
Proof.
  induction files as [|[p c] files IH]; intros lf Hne; cbn [fold_left];
    [exact Hne|].
  apply IH. unfold group_by_language.
  destruct (get_analyzer_for_file reg p); [apply set_nonempty|exact Hne].
Qed.

(** No language is grouped exactly when no file has an analyzer. *)
Lemma group_by_language_nil reg (files : dict string) :
  fold_left (group_by_language reg) files [] = []
  <-> forall item, In item files -> supported reg item = false.
Proof.
  induction files as [|[p c] files IH]; cbn [fold_left].
  - split; [intros _ item []|reflexivity].
  - unfold group_by_language at 2.
    destruct (get_analyzer_for_file reg p) as [cls|] eqn:Hcls.
    + split.
      * intros Hnil. exfalso. revert Hnil. apply fold_nonempty.
        apply set_nonempty.
      * intros Hall. specialize (Hall (p, c) (or_introl eq_refl)).
        unfold supported in Hall. cbn [fst] in Hall. rewrite Hcls in Hall.
        discriminate.
    + rewrite IH. split.
      * intros Hall item [<-|Hin]; [|now apply Hall].
        unfold supported. cbn [fst]. now rewrite Hcls.
      * intros Hall item Hin. apply Hall. now right.
Qed.

(** *** The second loop *)

Section Project.

Variable aux : Type.
Variables deps pats perf comm : dict string -> aux.

Lemma analyzed_le cls (files : dict string) :
  0 <= llen (analyzed cls files) <= llen files.
Proof.
  split; [apply llen_nonneg|]. unfold analyzed, llen.
  pose proof (filter_length_le
                (fun item : string * string =>
                   should_analyze_file cls (fst item)
                   && returned (analyze_file cls (fst item) (snd item)))
                files). lia.
Qed.

Lemma project_file_count_snoc (results : dict (language_result aux)) l lang :
  project_file_count (results ++ [(l, lang)])
  = project_file_count results + file_count lang.
Proof.
  unfold project_file_count, values. rewrite !map_app, sumZ_app.
  cbn [map snd]. unfold sumZ at 2. cbn. lia.
Qed.

(** The second loop returns; the languages it records are distinct, each
    with counts that fit, and their files are among the files grouped. *)
Lemma analyze_languages_counts reg (language_files : dict (dict string)) :
  forall results : dict (language_result aux),
    NoDup (keys language_files) ->
    (forall l d, In (l, d) language_files -> d <> []) ->
    (forall l, In l (keys results) -> ~ In l (keys language_files)) ->
    NoDup (keys results) ->
    Forall counts_fit (values results) ->
    exists results' : dict (language_result aux),
      fold_left (analyze_language deps pats perf comm reg) language_files
                (Returns results)
      = Returns results'
      /\ NoDup (keys results')
      /\ Forall counts_fit (values results')
      /\ project_file_count results'
         <= project_file_count results + grouped_files language_files.
Proof.
  induction language_files as [|[language lang_files] lfs IH];
    intros results Hnd Hne Hfresh Hres_nd Hres; cbn [fold_left].
  - exists results. repeat split; try assumption.
    unfold grouped_files, sumZ. cbn. lia.
  - cbn [keys map fst] in Hnd. inversion Hnd as [|? ? Hlang Hnd']; subst.
    assert (Hne' : forall l d, In (l, d) lfs -> d <> []).
    { intros l d Hin. apply (Hne l d). now right. }
    rewrite grouped_files_cons. pose proof (llen_nonneg lang_files) as Hlen.
    unfold analyze_language at 2. cbn [bind].
    destruct (get_analyzer reg (lower language)) as [analyzer|].
    + destruct (analyze_files_spec analyzer init lang_files init_keys)
        as (self & -> & _ & Htotal & _).
      cbn [bind].
      assert (Habsent : ~ In language (keys results)).
      { intros Hin. apply (Hfresh _ Hin). now left. }
      rewrite (set_absent _ _ _ Habsent).
      match goal with
      | |- context [results ++ [(language, ?lr)]] => set (lang := lr)
      end.
      destruct (IH (results ++ [(language, lang)])) as (results' & Hrun & H).
      * exact Hnd'.
      * exact Hne'.
      * intros l Hin. unfold keys in Hin. rewrite map_app in Hin.
        apply in_app_or in Hin. destruct Hin as [Hin|[<-|[]]].
        -- intros Hl. apply (Hfresh _ Hin). now right.
        -- exact Hlang.
      * unfold keys. rewrite map_app. apply NoDup_app; [exact Hres_nd| |].
        -- repeat constructor. intros [].
        -- intros l Hin [<-|[]]. exact (Habsent Hin).
      * unfold values. rewrite map_app. apply Forall_app.
        split; [exact Hres|]. apply Forall_cons; [|apply Forall_nil].
        cbn [snd]. unfold counts_fit, lang.
        cbn [file_count r_summary get_summary s_total_files].
        rewrite Htotal. cbn [init total_files].
        pose proof (analyzed_le analyzer lang_files) as Hle.
        assert (lang_files <> []) by (apply (Hne language); now left).
        destruct lang_files as [|item lang_files]; [congruence|].
        rewrite llen_cons in *. pose proof (llen_nonneg lang_files). lia.
      * exists results'. split; [exact Hrun|].
        destruct H as (H1 & H2 & H3). repeat split; try assumption.
        rewrite project_file_count_snoc in H3. unfold lang in H3.
        cbn [file_count] in H3. lia.
    + destruct (IH results Hnd' Hne') as (results' & Hrun & H1 & H2 & H3);
        try assumption.
      * intros l Hin Hl. apply (Hfresh _ Hin). now right.
      * exists results'. repeat split; try assumption. lia.
Qed.

Lemma counts_fit_files (langs : list (language_result aux)) :
  Forall counts_fit langs -> Forall (fun lang => 1 <= file_count lang) langs.
Proof. apply Forall_impl. now intros lang [H _]. Qed.

(** The fields of [total_metrics]. *)
Lemma calculate_aggregate_metrics_fields (langs : dict (language_result aux))
  tm :
  calculate_aggregate_metrics langs = Returns (Some tm) ->
  tm_total_files tm = project_file_count langs
  /\ tm_total_lines tm
     = sumZ (map (fun lang => s_total_lines (r_summary lang)) (values langs))
  /\ languages_analyzed tm = keys langs.
Proof.
  unfold calculate_aggregate_metrics.
  destruct langs as [|item langs]; [discriminate|].
  destruct (_ =? 0); [discriminate|]. intros [= <-]. repeat split.
Qed.

(** The whole of [analyze_multi_language_project], by its two loops. *)
Lemma analyze_multi_language_project_run reg (files : dict string) :
  let language_files := fold_left (group_by_language reg) files [] in
  exists langs total,
    fold_left (analyze_language deps pats perf comm reg) language_files
              (Returns [])
    = Returns langs
    /\ calculate_aggregate_metrics langs = Returns total
    /\ analyze_multi_language_project deps pats perf comm reg files
       = Returns
           (Project langs total
              (option_map fst
                 (max_item (map (fun item => (fst item, llen (snd item)))
                                language_files))))
    /\ NoDup (keys langs)
    /\ Forall counts_fit (values langs)
    /\ project_file_count langs <= llen files.
Proof.
  intros language_files.
  destruct (analyze_languages_counts reg language_files [])
    as (langs & Hfold & Hnd & Hfit & Hcount).
  - apply group_by_language_nodup. constructor.
  - apply group_by_language_nonempty. intros l d [].
  - intros l [].
  - constructor.
  - constructor.
  - destruct (calculate_aggregate_metrics_spec aux langs
                (counts_fit_files _ Hfit)) as (total & Htotal & _).
    exists langs, total. split; [exact Hfold|]. split; [exact Htotal|].
    split; [|split; [exact Hnd|split; [exact Hfit|]]].
    + unfold analyze_multi_language_project. fold language_files.
      match goal with
      | |- context [bind ?o _] =>
          replace o with (Returns langs) by (symmetry; exact Hfold)
      end.
      cbn [bind]. rewrite Htotal. reflexivity.
    + pose proof (group_by_language_count reg files []) as Hle.
      fold language_files in Hle.
      unfold project_file_count in Hcount at 2. unfold grouped_files in Hle at 2.
      unfold sumZ in *. cbn in Hcount, Hle. lia.
Qed.

End Project.

End ProjectFacts.

Module ProjectProperties.

Import Py LanguageAnalyzer AnalyzerFactory BaseSpec FactorySpec
       FactoryNotions DictFacts LanguageAnalyzerFacts ScoreFacts
       FactoryFacts RegistryFacts ProjectFacts.
Local Open Scope string_scope.
Local Open Scope list_scope.
Local Open Scope Z_scope.

(** X22: [analyze_multi_language_project] does not see the files for
    which the factory finds no analyzer: taking them out of the map changes
    nothing in what it returns. *)
Theorem unsupported_files_are_ignored (aux : Type)
  (deps pats perf comm : dict string -> aux)
  (reg : registry class) (files : dict string) :
  analyze_multi_language_project deps pats perf comm reg files
  = analyze_multi_language_project deps pats perf comm reg
      (filter (supported reg) files).
Proof.
  unfold analyze_multi_language_project. now rewrite group_supported.
Qed.

(** X23: the counts of a project fit. [analyze_multi_language_project]
    returns; the languages of the result are distinct; each has one file or
    more, and its analyzer has counted no more files than that
    ([summary.total_files] is at most [file_count]); the file counts add up
    to no more than the files of the map; [total_metrics], when it is not
    empty, has that sum as [total_files] and the languages of the result
    as [languages_analyzed]; and [primary_language] is [None] exactly when
    the factory finds an analyzer for no file of the map. *)
Theorem project_counts_fit (aux : Type)
  (deps pats perf comm : dict string -> aux)
  (reg : registry class) (files : dict string) :
  exists r,
    analyze_multi_language_project deps pats perf comm reg files = Returns r
    /\ NoDup (keys (languages r))
    /\ Forall counts_fit (values (languages r))
    /\ project_file_count (languages r) <= llen files
    /\ match total_metrics r with
       | Some tm =>
           tm_total_files tm = project_file_count (languages r)
           /\ languages_analyzed tm = keys (languages r)
       | None => languages r = []
       end
    /\ (primary_language r = None
        <-> forall item, In item files -> supported reg item = false).
Proof.
  destruct (analyze_multi_language_project_run aux deps pats perf comm
              reg files)
    as (langs & total & _ & Htotal & Hrun & Hnd & Hfit & Hcount).
  eexists. split; [exact Hrun|].
  cbn [languages total_metrics primary_language].
  split; [exact Hnd|]. split; [exact Hfit|]. split; [exact Hcount|]. split.
  - destruct total as [tm|].
    + destruct (calculate_aggregate_metrics_fields aux langs tm Htotal)
        as (H1 & _ & H2). auto.
    + destruct (calculate_aggregate_metrics_spec aux langs
                  (counts_fit_files aux _ Hfit)) as (total & Htotal' & H).
      rewrite Htotal in Htotal'. injection Htotal' as <-. exact H.
  - rewrite <- group_by_language_nil.
    destruct (fold_left (group_by_language reg) files []) as [|[l d] lf].
    + cbn. tauto.
    + cbn [map max_item option_map]. split; discriminate.
Qed.

(** X25: the factory and the analyzers do not test the extension of a
    file in the same way: [get_analyzer_for_file] puts the extension in
    lower case, [should_analyze_file] does not. A file that the factory
    gives to an analyzer whose own test refuses it (a file [APP.TS] for the
    TypeScript analyzer) is grouped under the language and counted in
    [file_count] and in [total_files] of [total_metrics], but it is not
    analyzed: the summary of the language has no file and the score 0. *)
Theorem dispatched_but_not_analyzed (aux : Type)
  (deps pats perf comm : dict string -> aux)
  (reg : registry class) (file_path content : string) (cls cls' : class) :
  get_analyzer_for_file reg file_path = Some cls ->
  get_analyzer reg (lower (get_language_name cls)) = Some cls' ->
  should_analyze_file cls' file_path = false ->
  exists r lang tm,
    analyze_multi_language_project deps pats perf comm reg
                                   [(file_path, content)] = Returns r
    /\ languages r = [(get_language_name cls, lang)]
    /\ file_count lang = 1
    /\ s_total_files (r_summary lang) = 0
    /\ s_empathy_score (r_summary lang) = 0%Q
    /\ total_metrics r = Some tm
    /\ tm_total_files tm = 1
    /\ (overall_empathy_score tm == 0)%Q
    /\ primary_language r = Some (get_language_name cls).
Proof.
  intros Hfile Hname Hext.
  unfold analyze_multi_language_project. cbn [fold_left].
  unfold group_by_language. rewrite Hfile.
  cbn [get_default get set fold_left].
  unfold analyze_language. cbn [bind]. rewrite Hname.
  unfold analyze_files. cbn [fold_left]. unfold analyze_step.
  rewrite Hext. cbn [file_metrics bind init metrics total_files total_lines
                     files_done lines_done set].
  eexists. eexists. eexists. split; [reflexivity|].
  cbn [languages total_metrics primary_language file_count r_summary
       get_summary s_total_files s_empathy_score total_files
       tm_total_files overall_empathy_score map fst snd max_item
       max_by_snd option_map].
  repeat split; reflexivity.
Qed.

(** [APP.TS] in the registry of the class body. *)
Lemma dispatched_but_not_analyzed_witness :
  exists r lang tm,
    analyze_multi_language_project
      no_report no_report no_report no_report
      (sample_registry (fun _ _ => []) (fun _ _ => Returns []) (fun _ => []))
      [("APP.TS", "let x = 1;")] = Returns r
    /\ languages r = [("TypeScript", lang)]
    /\ file_count lang = 1
    /\ s_total_files (r_summary lang) = 0
    /\ s_empathy_score (r_summary lang) = 0%Q
    /\ total_metrics r = Some tm
    /\ tm_total_files tm = 1
    /\ (overall_empathy_score tm == 0)%Q
    /\ primary_language r = Some "TypeScript".
Proof.
  exact (dispatched_but_not_analyzed unit
           no_report no_report no_report no_report
           (sample_registry (fun _ _ => []) (fun _ _ => Returns [])
                            (fun _ => []))
           "APP.TS" "let x = 1;"
           (TypeScriptAnalyzer.TypeScriptAnalyzer
              (fun _ _ => []) (fun _ _ => Returns []) (fun _ => []))
           (TypeScriptAnalyzer.TypeScriptAnalyzer
              (fun _ _ => []) (fun _ _ => Returns []) (fun _ => []))
           eq_refl eq_refl eq_refl).
Defined.

End ProjectProperties.

(** ** The file limits of the GitHub client *)

Module LimitProperties.

Import Py GitHubUtils LimitNotions.
Local Open Scope string_scope.
Local Open Scope list_scope.
Local Open Scope Z_scope.

(** X26: when the tiers of the configuration allow fewer files the larger
    they are, [_get_max_files_limit] never allows more files to a larger
    repository, whatever the thresholds of the tiers are. *)
Theorem larger_repositories_get_fewer_files (config : config_t)
  (size1 size2 : Z) :
  fewer_files_for_larger_tiers config ->
  size1 <= size2 ->
  get_max_files_limit config size2 <= get_max_files_limit config size1.
Proof.
  unfold fewer_files_for_larger_tiers, get_max_files_limit. cbv zeta.
  intros (H1 & H2 & H3) Hle.
  repeat match goal with
         | |- context [?t <? ?x] => destruct (Z.ltb_spec t x)
         end; lia.
Qed.

(** The fallback configuration at the two sides of a threshold. *)
Lemma larger_repositories_get_fewer_files_witness :
  get_max_files_limit default_config 10001
  <= get_max_files_limit default_config 10000.
Proof.
  apply (larger_repositories_get_fewer_files default_config 10000 10001).
  - vm_compute. repeat split; intros H; discriminate H.
  - intros H. discriminate H.
Defined.

(** X27: without [config.yaml] the limits are the defaults written in
    [_get_max_files_limit], and the fallback mapping of [_cargar_config]
    gives the same: 150 files up to 10000 KB, 80 up to 50000 KB, 40 up to
    100000 KB and 20 above; a size that equals a threshold is in the tier
    below it. A configuration without the section [github], or without
    [file_limits] in it, gives these limits as well. *)
Theorem default_file_limits (repo_size_kb : Z) :
  get_max_files_limit default_config repo_size_kb
  = (if repo_size_kb <=? 10000 then 150
     else if repo_size_kb <=? 50000 then 80
     else if repo_size_kb <=? 100000 then 40
     else 20)
  /\ get_max_files_limit [] repo_size_kb
     = get_max_files_limit default_config repo_size_kb
  /\ get_max_files_limit [("github", [])] repo_size_kb
     = get_max_files_limit default_config repo_size_kb.
Proof.
  unfold get_max_files_limit. cbn.
  repeat match goal with
         | |- context [?t <? ?x] => destruct (Z.ltb_spec t x)
         | |- context [?x <=? ?t] => destruct (Z.leb_spec x t)
         end; repeat split; lia.
Qed.

End LimitProperties.

(** ** The TypeScript analyzer under [analyze_files] *)

Module TypeScriptFilesProperties.

Import Py LanguageAnalyzer TypeScriptAnalyzer BaseSpec TypeScriptNotions
       Samples DictFacts BaseFacts TypeScriptFacts.
Local Open Scope string_scope.
Local Open Scope list_scope.
Local Open Scope Z_scope.

(** X28: the [KeyError] of the TypeScript analyzer is silent under
    [analyze_files]. When the base JavaScript analysis returns, for every
    TypeScript file of the map, metrics without the category [seguridad],
    [analyze_files] of the TypeScript analyzer returns the metrics of the
    instance and leaves the instance as it was: no file is counted and no
    metric is recorded. *)
Theorem typescript_files_without_security_are_dropped
  (finditer : string -> string -> list re_match)
  (super_analyze_file : string -> string -> outcome metrics_t)
  (super_extract_functions : string -> list function_info)
  (self : LanguageAnalyzer.t) (files : dict string) :
  (forall p c,
     In (p, c) files ->
     should_analyze_file
       (TypeScriptAnalyzer finditer super_analyze_file
                           super_extract_functions) p = true ->
     exists base,
       super_analyze_file p c = Returns base
       /\ get "seguridad" base = None) ->
  analyze_files
    (TypeScriptAnalyzer finditer super_analyze_file super_extract_functions)
    self files
  = Returns (metrics self, self).
Proof.
  intros Hbase.
  set (cls := TypeScriptAnalyzer finditer super_analyze_file
                                 super_extract_functions) in *.
  rewrite analyze_files_analyzed.
  rewrite analyzed_none; [destruct self; reflexivity|].
  intros p c Hin Hext. destruct (Hbase p c Hin Hext) as (base & Hsuper & Hsec).
  change (LanguageAnalyzer.analyze_file cls p c)
    with (analyze_file finditer super_analyze_file super_extract_functions
                       p c).
  rewrite (analyze_file_result _ _ _ _ _ _ Hsuper), Hsec.
  destruct (_ ?= _)%Q; cbn [bind]; eauto.
  destruct (@get leaves "documentacion" base); cbn [bind]; eauto.
Qed.

(** Two TypeScript files whose base result has the category [nombres]
    only, on a fresh instance. *)
Lemma typescript_files_without_security_are_dropped_witness :
  analyze_files
    (TypeScriptAnalyzer typed_ts_finditer (fun _ _ => Returns names_only)
                        (fun _ => []))
    init [("typed.ts", typed_ts); ("view.tsx", "")]
  = Returns (metrics init, init).
Proof.
  apply (typescript_files_without_security_are_dropped typed_ts_finditer
           (fun _ _ => Returns names_only) (fun _ => []) init
           [("typed.ts", typed_ts); ("view.tsx", "")]).
  intros p c _ _. exists names_only. split; reflexivity.
Defined.

End TypeScriptFilesProperties.
